(** * Rule-logic pipeline of the Foundry Rules CLI

    A shallow embedding of the template builder, the extractors, the three
    validation passes and the compression module, together with the
    properties their specification states about them.

    The TypeScript sources walk values of type [unknown] with duck-typed
    property reads, truthiness tests and template literals.  The embedding
    therefore starts from a small model of JavaScript data ([jsval]), of
    the operations the sources apply to it, and of exceptions ([result]).

    Modelling conventions.
    - A [string] holds the UTF-8 bytes of a (well-formed) JavaScript string;
      [js_length] is the [.length] of that string, in UTF-16 code units.
    - Numbers are the integers [Z]: the code under study never computes with
      a numeric payload, it only tests, copies and prints it.
    - Objects are association lists in property order; a value is a tree,
      as [JSON.parse] builds it, so two occurrences of an object are two
      references. *)

From Stdlib Require Import String Ascii List ZArith Bool Arith Lia.
From Stdlib Require Import DecimalString DecimalZ DecimalFacts DecimalNat.
From Stdlib Require Import QArith_base.
Import ListNotations.
Local Close Scope Q_scope.
Local Open Scope list_scope.
Local Open Scope string_scope.
Set Warnings "-register-all".

(* ================================================================== *)
(** * Part I.  Definitions                                              *)
(* ================================================================== *)

(** ** Exceptions and fallible computations *)

Inductive exn : Type :=
| TypeError (message : string)
| SyntaxError (message : string)
| Error (message : string).

Definition message (e : exn) : string :=
  match e with
  | TypeError m | SyntaxError m | Error m => m
  end.

Inductive result (A : Type) : Type :=
| Ok (a : A)
| Throw (e : exn).

Arguments Ok {A} a.
Arguments Throw {A} e.

Definition bind {A B : Type} (c : result A) (k : A -> result B) : result B :=
  match c with
  | Ok a => k a
  | Throw e => Throw e
  end.

Notation "x <- c ;; k" := (bind c (fun x => k))
  (at level 61, c at next level, right associativity).

Definition returns {A : Type} (c : result A) : Prop := exists a, c = Ok a.

(** ** Strings *)

Definition dquote : string := String (ascii_of_nat 34) EmptyString.

Fixpoint join (sep : string) (l : list string) : string :=
  match l with
  | [] => EmptyString
  | [x] => x
  | x :: tl => x ++ sep ++ join sep tl
  end.

(** [l.push(x)] *)
Definition push {A : Type} (l : list A) (x : A) : list A := (l ++ [x])%list.

(** [l.push(msg)] under a condition. *)
Definition push_if (c : bool) (msg : string) (l : list string) : list string :=
  if c then push l msg else l.


(** Number of UTF-16 code units a UTF-8 byte stands for: a continuation
    byte adds nothing, the lead byte of a four-byte sequence opens a
    surrogate pair. *)
Definition code_units (c : ascii) : nat :=
  let n := nat_of_ascii c in
  if (n <? 128)%nat then 1 else if (n <? 192)%nat then 0
  else if (n <? 240)%nat then 1 else 2.

Fixpoint js_length (s : string) : nat :=
  match s with
  | EmptyString => 0
  | String c r => code_units c + js_length r
  end.


Definition string_of_Z (n : Z) : string := NilZero.string_of_int (Z.to_int n).

Definition string_of_nat (n : nat) : string := NilZero.string_of_uint (Nat.to_uint n).

(** ** JavaScript data *)

Inductive jsval : Type :=
| VUndefined
| VNull
| VBool (b : bool)
| VNum (n : Z)
| VStr (s : string)
| VArr (elems : list jsval)
| VObj (fields : list (string * jsval))
| VFun.

Definition nullish (v : jsval) : bool :=
  match v with
  | VUndefined | VNull => true
  | _ => false
  end.

(** [!!v] *)
Definition truthy (v : jsval) : bool :=
  match v with
  | VUndefined | VNull => false
  | VBool b => b
  | VNum n => negb (n =? 0)%Z
  | VStr s => negb (s =? EmptyString)
  | VArr _ | VObj _ | VFun => true
  end.

Definition typeof (v : jsval) : string :=
  match v with
  | VUndefined => "undefined"
  | VNull | VArr _ | VObj _ => "object"
  | VBool _ => "boolean"
  | VNum _ => "number"
  | VStr _ => "string"
  | VFun => "function"
  end.

Definition isArray (v : jsval) : bool :=
  match v with
  | VArr _ => true
  | _ => false
  end.

(** [a === b].  Arrays, objects and functions are compared by reference
    and every occurrence in a tree is a reference of its own. *)
Definition strict_equals (a b : jsval) : bool :=
  match a, b with
  | VUndefined, VUndefined => true
  | VNull, VNull => true
  | VBool x, VBool y => Bool.eqb x y
  | VNum x, VNum y => (x =? y)%Z
  | VStr x, VStr y => (x =? y)
  | _, _ => false
  end.

(** [l.includes(x)] *)
Definition includes (l : list jsval) (x : jsval) : bool :=
  existsb (fun y => strict_equals y x) l.

(** The same for an array the configuration types as [string[]]. *)
Definition includes_str (l : list string) (x : jsval) : bool :=
  includes (map VStr l) x.

(** [Set.prototype.add] on a set kept in insertion order, and
    [t.forEach(p => s.add(p))]. *)
Definition set_add (s : list jsval) (x : jsval) : list jsval :=
  if includes s x then s else push s x.

Definition set_add_all (s t : list jsval) : list jsval :=
  fold_left set_add t s.

(** *** Property reads *)

Fixpoint assoc (k : string) (fs : list (string * jsval)) : option jsval :=
  match fs with
  | [] => None
  | (k', v) :: tl => if k' =? k then Some v else assoc k tl
  end.

Definition object_prototype : list string :=
  [ "constructor"; "__defineGetter__"; "__defineSetter__"; "hasOwnProperty";
    "__lookupGetter__"; "__lookupSetter__"; "isPrototypeOf";
    "propertyIsEnumerable"; "toString"; "valueOf"; "__proto__";
    "toLocaleString" ].

Definition array_prototype : list string :=
  [ "at"; "concat"; "copyWithin"; "entries"; "every"; "fill"; "filter";
    "find"; "findIndex"; "findLast"; "findLastIndex"; "flat"; "flatMap";
    "forEach"; "includes"; "indexOf"; "join"; "keys"; "lastIndexOf"; "map";
    "pop"; "push"; "reduce"; "reduceRight"; "reverse"; "shift"; "slice";
    "some"; "sort"; "splice"; "toReversed"; "toSorted"; "toSpliced";
    "unshift"; "values"; "with" ].

Definition mem (k : string) (l : list string) : bool :=
  existsb (fun x => x =? k) l.

(** An array index written as a property key. *)
Definition index_of_key (k : string) : option nat :=
  match NilZero.uint_of_string k with
  | Some d =>
      let i := Nat.of_uint d in
      if string_of_nat i =? k then Some i else None
  | None => None
  end.

Definition own_property (v : jsval) (k : string) : option jsval :=
  match v with
  | VObj fs => assoc k fs
  | VArr l =>
      if k =? "length" then Some (VNum (Z.of_nat (List.length l)))
      else match index_of_key k with
           | Some i => nth_error l i
           | None => None
           end
  | VStr s =>
      if k =? "length" then Some (VNum (Z.of_nat (js_length s))) else None
  | _ => None
  end.

(** Members found on the prototype chain.  They are built-in methods,
    read as the opaque [VFun]; for the primitive receivers only those of
    [Object.prototype] are listed, no key the sources read names another. *)
Definition inherited (v : jsval) (k : string) : bool :=
  match v with
  | VUndefined | VNull => false
  | VArr _ => mem k array_prototype || mem k object_prototype
  | _ => mem k object_prototype
  end.

(** [v?.k]: [undefined] when [v] is [null] or [undefined]. *)
Definition get_opt (v : jsval) (k : string) : jsval :=
  match own_property v k with
  | Some x => x
  | None =>
      if inherited v k
      then (if k =? "__proto__" then VObj [] else VFun)
      else VUndefined
  end.

(** [v.k]: a [TypeError] when [v] is [null] or [undefined]. *)
Definition get (v : jsval) (k : string) : result jsval :=
  match v with
  | VUndefined =>
      Throw (TypeError ("Cannot read properties of undefined (reading '" ++ k ++ "')"))
  | VNull =>
      Throw (TypeError ("Cannot read properties of null (reading '" ++ k ++ "')"))
  | _ => Ok (get_opt v k)
  end.

(** ['k' in v]: a [TypeError] on a primitive. *)
Definition has_property (k : string) (v : jsval) : result bool :=
  match v with
  | VObj _ | VArr _ | VFun =>
      Ok (match own_property v k with
          | Some _ => true
          | None => inherited v k
          end)
  | _ => Throw (TypeError ("Cannot use 'in' operator to search for '" ++ k ++ "'"))
  end.

(** [a ?? b] *)
Definition coalesce (a b : jsval) : jsval := if nullish a then b else a.

(** *** String conversion

    [String(v)], as a template literal applies it.  An object converts
    through its [toString]; data cannot hold a callable one, so an object
    with a [toString] field of its own has no primitive value. *)
Fixpoint ToString (v : jsval) : result string :=
  match v with
  | VUndefined => Ok "undefined"
  | VNull => Ok "null"
  | VBool true => Ok "true"
  | VBool false => Ok "false"
  | VNum n => Ok (string_of_Z n)
  | VStr s => Ok s
  | VArr l =>
      (fix items (l : list jsval) : result string :=
         match l with
         | [] => Ok EmptyString
         | e :: tl =>
             s <- (if nullish e then Ok EmptyString else ToString e) ;;
             match tl with
             | [] => Ok s
             | _ => r <- items tl ;; Ok (s ++ "," ++ r)
             end
         end) l
  | VObj fs =>
      match assoc "toString" fs with
      | Some _ => Throw (TypeError "Cannot convert object to primitive value")
      | None => Ok "[object Object]"
      end
  | VFun => Ok "function () { [native code] }"
  end.

(** [Object.entries(v)] for a value that is neither [null] nor
    [undefined]; the one-character strings a string is made of are listed
    byte by byte. *)
Definition Object_entries (v : jsval) : list (string * jsval) :=
  match v with
  | VObj fs => fs
  | VArr l => combine (map string_of_nat (seq 0 (List.length l))) l
  | VStr s =>
      let cs := list_ascii_of_string s in
      combine (map string_of_nat (seq 0 (List.length cs)))
              (map (fun c => VStr (String c EmptyString)) cs)
  | _ => []
  end.

(** A loop body run over a list, stopping at the first exception. *)
Fixpoint forEach {A S : Type} (body : S -> A -> result S) (l : list A) (s : S)
  : result S :=
  match l with
  | [] => Ok s
  | x :: tl => s' <- body s x ;; forEach body tl s'
  end.

(** [arr.join(sep)] on an array of values. *)
Fixpoint Array_join (sep : string) (l : list jsval) : result string :=
  match l with
  | [] => Ok EmptyString
  | e :: tl =>
      s <- (if nullish e then Ok EmptyString else ToString e) ;;
      match tl with
      | [] => Ok s
      | _ => r <- Array_join sep tl ;; Ok (s ++ sep ++ r)
      end
  end.

(** Nesting depth of a value; it bounds the recursion of the extractors. *)
Fixpoint depth (v : jsval) : nat :=
  match v with
  | VArr l =>
      (fix elems (l : list jsval) : nat :=
         match l with
         | [] => 0
         | e :: tl => Nat.max (S (depth e)) (elems tl)
         end) l
  | VObj fs =>
      (fix members (fs : list (string * jsval)) : nat :=
         match fs with
         | [] => 0
         | (_, x) :: tl => Nat.max (S (depth x)) (members tl)
         end) fs
  | _ => 0
  end.

(** ** [JSON.stringify] *)

Definition backslash : ascii := ascii_of_nat 92.

Definition hex_digit (n : nat) : ascii :=
  ascii_of_nat (if (n <? 10)%nat then 48 + n else 87 + n).

(** [QuoteJSONString], one character at a time. *)
Definition escape_char (c : ascii) : string :=
  let n := nat_of_ascii c in
  if (n =? 34)%nat then String backslash dquote
  else if (n =? 92)%nat then String backslash (String backslash EmptyString)
  else if (n =? 8)%nat then String backslash "b"
  else if (n =? 9)%nat then String backslash "t"
  else if (n =? 10)%nat then String backslash "n"
  else if (n =? 12)%nat then String backslash "f"
  else if (n =? 13)%nat then String backslash "r"
  else if (n <? 32)%nat then
    String backslash
      ("u00" ++ String (hex_digit (n / 16)) (String (hex_digit (n mod 16)) EmptyString))
  else String c EmptyString.

Fixpoint escape (s : string) : string :=
  match s with
  | EmptyString => EmptyString
  | String c r => escape_char c ++ escape r
  end.

Definition quote (s : string) : string := dquote ++ escape s ++ dquote.

(** A value [JSON.stringify] gives no text for. *)
Definition unserializable (v : jsval) : bool :=
  match v with
  | VUndefined | VFun => true
  | _ => false
  end.

(** The members of an object, each written by [text]; a member whose
    value has no text is left out. *)
Definition member_texts (text : jsval -> string)
  : list (string * jsval) -> list string :=
  fix members (fs : list (string * jsval)) : list string :=
    match fs with
    | [] => []
    | (k, x) :: tl =>
        if unserializable x then members tl
        else (quote k ++ ":" ++ text x) :: members tl
    end.

(** [SerializeJSONProperty] without indentation.  In an array a value
    without text is written [null]. *)
Fixpoint serialize (v : jsval) : string :=
  match v with
  | VUndefined | VFun | VNull => "null"
  | VBool true => "true"
  | VBool false => "false"
  | VNum n => string_of_Z n
  | VStr s => quote s
  | VArr l => "[" ++ join "," (map serialize l) ++ "]"
  | VObj fs => "{" ++ join "," (member_texts serialize fs) ++ "}"
  end.

(** [JSON.stringify(v)]: a string, or [undefined]. *)
Definition JSON_stringify (v : jsval) : jsval :=
  if unserializable v then VUndefined else VStr (serialize v).

(** ** The run-time environment

    The compression module calls [JSON.parse] of the engine and the two
    entry points of the [lz-string] package.  Neither is code of this
    repository: they are parameters of the development, and
    [RuntimeLaws] states what the code relies on. *)

Class Runtime : Type := {
  JSON_parse : string -> result jsval;
  compressToEncodedURIComponent : jsval -> string;
  decompressFromEncodedURIComponent : jsval -> result jsval
}.

(** Data that [JSON.parse] can build: no [undefined], no function, and
    no property written twice in an object. *)
Fixpoint json_value (v : jsval) : Prop :=
  match v with
  | VUndefined | VFun => False
  | VNull | VBool _ | VNum _ | VStr _ => True
  | VArr l =>
      (fix all (l : list jsval) : Prop :=
         match l with
         | [] => True
         | e :: tl => json_value e /\ all tl
         end) l
  | VObj fs =>
      NoDup (map fst fs) /\
      (fix all (fs : list (string * jsval)) : Prop :=
         match fs with
         | [] => True
         | (_, x) :: tl => json_value x /\ all tl
         end) fs
  end.

(** Number of nodes of a value; it bounds the fuel the reference reader
    needs. *)
Fixpoint size (v : jsval) : nat :=
  match v with
  | VArr l =>
      S ((fix elems (l : list jsval) : nat :=
            match l with
            | [] => 0
            | e :: tl => S (size e + elems tl)
            end) l)
  | VObj fs =>
      S ((fix members (fs : list (string * jsval)) : nat :=
            match fs with
            | [] => 0
            | (_, x) :: tl => S (size x + members tl)
            end) fs)
  | _ => 1
  end.

Class RuntimeLaws (R : Runtime) : Prop := {
  (** [JSON.parse] reads back what [JSON.stringify] writes, and throws
      a [SyntaxError] when it throws. *)
  parse_serialize : forall v, json_value v -> JSON_parse (serialize v) = Ok v;
  parse_throws : forall s e, JSON_parse s = Throw e -> exists m, e = SyntaxError m;
  (** [lz-string]: decoding undoes encoding; [null] and [undefined]
      decode to the empty string; a result is [null] or a string. *)
  lz_roundtrip : forall s,
    decompressFromEncodedURIComponent (VStr (compressToEncodedURIComponent (VStr s)))
    = Ok (VStr s);
  lz_nullish : forall v,
    nullish v = true -> decompressFromEncodedURIComponent v = Ok (VStr EmptyString);
  lz_range : forall v r,
    decompressFromEncodedURIComponent v = Ok r -> r = VNull \/ exists s, r = VStr s
}.

(** ** compression.ts *)

Module Compression.
Section WithRuntime.
Context {R : Runtime}.

Definition compress (logic : jsval) : string :=
  let json := JSON_stringify logic in
  let compressed := compressToEncodedURIComponent json in
  serialize (VObj [("compressedValue", VStr compressed);
                   ("type", VStr "compressedValue")]).

Definition decompress (compressedWrapper : string) : result jsval :=
  wrapper <- JSON_parse compressedWrapper ;;
  compressedValue <- get wrapper "compressedValue" ;;
  json <- decompressFromEncodedURIComponent compressedValue ;;
  if negb (truthy json)
  then Throw (Error "Failed to decompress - invalid compressed value")
  else (text <- ToString json ;; JSON_parse text).

Definition getCompressedValue (compressedWrapper : string) : result jsval :=
  wrapper <- JSON_parse compressedWrapper ;;
  get wrapper "compressedValue".

Definition wrapCompressedValue (compressedValue : string) : string :=
  serialize (VObj [("compressedValue", VStr compressedValue);
                   ("type", VStr "compressedValue")]).



End WithRuntime.
End Compression.

(** ** config/types.ts *)

Record PropertyDefinition : Type := {
  property_id : string;
  property_type : string
}.

Record ObjectTypeConfig : Type := {
  objectType_id : string;
  dynamicLookup : bool;
  properties : list PropertyDefinition
}.

Record OutputConfig : Type := {
  output_id : string;
  output_version : string
}.

Record WorkflowDefinition : Type := {
  workflow_name : string;
  workflowRid : string;
  objectType : ObjectTypeConfig;
  output : OutputConfig
}.

Record ValidationConfig : Type := {
  grammarVersion : string;
  supportedStrategyTypes : list string;
  supportedStringFilters : list string;
  unsupportedStringFilters : list string;
  supportedNumericFilters : list string;
  supportedNullFilters : list string
}.

Record ResolvedConfig : Type := {
  workflow : WorkflowDefinition;
  validation : ValidationConfig
}.

(** ** templates/loader.ts *)

Module Templates.

Record BuildResult : Type := {
  success : bool;
  logic : option jsval;
  errors : option (list string)
}.

Definition DEFAULT_MACRO : jsval :=
  VObj [("function", VStr "VALUE");
        ("inputType", VStr "ALL_TYPES");
        ("outputType", VStr "ALL_TYPES")].

(** A parameter declared with a default takes it when the argument is
    [undefined]. *)
Definition default_to (d v : jsval) : jsval :=
  match v with
  | VUndefined => d
  | _ => v
  end.

Definition buildStringEqualsFilter
  (objectTypeId : string) (propertyId value caseSensitive : jsval) : jsval :=
  let caseSensitive := default_to (VBool false) caseSensitive in
  VObj [("columnFilterRule",
         VObj [("column",
                VObj [("objectProperty",
                       VObj [("objectTypeId", VStr objectTypeId);
                             ("propertyTypeId", propertyId)]);
                      ("type", VStr "objectProperty")]);
               ("filter",
                VObj [("stringColumnFilter",
                       VObj [("type", VStr "EQUALS");
                             ("caseSensitive", caseSensitive);
                             ("ignoreWhitespace", VBool false);
                             ("values", VArr [value]);
                             ("macro", DEFAULT_MACRO)]);
                      ("type", VStr "stringColumnFilter")])]);
        ("type", VStr "columnFilterRule")].

Definition buildStringOrFilter
  (objectTypeId : string) (propertyId : jsval) (values : list jsval)
  (caseSensitive : jsval) : jsval :=
  let caseSensitive := default_to (VBool false) caseSensitive in
  let filters :=
    map (fun value => buildStringEqualsFilter objectTypeId propertyId value caseSensitive)
        values in
  VObj [("orFilterRule", VObj [("filters", VArr filters)]);
        ("type", VStr "orFilterRule")].

Definition buildNumericFilter
  (objectTypeId : string) (propertyId : jsval) (comparison : string)
  (value : jsval) : jsval :=
  VObj [("columnFilterRule",
         VObj [("column",
                VObj [("objectProperty",
                       VObj [("objectTypeId", VStr objectTypeId);
                             ("propertyTypeId", propertyId)]);
                      ("type", VStr "objectProperty")]);
               ("filter",
                VObj [("numericColumnFilter",
                       VObj [("type", VStr comparison);
                             ("values", VArr [value]);
                             ("macro", DEFAULT_MACRO)]);
                      ("type", VStr "numericColumnFilter")])]);
        ("type", VStr "columnFilterRule")].

Definition buildNumericRangeFilter
  (objectTypeId : string) (propertyId min max : jsval) : result jsval :=
  let filters : list jsval := [] in
  let filters :=
    if negb (strict_equals min VUndefined)
    then (push filters (buildNumericFilter objectTypeId propertyId "GREATER_THAN_OR_EQUAL" min))
    else filters in
  let filters :=
    if negb (strict_equals max VUndefined)
    then (push filters (buildNumericFilter objectTypeId propertyId "LESS_THAN_OR_EQUAL" max))
    else filters in
  match filters with
  | [] => Throw (Error "Numeric range filter requires at least min or max")
  | [only] => Ok only
  | _ => Ok (VObj [("andFilterRule", VObj [("filters", VArr filters)]);
                   ("type", VStr "andFilterRule")])
  end.

Definition buildNullFilter
  (objectTypeId : string) (propertyId : jsval) (isNull : jsval) : jsval :=
  VObj [("columnFilterRule",
         VObj [("column",
                VObj [("objectProperty",
                       VObj [("objectTypeId", VStr objectTypeId);
                             ("propertyTypeId", propertyId)]);
                      ("type", VStr "objectProperty")]);
               ("filter",
                VObj [("nullColumnFilter",
                       VObj [("type", VStr (if truthy isNull then "NULL" else "NOT_NULL"))]);
                      ("type", VStr "nullColumnFilter")])]);
        ("type", VStr "columnFilterRule")].

Definition wrapFilterAsRuleLogic (filter : jsval) (workflow : WorkflowDefinition)
  : jsval :=
  VObj [("namedStrategies", VObj []);
        ("strategyComponents", VNull);
        ("grammarVersion", VStr "V1");
        ("strategy",
         VObj [("filterNode",
                VObj [("nodeInput",
                       VObj [("source",
                              VObj [("objectTypeId", VStr (objectType_id (objectType workflow)));
                                    ("type", VStr "objectTypeId")]);
                             ("type", VStr "source")]);
                      ("filter", filter);
                      ("joinFilterInputs", VObj [])]);
               ("type", VStr "filterNode")]);
        ("workflowRid", VStr (workflowRid workflow));
        ("effect",
         VObj [("v2",
                VObj [("outputAndVersion",
                       VObj [("outputId", VStr (output_id (output workflow)));
                             ("outputVersion", VStr (output_version (output workflow)));
                             ("workflowRid", VStr (workflowRid workflow))]);
                      ("parameterValues", VObj [])]);
               ("type", VStr "v2")])].

Definition failure (errors : list string) : BuildResult :=
  {| success := false; logic := None; errors := Some errors |}.

(** The body of the [try] block of [buildFromTemplate]: the filter of the
    template, or the result returned from inside the [switch]. *)
Definition templateFilter
  (templateName : string) (params : jsval) (objectTypeId : string)
  : result (jsval + BuildResult) :=
  let errors : list string := [] in
  if templateName =? "string-equals" then
    propertyId <- get params "propertyId" ;;
    value <- get params "value" ;;
    caseSensitive0 <- get params "caseSensitive" ;;
    let caseSensitive := coalesce caseSensitive0 (VBool false) in
    let errors := push_if (negb (truthy propertyId))
                    "Missing required parameter: propertyId" errors in
    let errors := push_if (negb (truthy value))
                    "Missing required parameter: value" errors in
    if (0 <? List.length errors)%nat then Ok (inr (failure errors))
    else Ok (inl (buildStringEqualsFilter objectTypeId propertyId value caseSensitive))
  else if templateName =? "string-or" then
    propertyId <- get params "propertyId" ;;
    values <- get params "values" ;;
    caseSensitive0 <- get params "caseSensitive" ;;
    let caseSensitive := coalesce caseSensitive0 (VBool false) in
    let errors := push_if (negb (truthy propertyId))
                    "Missing required parameter: propertyId" errors in
    let errors :=
      push_if (negb (truthy values) || negb (isArray values) ||
               match values with
               | VArr l => (List.length l =? 0)%nat
               | _ => false
               end)
        "Missing or empty required parameter: values" errors in
    if (0 <? List.length errors)%nat then Ok (inr (failure errors))
    else match values with
         | VArr l => Ok (inl (buildStringOrFilter objectTypeId propertyId l caseSensitive))
         | _ => Throw (TypeError "values.map is not a function")
         end
  else if templateName =? "numeric-range" then
    propertyId <- get params "propertyId" ;;
    min <- get params "min" ;;
    max <- get params "max" ;;
    let errors := push_if (negb (truthy propertyId))
                    "Missing required parameter: propertyId" errors in
    let errors := push_if (strict_equals min VUndefined && strict_equals max VUndefined)
                    "At least one of min or max is required" errors in
    if (0 <? List.length errors)%nat then Ok (inr (failure errors))
    else (filter <- buildNumericRangeFilter objectTypeId propertyId min max ;;
          Ok (inl filter))
  else if templateName =? "null-check" then
    propertyId <- get params "propertyId" ;;
    isNull0 <- get params "isNull" ;;
    let isNull := coalesce isNull0 (VBool true) in
    let errors := push_if (negb (truthy propertyId))
                    "Missing required parameter: propertyId" errors in
    if (0 <? List.length errors)%nat then Ok (inr (failure errors))
    else Ok (inl (buildNullFilter objectTypeId propertyId isNull))
  else
    Ok (inr (failure ["Unknown template: " ++ templateName])).

Definition buildFromTemplate
  (templateName : string) (params : jsval) (workflow : WorkflowDefinition)
  : BuildResult :=
  let objectTypeId := objectType_id (objectType workflow) in
  match templateFilter templateName params objectTypeId with
  | Ok (inl filter) =>
      let logic := wrapFilterAsRuleLogic filter workflow in
      {| success := true; logic := Some logic; errors := None |}
  | Ok (inr returned) => returned
  | Throw e => failure [message e]
  end.

(** The parameters [getBuiltInTemplates] lists without a question mark. *)
Definition required_parameters (templateName : string) : list string :=
  if templateName =? "string-equals" then ["propertyId"; "value"]
  else if templateName =? "string-or" then ["propertyId"; "values"]
  else if templateName =? "numeric-range" then ["propertyId"]
  else if templateName =? "null-check" then ["propertyId"]
  else [].

Record BuiltInTemplate : Type := {
  template_name : string;
  template_description : string;
  template_parameters : list string
}.

Definition getBuiltInTemplates : list BuiltInTemplate :=
  [ {| template_name := "string-equals";
       template_description := "Simple string equality filter";
       template_parameters := ["propertyId"; "value"; "caseSensitive?"] |};
    {| template_name := "string-or";
       template_description := "OR filter with multiple string values";
       template_parameters := ["propertyId"; "values[]"; "caseSensitive?"] |};
    {| template_name := "numeric-range";
       template_description := "Numeric range filter (min <= value <= max)";
       template_parameters := ["propertyId"; "min?"; "max?"] |};
    {| template_name := "null-check";
       template_description := "Check if property is null or not null";
       template_parameters := ["propertyId"; "isNull?"] |} ].

End Templates.

(** ** The traversal of a filter tree

    [properties.ts] and [filters.ts] hold four extractors with one and the
    same body: they differ in what they take from a [columnFilterRule].
    [leaf] is that part and [visit] the body, with [recur] for the
    recursive call.  [traverse] ties the knot on a [fuel] that bounds the
    recursion; [depth filter] is always enough of it, so that [extract]
    satisfies the equation of the source function ([extract_unfold]
    below). *)

Section FilterTraversal.

Variable leaf : list jsval -> jsval -> result (list jsval).

(** [for (const subFilter of filters) recur(subFilter).forEach(p => found.add(p))] *)
Definition visit_all (recur : jsval -> result (list jsval))
  (subFilters : list jsval) (found : list jsval) : result (list jsval) :=
  forEach (fun found subFilter =>
             sub <- recur subFilter ;;
             Ok (set_add_all found sub))
          subFilters found.

(** The block run for a truthy [orFilterRule] or [andFilterRule]. *)
Definition visit_filters (recur : jsval -> result (list jsval))
  (rule : jsval) (found : list jsval) : result (list jsval) :=
  filters <- get rule "filters" ;;
  match filters with
  | VArr subFilters => visit_all recur subFilters found
  | _ => Ok found
  end.

(** The block run for a truthy [notFilterRule]. *)
Definition visit_inner (recur : jsval -> result (list jsval))
  (rule : jsval) (found : list jsval) : result (list jsval) :=
  inner <- get rule "filter" ;;
  sub <- recur inner ;;
  Ok (set_add_all found sub).

Definition visit (recur : jsval -> result (list jsval)) (filter : jsval)
  : result (list jsval) :=
  let found : list jsval := [] in
  if negb (truthy filter) || negb (typeof filter =? "object") then Ok found
  else
    let f := filter in
    columnFilterRule <- get f "columnFilterRule" ;;
    found <- (if truthy columnFilterRule
              then leaf found columnFilterRule
              else Ok found) ;;
    orFilterRule <- get f "orFilterRule" ;;
    found <- (if truthy orFilterRule
              then visit_filters recur orFilterRule found
              else Ok found) ;;
    andFilterRule <- get f "andFilterRule" ;;
    found <- (if truthy andFilterRule
              then visit_filters recur andFilterRule found
              else Ok found) ;;
    notFilterRule <- get f "notFilterRule" ;;
    found <- (if truthy notFilterRule
              then visit_inner recur notFilterRule found
              else Ok found) ;;
    Ok found.

Fixpoint traverse (fuel : nat) (filter : jsval) {struct fuel} : result (list jsval) :=
  match fuel with
  | O => Ok []
  | S fuel => visit (traverse fuel) filter
  end.

Definition extract (filter : jsval) : result (list jsval) :=
  traverse (S (depth filter)) filter.

End FilterTraversal.

(** ** The traversal of a filter tree with an accumulator

    [validateIgnoreWhitespaceRecursive] and [validateFilterPropertyTypes]
    walk the tree in the same order, and push what they find on arrays
    they are given: [state] is what those arrays hold.  [check] is to
    them what [leaf] is to the extractors. *)

Section FilterWalk.

Variable state : Type.
Variable check : state -> jsval -> result state.

(** [for (const subFilter of filters) recur(subFilter, ...)] *)
Definition walk_all (recur : jsval -> state -> result state)
  (subFilters : list jsval) (st : state) : result state :=
  forEach (fun st subFilter => recur subFilter st) subFilters st.

Definition walk_filters (recur : jsval -> state -> result state)
  (rule : jsval) (st : state) : result state :=
  filters <- get rule "filters" ;;
  match filters with
  | VArr subFilters => walk_all recur subFilters st
  | _ => Ok st
  end.

Definition walk_inner (recur : jsval -> state -> result state)
  (rule : jsval) (st : state) : result state :=
  inner <- get rule "filter" ;;
  recur inner st.

Definition walk_visit (recur : jsval -> state -> result state) (filter : jsval)
  (st : state) : result state :=
  if negb (truthy filter) || negb (typeof filter =? "object") then Ok st
  else
    let f := filter in
    columnFilterRule <- get f "columnFilterRule" ;;
    st <- (if truthy columnFilterRule then check st columnFilterRule else Ok st) ;;
    orFilterRule <- get f "orFilterRule" ;;
    st <- (if truthy orFilterRule then walk_filters recur orFilterRule st else Ok st) ;;
    andFilterRule <- get f "andFilterRule" ;;
    st <- (if truthy andFilterRule then walk_filters recur andFilterRule st else Ok st) ;;
    notFilterRule <- get f "notFilterRule" ;;
    st <- (if truthy notFilterRule then walk_inner recur notFilterRule st else Ok st) ;;
    Ok st.

Fixpoint walk_fuel (fuel : nat) (filter : jsval) (st : state) {struct fuel}
  : result state :=
  match fuel with
  | O => Ok st
  | S fuel => walk_visit (walk_fuel fuel) filter st
  end.

Definition walk (filter : jsval) (st : state) : result state :=
  walk_fuel (S (depth filter)) filter st.

End FilterWalk.

Arguments walk_all {state} recur subFilters st.
Arguments walk_filters {state} recur rule st.
Arguments walk_inner {state} recur rule st.
Arguments walk_visit {state} check recur filter st.
Arguments walk_fuel {state} check fuel filter st.
Arguments walk {state} check filter st.


(** [a || b] *)
Definition or_else (a b : jsval) : jsval := if truthy a then a else b.

(** ** validation/properties.ts *)

Module Properties.

Record PropertyValidationResult : Type := {
  valid : bool;
  errors : list string;
  usedProperties : list jsval;
  validProperties : list string
}.

(** The column-filter case of [extractPropertiesFromFilter]. *)
Definition columnProperty (properties : list jsval) (rule : jsval)
  : result (list jsval) :=
  column <- get rule "column" ;;
  let objProp := get_opt column "objectProperty" in
  if truthy (get_opt objProp "propertyTypeId")
  then Ok (set_add properties (get_opt objProp "propertyTypeId"))
  else Ok properties.

Definition extractPropertiesFromFilter (filter : jsval) : result (list jsval) :=
  extract columnProperty filter.

Definition extractPropertyFromColumn (column : jsval) : result jsval :=
  if negb (truthy column) || negb (typeof column =? "object") then Ok VNull
  else
    objProp <- get column "objectProperty" ;;
    Ok (or_else (get_opt objProp "propertyTypeId") VNull).

Definition add_if_truthy (properties : list jsval) (propId : jsval) : list jsval :=
  if truthy propId then set_add properties propId else properties.

Definition extractPropertiesFromWindowNode (node : jsval) : result (list jsval) :=
  let properties : list jsval := [] in
  if negb (truthy node) || negb (typeof node =? "object") then Ok properties
  else
    columnsToAdd <- get node "columnsToAdd" ;;
    properties <-
      match columnsToAdd with
      | VArr cols =>
          forEach (fun properties col =>
                     def <- get col "columnDefinition" ;;
                     propId <- extractPropertyFromColumn (get_opt def "column") ;;
                     Ok (add_if_truthy properties propId))
                  cols properties
      | _ => Ok properties
      end ;;
    partitionBy <- get node "partitionBy" ;;
    properties <-
      match partitionBy with
      | VArr cols =>
          forEach (fun properties col =>
                     propId <- extractPropertyFromColumn col ;;
                     Ok (add_if_truthy properties propId))
                  cols properties
      | _ => Ok properties
      end ;;
    Ok properties.

Definition extractPropertiesFromAggregationNode (node : jsval) : result (list jsval) :=
  let properties : list jsval := [] in
  if negb (truthy node) || negb (typeof node =? "object") then Ok properties
  else
    columnsToAdd <- get node "columnsToAdd" ;;
    properties <-
      match columnsToAdd with
      | VArr cols =>
          forEach (fun properties col =>
                     def <- get col "columnDefinition" ;;
                     propId <- extractPropertyFromColumn (get_opt def "aggregationColumn") ;;
                     Ok (add_if_truthy properties propId))
                  cols properties
      | _ => Ok properties
      end ;;
    groupByColumns <- get node "groupByColumns" ;;
    properties <-
      match groupByColumns with
      | VArr cols =>
          forEach (fun properties col =>
                     column <- get col "column" ;;
                     propId <- extractPropertyFromColumn column ;;
                     Ok (add_if_truthy properties propId))
                  cols properties
      | _ => Ok properties
      end ;;
    Ok properties.

(** One turn of the loop over [Object.entries(parameterValues)]. *)
Definition parameterProperty (properties : list jsval) (entry : string * jsval)
  : result (list jsval) :=
  let v := snd entry in
  if strict_equals (get_opt v "type") (VStr "column") then
    column <- get v "column" ;;
    propId <- extractPropertyFromColumn column ;;
    Ok (add_if_truthy properties propId)
  else Ok properties.

Definition extractAllProperties (logic : jsval) : result (list jsval) :=
  let properties : list jsval := [] in
  if negb (truthy logic) || negb (typeof logic =? "object") then Ok properties
  else
    let l := logic in
    strategy <- get l "strategy" ;;
    if negb (truthy strategy) then Ok properties
    else
      filterNode <- get strategy "filterNode" ;;
      properties <- (if truthy filterNode then
                       filter <- get filterNode "filter" ;;
                       found <- extractPropertiesFromFilter filter ;;
                       Ok (set_add_all properties found)
                     else Ok properties) ;;
      windowNode <- get strategy "windowNode" ;;
      properties <- (if truthy windowNode then
                       found <- extractPropertiesFromWindowNode windowNode ;;
                       Ok (set_add_all properties found)
                     else Ok properties) ;;
      aggregationNode <- get strategy "aggregationNode" ;;
      properties <- (if truthy aggregationNode then
                       found <- extractPropertiesFromAggregationNode aggregationNode ;;
                       Ok (set_add_all properties found)
                     else Ok properties) ;;
      effect <- get l "effect" ;;
      let v2 := get_opt effect "v2" in
      let parameterValues := get_opt v2 "parameterValues" in
      properties <- (if truthy parameterValues
                     then forEach parameterProperty
                                  (Object_entries parameterValues) properties
                     else Ok properties) ;;
      Ok properties.

Definition missingPropertyError
  (prop : string) (objectTypeConfig : ObjectTypeConfig) (validProperties : list string)
  : string :=
  "Property " ++ dquote ++ prop ++ dquote ++ " does not exist on object type "
  ++ dquote ++ objectType_id objectTypeConfig ++ dquote ++ ". "
  ++ "Valid properties: " ++ join ", " validProperties.

(** One turn of the loop of [validateProperties] over the used
    properties. *)
Definition checkProperty
  (objectTypeConfig : ObjectTypeConfig) (validProperties : list string)
  (errors : list string) (prop : jsval) : result (list string) :=
  if negb (includes_str validProperties prop) then
    text <- ToString prop ;;
    Ok (push errors (missingPropertyError text objectTypeConfig validProperties))
  else Ok errors.

Definition validateProperties (logic : jsval) (objectTypeConfig : ObjectTypeConfig)
  : result PropertyValidationResult :=
  let errors : list string := [] in
  usedProperties <- extractAllProperties logic ;;
  let usedList := usedProperties in
  let validProperties := map property_id (properties objectTypeConfig) in
  errors <- forEach (checkProperty objectTypeConfig validProperties) usedList errors ;;
  Ok {| valid := (List.length errors =? 0)%nat;
        errors := errors;
        usedProperties := usedList;
        validProperties := validProperties |}.

Record PropertySummary : Type := {
  summary_properties : list jsval;
  count : nat
}.

Definition getPropertySummary (logic : jsval) : result PropertySummary :=
  properties <- extractAllProperties logic ;;
  Ok {| summary_properties := properties; count := List.length properties |}.

(** A [Map] with string keys, in insertion order: [set] keeps the place
    of a key it already holds, [get] finds string keys only. *)
Fixpoint map_set (m : list (string * string)) (k v : string) : list (string * string) :=
  match m with
  | [] => [(k, v)]
  | (k', v') :: tl => if k' =? k then (k', v) :: tl else (k', v') :: map_set tl k v
  end.

Fixpoint map_find (m : list (string * string)) (k : string) : option string :=
  match m with
  | [] => None
  | (k', v) :: tl => if k' =? k then Some v else map_find tl k
  end.

Definition map_get (m : list (string * string)) (key : jsval) : option string :=
  match key with
  | VStr k => map_find m k
  | _ => None
  end.

Definition propertyTypeMap (objectTypeConfig : ObjectTypeConfig) : list (string * string) :=
  fold_left (fun propTypes prop => map_set propTypes (property_id prop) (property_type prop))
            (properties objectTypeConfig) [].

Definition propertyTypeError (propId expectedType kind : string) : string :=
  "Property " ++ dquote ++ propId ++ dquote ++ " is type " ++ dquote ++ expectedType
  ++ dquote ++ " but used with " ++ kind.

(** The column-filter case of [validateFilterPropertyTypes]; the state is
    the pair of [errors] and [usedProperties]. *)
Definition checkFilterPropertyType (propTypes : list (string * string))
  (st : list string * list jsval) (rule : jsval) : result (list string * list jsval) :=
  let (errors, usedProperties) := st in
  column <- get rule "column" ;;
  let objProp := get_opt column "objectProperty" in
  let propId := get_opt objProp "propertyTypeId" in
  columnFilter <- get rule "filter" ;;
  if truthy propId then
    let usedProperties := push usedProperties propId in
    match map_get propTypes propId with
    | Some expectedType =>
        if negb (expectedType =? EmptyString) && truthy columnFilter then
          errors <- (if truthy (get_opt columnFilter "stringColumnFilter")
                        && negb (expectedType =? "string")
                     then
                       text <- ToString propId ;;
                       Ok (push errors
                             (propertyTypeError text expectedType "stringColumnFilter"))
                     else Ok errors) ;;
          errors <- (if truthy (get_opt columnFilter "numericColumnFilter")
                        && negb (expectedType =? "number")
                     then
                       text <- ToString propId ;;
                       Ok (push errors
                             (propertyTypeError text expectedType "numericColumnFilter"))
                     else Ok errors) ;;
          Ok (errors, usedProperties)
        else Ok (errors, usedProperties)
    | None => Ok (errors, usedProperties)
    end
  else Ok (errors, usedProperties).

Definition validateFilterPropertyTypes (filter : jsval)
  (propTypes : list (string * string)) (errors : list string)
  (usedProperties : list jsval) : result (list string * list jsval) :=
  walk (checkFilterPropertyType propTypes) filter (errors, usedProperties).

Definition validatePropertyTypes (logic : jsval) (objectTypeConfig : ObjectTypeConfig)
  : result PropertyValidationResult :=
  let errors : list string := [] in
  let usedProperties : list jsval := [] in
  let validProperties := map property_id (properties objectTypeConfig) in
  let propTypes := propertyTypeMap objectTypeConfig in
  let l := logic in
  let strategy := get_opt l "strategy" in
  let filterNode := get_opt strategy "filterNode" in
  st <- (if truthy (get_opt filterNode "filter")
         then validateFilterPropertyTypes (get_opt filterNode "filter")
                propTypes errors usedProperties
         else Ok (errors, usedProperties)) ;;
  let (errors, usedProperties) := st in
  Ok {| valid := (List.length errors =? 0)%nat;
        errors := errors;
        usedProperties := usedProperties;
        validProperties := validProperties |}.


End Properties.

(** ** validation/filters.ts *)

Module Filters.

Record UsedFilters : Type := {
  used_string : list jsval;
  used_numeric : list jsval;
  used_null : list jsval
}.

Record FilterValidationResult : Type := {
  valid : bool;
  errors : list string;
  warnings : list string;
  usedFilters : UsedFilters
}.

(** The column-filter case of the three extractors; [kind] is
    [stringColumnFilter], [numericColumnFilter] or [nullColumnFilter]. *)
Definition columnFilterType (kind : string) (types : list jsval) (rule : jsval)
  : result (list jsval) :=
  columnFilter <- get rule "filter" ;;
  let typedFilter := get_opt columnFilter kind in
  if truthy (get_opt typedFilter "type")
  then Ok (set_add types (get_opt typedFilter "type"))
  else Ok types.

Definition extractStringFilterTypes (filter : jsval) : result (list jsval) :=
  extract (columnFilterType "stringColumnFilter") filter.

Definition extractNumericFilterTypes (filter : jsval) : result (list jsval) :=
  extract (columnFilterType "numericColumnFilter") filter.

Definition extractNullFilterTypes (filter : jsval) : result (list jsval) :=
  extract (columnFilterType "nullColumnFilter") filter.

Definition unsupportedStringError (filterType : string) (config : ValidationConfig)
  : string :=
  "String filter type " ++ dquote ++ filterType ++ dquote ++ " is not supported. "
  ++ "Use one of: " ++ join ", " (supportedStringFilters config).

Definition untestedStringWarning (filterType : string) : string :=
  "String filter type " ++ dquote ++ filterType ++ dquote
  ++ " is not in the list of tested filters. "
  ++ "It may not render correctly in the UI.".

Definition untestedNumericWarning (filterType : string) : string :=
  "Numeric filter type " ++ dquote ++ filterType ++ dquote
  ++ " is not in the list of tested filters.".

Definition untestedNullWarning (filterType : string) : string :=
  "Null filter type " ++ dquote ++ filterType ++ dquote
  ++ " is not in the list of tested filters.".

(** One turn of the loop over the string filter types: the state is the
    pair of [errors] and [warnings]. *)
Definition checkStringFilter (validationConfig : ValidationConfig)
  (state : list string * list string) (filterType : jsval)
  : result (list string * list string) :=
  let (errors, warnings) := state in
  if includes_str (unsupportedStringFilters validationConfig) filterType then
    text <- ToString filterType ;;
    Ok ((push errors (unsupportedStringError text validationConfig)), warnings)
  else if negb (includes_str (supportedStringFilters validationConfig) filterType) then
    text <- ToString filterType ;;
    Ok (errors, (push warnings (untestedStringWarning text)))
  else Ok (errors, warnings).

(** One turn of the loops over the numeric and the null filter types. *)
Definition checkTestedFilter (supported : list string) (warning : string -> string)
  (warnings : list string) (filterType : jsval) : result (list string) :=
  if negb (includes_str supported filterType) then
    text <- ToString filterType ;;
    Ok (push warnings (warning text))
  else Ok warnings.

Definition validateFilterTypes (logic : jsval) (validationConfig : ValidationConfig)
  : result FilterValidationResult :=
  let errors : list string := [] in
  let warnings : list string := [] in
  let l := logic in
  let strategy := get_opt l "strategy" in
  let filterNode := get_opt strategy "filterNode" in
  let filter := get_opt filterNode "filter" in
  stringTypes <- extractStringFilterTypes filter ;;
  numericTypes <- extractNumericFilterTypes filter ;;
  nullTypes <- extractNullFilterTypes filter ;;
  state <- forEach (checkStringFilter validationConfig) stringTypes (errors, warnings) ;;
  let (errors, warnings) := state in
  warnings <- (if (0 <? List.length (supportedNumericFilters validationConfig))%nat
               then forEach (checkTestedFilter (supportedNumericFilters validationConfig)
                                               untestedNumericWarning)
                            numericTypes warnings
               else Ok warnings) ;;
  warnings <- (if (0 <? List.length (supportedNullFilters validationConfig))%nat
               then forEach (checkTestedFilter (supportedNullFilters validationConfig)
                                               untestedNullWarning)
                            nullTypes warnings
               else Ok warnings) ;;
  Ok {| valid := (List.length errors =? 0)%nat;
        errors := errors;
        warnings := warnings;
        usedFilters := {| used_string := stringTypes;
                          used_numeric := numericTypes;
                          used_null := nullTypes |} |}.

Record FilterSummary : Type := {
  stringFilters : list jsval;
  numericFilters : list jsval;
  nullFilters : list jsval;
  hasCompoundFilters : bool
}.

Definition getFilterSummary (logic : jsval) : result FilterSummary :=
  let l := logic in
  let strategy := get_opt l "strategy" in
  let filterNode := get_opt strategy "filterNode" in
  let filter := get_opt filterNode "filter" in
  stringTypes <- extractStringFilterTypes filter ;;
  numericTypes <- extractNumericFilterTypes filter ;;
  nullTypes <- extractNullFilterTypes filter ;;
  Ok {| stringFilters := stringTypes;
        numericFilters := numericTypes;
        nullFilters := nullTypes;
        hasCompoundFilters :=
          truthy (or_else (or_else (get_opt filter "orFilterRule")
                                   (get_opt filter "andFilterRule"))
                          (get_opt filter "notFilterRule")) |}.

Definition corrections : jsval :=
  VObj [("REGEX", VStr "MATCHES");
        ("WILDCARD", VStr "EQUALS_WITH_WILDCARDS");
        ("IS_NULL", VStr "NULL");
        ("IS_NOT_NULL", VStr "NOT_NULL");
        ("GREATER_THAN_OR_EQUALS", VStr "GREATER_THAN_OR_EQUAL");
        ("LESS_THAN_OR_EQUALS", VStr "LESS_THAN_OR_EQUAL");
        ("GTE", VStr "GREATER_THAN_OR_EQUAL");
        ("LTE", VStr "LESS_THAN_OR_EQUAL");
        ("GT", VStr "GREATER_THAN");
        ("LT", VStr "LESS_THAN");
        ("EQ", VStr "EQUALS");
        ("NEQ", VStr "Use NOT(EQUALS) instead");
        ("NOT_EQUALS", VStr "Use NOT(EQUALS) instead")].

Definition suggestCorrections (filterType : string) : jsval :=
  or_else (get_opt corrections filterType) VNull.

Definition requiresIgnoreWhitespace (filterType : jsval) : bool :=
  includes_str ["CONTAINS"; "MATCHES"; "EQUALS_WITH_WILDCARDS"] filterType.

Definition ignoreWhitespaceError (filterType ignoreWhitespace : string) : string :=
  "String filter type " ++ dquote ++ filterType ++ dquote
  ++ " requires ignoreWhitespace: true, " ++ "but got: " ++ ignoreWhitespace.

(** The column-filter case of [validateIgnoreWhitespaceRecursive]. *)
Definition checkIgnoreWhitespace (errors : list string) (rule : jsval)
  : result (list string) :=
  columnFilter <- get rule "filter" ;;
  let strFilter := get_opt columnFilter "stringColumnFilter" in
  if truthy strFilter then
    filterType <- get strFilter "type" ;;
    ignoreWhitespace <- get strFilter "ignoreWhitespace" ;;
    if requiresIgnoreWhitespace filterType
       && negb (strict_equals ignoreWhitespace (VBool true))
    then
      type_text <- ToString filterType ;;
      got <- ToString ignoreWhitespace ;;
      Ok (push errors (ignoreWhitespaceError type_text got))
    else Ok errors
  else Ok errors.

Definition validateIgnoreWhitespaceRecursive (filter : jsval) (errors : list string)
  : result (list string) :=
  walk checkIgnoreWhitespace filter errors.

Record WhitespaceResult : Type := {
  whitespace_valid : bool;
  whitespace_errors : list string
}.

Definition validateIgnoreWhitespace (filter : jsval) : result WhitespaceResult :=
  let errors : list string := [] in
  errors <- validateIgnoreWhitespaceRecursive filter errors ;;
  Ok {| whitespace_valid := (List.length errors =? 0)%nat;
        whitespace_errors := errors |}.


End Filters.

(** ** validation/schema.ts *)

Module Schema.

Record ValidationResult : Type := {
  valid : bool;
  errors : list string;
  warnings : option (list string)
}.

(** The [else] branch of the strategy check. *)
Definition checkStrategy (validationConfig : ValidationConfig) (strategy : jsval)
  (errors : list string) : result (list string) :=
  strategyType <- get strategy "type" ;;
  errors <- (if negb (includes_str (supportedStrategyTypes validationConfig) strategyType)
             then
               text <- ToString strategyType ;;
               Ok (push errors ("strategy.type must be one of ["
                    ++ join ", " (supportedStrategyTypes validationConfig)
                    ++ "], got: " ++ text))
             else Ok errors) ;;
  errors <- (if truthy strategyType then
               key <- ToString strategyType ;;
               node <- get strategy key ;;
               if negb (truthy node)
               then Ok (push errors ("strategy." ++ key ++ " is required when type is '" ++ key ++ "'"))
               else Ok errors
             else Ok errors) ;;
  if strict_equals strategyType (VStr "filterNode") then
    filterNode <- get strategy "filterNode" ;;
    if truthy filterNode then
      has_type <- has_property "type" filterNode ;;
      Ok (push_if has_type
            "filterNode should NOT have a type field (type goes in strategy)" errors)
    else Ok errors
  else Ok errors.

(** The [else] branch of the effect check. *)
Definition checkEffect (effect : jsval) (errors : list string) : result (list string) :=
  effectType <- get effect "type" ;;
  errors <- (if negb (strict_equals effectType (VStr "v2")) then
               text <- ToString effectType ;;
               Ok (push errors ("effect.type must be 'v2', got: " ++ text))
             else Ok errors) ;;
  v2 <- get effect "v2" ;;
  if negb (truthy v2) || negb (typeof v2 =? "object")
  then Ok (push errors ("effect.v2 is required"))
  else
    outputAndVersion <- get v2 "outputAndVersion" ;;
    Ok (push_if (negb (truthy outputAndVersion))
          "effect.v2.outputAndVersion is required" errors).

Definition validateRuleLogic (logic : jsval) (validationConfig : ValidationConfig)
  : result ValidationResult :=
  let errors : list string := [] in
  let warnings : list string := [] in
  if negb (truthy logic) || negb (typeof logic =? "object")
  then Ok {| valid := false; errors := ["Root must be an object"]; warnings := None |}
  else
    let l := logic in
    actualVersion <- get l "grammarVersion" ;;
    errors <- (if negb (strict_equals actualVersion (VStr (grammarVersion validationConfig)))
               then
                 text <- ToString actualVersion ;;
                 Ok (push errors ("grammarVersion must be '" ++ grammarVersion validationConfig
                      ++ "', got: " ++ text))
               else Ok errors) ;;
    rid <- get l "workflowRid" ;;
    let errors := push_if (negb (truthy rid) || negb (typeof rid =? "string"))
                    "workflowRid is required and must be a string" errors in
    strategy <- get l "strategy" ;;
    errors <- (if negb (truthy strategy) || negb (typeof strategy =? "object")
               then Ok (push errors ("strategy is required and must be an object"))
               else checkStrategy validationConfig strategy errors) ;;
    effect <- get l "effect" ;;
    errors <- (if negb (truthy effect) || negb (typeof effect =? "object")
               then Ok (push errors ("effect is required and must be an object"))
               else checkEffect effect errors) ;;
    Ok {| valid := (List.length errors =? 0)%nat;
          errors := errors;
          warnings := if (0 <? List.length warnings)%nat then Some warnings else None |}.

Definition extractObjectTypeId (logic : jsval) : jsval :=
  if negb (truthy logic) || negb (typeof logic =? "object") then VNull
  else
    let l := logic in
    let strategy := get_opt l "strategy" in
    if negb (truthy strategy) then VNull
    else
      let nodeTypes := ["filterNode"; "windowNode"; "aggregationNode"] in
      (fix loop (nodeTypes : list string) : jsval :=
         match nodeTypes with
         | [] => VNull
         | nodeType :: rest =>
             let node := get_opt strategy nodeType in
             let source := get_opt (get_opt node "nodeInput") "source" in
             if truthy (get_opt source "objectTypeId")
             then get_opt source "objectTypeId"
             else loop rest
         end) nodeTypes.

Definition extractWorkflowRid (logic : jsval) : jsval :=
  if negb (truthy logic) || negb (typeof logic =? "object") then VNull
  else or_else (get_opt logic "workflowRid") VNull.

Definition getStrategyType (logic : jsval) : jsval :=
  if negb (truthy logic) || negb (typeof logic =? "object") then VNull
  else
    let l := logic in
    let strategy := get_opt l "strategy" in
    or_else (get_opt strategy "type") VNull.

Definition validateWorkflowRid (logic : jsval) (expectedRid : string)
  : result ValidationResult :=
  let errors : list string := [] in
  let actualRid := extractWorkflowRid logic in
  errors <- (if negb (truthy actualRid)
             then Ok (push errors "workflowRid not found in rule logic")
             else if negb (strict_equals actualRid (VStr expectedRid)) then
               text <- ToString actualRid ;;
               Ok (push errors ("workflowRid mismatch: expected '" ++ expectedRid
                                ++ "', got '" ++ text ++ "'"))
             else Ok errors) ;;
  Ok {| valid := (List.length errors =? 0)%nat; errors := errors; warnings := None |}.

Definition validateObjectType (logic : jsval) (expectedId : string)
  : result ValidationResult :=
  let errors : list string := [] in
  let actualId := extractObjectTypeId logic in
  errors <- (if negb (truthy actualId)
             then Ok (push errors "objectTypeId not found in rule logic")
             else if negb (strict_equals actualId (VStr expectedId)) then
               text <- ToString actualId ;;
               Ok (push errors ("objectTypeId mismatch: expected '" ++ expectedId
                                ++ "', got '" ++ text ++ "'"))
             else Ok errors) ;;
  Ok {| valid := (List.length errors =? 0)%nat; errors := errors; warnings := None |}.


End Schema.

(** ** proposal-cli-v2.ts *)

Module Cli.

Record FullValidationResult : Type := {
  valid : bool;
  structureErrors : list string;
  propertyErrors : list string;
  filterErrors : list string;
  filterWarnings : list string
}.

(** [list.join(', ') || 'none'] *)
Definition join_or_none (l : list jsval) : result string :=
  text <- Array_join ", " l ;;
  Ok (if text =? EmptyString then "none" else text).

(** [performFullValidation] returns its result together with the lines it
    has written with [console.log]. *)
Definition performFullValidation (logic : jsval) (config : ResolvedConfig)
  : result (FullValidationResult * list string) :=
  let console := ["Validating structure..."] in
  structureResult <- Schema.validateRuleLogic logic (validation config) ;;
  let structureErrors := Schema.errors structureResult in
  if negb (Schema.valid structureResult) then
    Ok ({| valid := false;
           structureErrors := structureErrors;
           propertyErrors := [];
           filterErrors := [];
           filterWarnings := [] |}, console)
  else
    let valid := true in
    let console := (push console ("  Structure valid")) in
    let actualRid := Schema.extractWorkflowRid logic in
    mismatch <- (if truthy actualRid
                    && negb (strict_equals actualRid (VStr (workflowRid (workflow config))))
                 then
                   text <- ToString actualRid ;;
                   Ok ["workflowRid mismatch: config expects '"
                       ++ workflowRid (workflow config) ++ "', got '" ++ text ++ "'"]
                 else Ok []) ;;
    let structureErrors := (structureErrors ++ mismatch)%list in
    let valid := valid && (List.length mismatch =? 0)%nat in
    let actualObjType := Schema.extractObjectTypeId logic in
    mismatch <- (if truthy actualObjType
                    && negb (strict_equals actualObjType
                               (VStr (objectType_id (objectType (workflow config)))))
                 then
                   text <- ToString actualObjType ;;
                   Ok ["objectTypeId mismatch: config expects '"
                       ++ objectType_id (objectType (workflow config))
                       ++ "', got '" ++ text ++ "'"]
                 else Ok []) ;;
    let structureErrors := (structureErrors ++ mismatch)%list in
    let valid := valid && (List.length mismatch =? 0)%nat in
    let console := (push console ("Validating properties...")) in
    propSummary <- Properties.getPropertySummary logic ;;
    used <- join_or_none (Properties.summary_properties propSummary) ;;
    let console := (push console ("  Properties used: " ++ used)) in
    propResult <- Properties.validateProperties logic (objectType (workflow config)) ;;
    let propertyErrors := Properties.errors propResult in
    let valid := valid && Properties.valid propResult in
    let console := if Properties.valid propResult
                   then (push console ("  All properties valid"))
                   else console in
    let console := (push console ("Validating filter types...")) in
    filterSummary <- Filters.getFilterSummary logic ;;
    strings <- join_or_none (Filters.stringFilters filterSummary) ;;
    let console := (push console ("  String filters: " ++ strings)) in
    numerics <- join_or_none (Filters.numericFilters filterSummary) ;;
    let console := (push console ("  Numeric filters: " ++ numerics)) in
    nulls <- join_or_none (Filters.nullFilters filterSummary) ;;
    let console := (push console ("  Null filters: " ++ nulls)) in
    filterResult <- Filters.validateFilterTypes logic (validation config) ;;
    let filterErrors := Filters.errors filterResult in
    let filterWarnings := Filters.warnings filterResult in
    let valid := valid && Filters.valid filterResult in
    let console :=
      if negb (Filters.valid filterResult) then console
      else if (0 <? List.length (Filters.warnings filterResult))%nat
           then (push console ("  Filter types valid (with warnings)"))
           else (push console ("  All filter types valid")) in
    Ok ({| valid := valid;
           structureErrors := structureErrors;
           propertyErrors := propertyErrors;
           filterErrors := filterErrors;
           filterWarnings := filterWarnings |}, console).

Record CliArgs : Type := {
  configPath : option string;
  command : string;
  args : list string
}.

(** [s.split('=')[1]]: the text between the first [=] and the next. *)
Fixpoint before_equals (s : string) : string :=
  match s with
  | EmptyString => EmptyString
  | String c r => if Ascii.eqb c "=" then EmptyString else String c (before_equals r)
  end.

Fixpoint split_equals_1 (s : string) : option string :=
  match s with
  | EmptyString => None
  | String c r => if Ascii.eqb c "=" then Some (before_equals r) else split_equals_1 r
  end.

(** The loop of [parseArgs] from index [i] on, [rest] being the arguments
    from that index: the [configPath] and [commandIndex] it breaks
    with. *)
Fixpoint findConfig (i : nat) (rest : list string) : option (option string * nat) :=
  match rest with
  | [] => None
  | arg :: tl =>
      if (arg =? "--config")
         && match tl with
            | next :: _ => negb (next =? EmptyString)
            | [] => false
            end
      then Some (hd_error tl, i + 2)
      else if String.prefix "--config=" arg then Some (split_equals_1 arg, i + 1)
      else findConfig (S i) tl
  end.

(** [parseArgs], as a function of [process.argv.slice(2)]. *)
Definition parseArgs (argv : list string) : CliArgs :=
  let args := argv in
  let (configPath, commandIndex) :=
    match findConfig 0 args with
    | Some found => found
    | None => (None, 0)
    end in
  let command := nth commandIndex args EmptyString in
  let commandArgs := skipn (commandIndex + 1) args in
  {| configPath := configPath; command := command; args := commandArgs |}.





End Cli.

(** ** index.ts *)

Module Library.

Record ProposalInput : Type := {
  template : option string;
  params : jsval;
  logic : jsval
}.

(** The logic [validateProposal] goes on with, or the result it returns
    before any validation. *)
Definition proposalLogic (proposal : ProposalInput) (config : ResolvedConfig)
  : jsval + Cli.FullValidationResult :=
  let rejected (structureErrors : list string) :=
    {| Cli.valid := false;
       Cli.structureErrors := structureErrors;
       Cli.propertyErrors := [];
       Cli.filterErrors := [];
       Cli.filterWarnings := [] |} in
  match template proposal with
  | Some templateName =>
      if negb (templateName =? EmptyString) && truthy (params proposal) then
        let buildResult :=
          Templates.buildFromTemplate templateName (params proposal) (workflow config) in
        match Templates.success buildResult, Templates.logic buildResult with
        | true, Some built =>
            if truthy built then inl built
            else inr (rejected (match Templates.errors buildResult with
                                | Some errors => errors
                                | None => ["Template build failed"]
                                end))
        | _, _ =>
            inr (rejected (match Templates.errors buildResult with
                           | Some errors => errors
                           | None => ["Template build failed"]
                           end))
        end
      else if truthy (logic proposal) then inl (logic proposal)
      else inr (rejected ["Either template+params or logic must be provided"])
  | None =>
      if truthy (logic proposal) then inl (logic proposal)
      else inr (rejected ["Either template+params or logic must be provided"])
  end.

Definition validateProposal (proposal : ProposalInput) (config : ResolvedConfig)
  : result Cli.FullValidationResult :=
  match proposalLogic proposal config with
  | inr returned => Ok returned
  | inl logic =>
      structureResult <- Schema.validateRuleLogic logic (validation config) ;;
      if negb (Schema.valid structureResult) then
        Ok {| Cli.valid := false;
              Cli.structureErrors := Schema.errors structureResult;
              Cli.propertyErrors := [];
              Cli.filterErrors := [];
              Cli.filterWarnings := [] |}
      else
        propResult <- Properties.validateProperties logic (objectType (workflow config)) ;;
        filterResult <- Filters.validateFilterTypes logic (validation config) ;;
        Ok {| Cli.valid := Properties.valid propResult && Filters.valid filterResult;
              Cli.structureErrors := Schema.errors structureResult;
              Cli.propertyErrors := Properties.errors propResult;
              Cli.filterErrors := Filters.errors filterResult;
              Cli.filterWarnings := Filters.warnings filterResult |}
  end.

End Library.

(** ** A reference run-time

    A small JSON reader and a stand-in for the codec, used to show that
    [RuntimeLaws] can be met and to run the compression module on
    concrete wrappers.  The reader knows the integers only, and no
    surrogate escapes: those have no counterpart in [jsval].  The codec
    decodes a payload it did not write to [null]. *)

Module Reference.

Definition syntax_error : exn := SyntaxError "Unexpected token in JSON".

Definition is_ws (c : ascii) : bool :=
  let n := nat_of_ascii c in
  (n =? 32)%nat || (n =? 9)%nat || (n =? 10)%nat || (n =? 13)%nat.

Fixpoint skip_ws (s : string) : string :=
  match s with
  | String c r => if is_ws c then skip_ws r else s
  | EmptyString => s
  end.

Fixpoint strip_prefix (p s : string) : option string :=
  match p with
  | EmptyString => Some s
  | String a p' =>
      match s with
      | String b s' => if Ascii.eqb a b then strip_prefix p' s' else None
      | EmptyString => None
      end
  end.

Definition is_digit (c : ascii) : bool :=
  let n := nat_of_ascii c in (48 <=? n)%nat && (n <=? 57)%nat.

(** The characters a JSON text can start with. *)
Definition value_start (c : ascii) : bool :=
  let n := nat_of_ascii c in
  is_digit c || (n =? 45)%nat || (n =? 110)%nat || (n =? 116)%nat || (n =? 102)%nat
  || (n =? 34)%nat || (n =? 91)%nat || (n =? 123)%nat.

(** What may follow a number. *)
Definition ends_number (s : string) : bool :=
  match s with
  | String c _ =>
      let n := nat_of_ascii c in
      negb (is_digit c || (n =? 46)%nat || (n =? 101)%nat || (n =? 69)%nat)
  | EmptyString => true
  end.

Fixpoint span_digits (s : string) : string * string :=
  match s with
  | String c r =>
      if is_digit c
      then let (d, rest) := span_digits r in (String c d, rest)
      else (EmptyString, s)
  | EmptyString => (EmptyString, EmptyString)
  end.

(** A fraction or an exponent follows. *)
Definition number_continues (s : string) : bool :=
  match s with
  | String c _ =>
      let n := nat_of_ascii c in (n =? 46)%nat || (n =? 101)%nat || (n =? 69)%nat
  | EmptyString => false
  end.

Definition parse_number (s : string) : option (Z * string) :=
  let (negative, digits) :=
    match s with
    | String c r => if (nat_of_ascii c =? 45)%nat then (true, r) else (false, s)
    | EmptyString => (false, s)
    end in
  let (ds, rest) := span_digits digits in
  match NilZero.uint_of_string ds with
  | Some d =>
      if Decimal.uint_beq (Decimal.unorm d) d && negb (number_continues rest)
      then Some (Z.of_int (if negative then Decimal.Neg d else Decimal.Pos d), rest)
      else None
  | None => None
  end.

Definition hex_value (c : ascii) : option nat :=
  let n := nat_of_ascii c in
  if (48 <=? n)%nat && (n <=? 57)%nat then Some (n - 48)
  else if (97 <=? n)%nat && (n <=? 102)%nat then Some (n - 87)
  else if (65 <=? n)%nat && (n <=? 70)%nat then Some (n - 55)
  else None.

Definition hex4 (a b c d : ascii) : option nat :=
  match hex_value a, hex_value b, hex_value c, hex_value d with
  | Some x, Some y, Some z, Some w => Some (((x * 16 + y) * 16 + z) * 16 + w)
  | _, _, _, _ => None
  end.

(** UTF-8 bytes of a code point of the basic plane. *)
Definition utf8_encode (cp : nat) : option string :=
  if (cp <? 128)%nat then Some (String (ascii_of_nat cp) EmptyString)
  else if (cp <? 2048)%nat then
    Some (String (ascii_of_nat (192 + cp / 64))
            (String (ascii_of_nat (128 + cp mod 64)) EmptyString))
  else if (55296 <=? cp)%nat && (cp <=? 57343)%nat then None
  else
    Some (String (ascii_of_nat (224 + cp / 4096))
            (String (ascii_of_nat (128 + (cp / 64) mod 64))
               (String (ascii_of_nat (128 + cp mod 64)) EmptyString))).

Definition unescape (c : ascii) : option ascii :=
  let n := nat_of_ascii c in
  if (n =? 34)%nat || (n =? 92)%nat || (n =? 47)%nat then Some c
  else if (n =? 98)%nat then Some (ascii_of_nat 8)
  else if (n =? 102)%nat then Some (ascii_of_nat 12)
  else if (n =? 110)%nat then Some (ascii_of_nat 10)
  else if (n =? 114)%nat then Some (ascii_of_nat 13)
  else if (n =? 116)%nat then Some (ascii_of_nat 9)
  else None.

(** The characters of a string literal, after its opening quote. *)
Fixpoint parse_chars (s : string) : option (string * string) :=
  match s with
  | EmptyString => None
  | String c r =>
      let n := nat_of_ascii c in
      if (n =? 34)%nat then Some (EmptyString, r)
      else if (n =? 92)%nat then
        match r with
        | String e r1 =>
            if (nat_of_ascii e =? 117)%nat then
              match r1 with
              | String h1 (String h2 (String h3 (String h4 r2))) =>
                  match hex4 h1 h2 h3 h4 with
                  | Some cp =>
                      match utf8_encode cp, parse_chars r2 with
                      | Some bytes, Some (t, rest) => Some (bytes ++ t, rest)
                      | _, _ => None
                      end
                  | None => None
                  end
              | _ => None
              end
            else
              match unescape e, parse_chars r1 with
              | Some d, Some (t, rest) => Some (String d t, rest)
              | _, _ => None
              end
        | EmptyString => None
        end
      else if (n <? 32)%nat then None
      else
        match parse_chars r with
        | Some (t, rest) => Some (String c t, rest)
        | None => None
        end
  end.

Fixpoint remove_key (k : string) (fs : list (string * jsval)) : list (string * jsval) :=
  match fs with
  | [] => []
  | (k', x) :: tl => if k' =? k then remove_key k tl else (k', x) :: remove_key k tl
  end.

(** A member read before the members [fs] that follow it: a later member
    of the same name gives the value, the first one the place. *)
Definition define_property (k : string) (x : jsval) (fs : list (string * jsval))
  : list (string * jsval) :=
  match assoc k fs with
  | Some later => (k, later) :: remove_key k fs
  | None => (k, x) :: fs
  end.

Fixpoint parse_value (fuel : nat) (s : string) {struct fuel} : option (jsval * string) :=
  match fuel with
  | O => None
  | S fuel =>
      match skip_ws s with
      | EmptyString => None
      | String c r =>
          let n := nat_of_ascii c in
          if (n =? 110)%nat then
            match strip_prefix "ull" r with
            | Some rest => Some (VNull, rest)
            | None => None
            end
          else if (n =? 116)%nat then
            match strip_prefix "rue" r with
            | Some rest => Some (VBool true, rest)
            | None => None
            end
          else if (n =? 102)%nat then
            match strip_prefix "alse" r with
            | Some rest => Some (VBool false, rest)
            | None => None
            end
          else if (n =? 34)%nat then
            match parse_chars r with
            | Some (t, rest) => Some (VStr t, rest)
            | None => None
            end
          else if (n =? 91)%nat then
            match skip_ws r with
            | EmptyString => None
            | String c' r' =>
                if (nat_of_ascii c' =? 93)%nat then Some (VArr [], r')
                else
                  match parse_elements fuel (String c' r') with
                  | Some (l, rest) => Some (VArr l, rest)
                  | None => None
                  end
            end
          else if (n =? 123)%nat then
            match skip_ws r with
            | EmptyString => None
            | String c' r' =>
                if (nat_of_ascii c' =? 125)%nat then Some (VObj [], r')
                else
                  match parse_members fuel (String c' r') with
                  | Some (fs, rest) => Some (VObj fs, rest)
                  | None => None
                  end
            end
          else
            match parse_number (String c r) with
            | Some (z, rest) => Some (VNum z, rest)
            | None => None
            end
      end
  end

with parse_elements (fuel : nat) (s : string) {struct fuel}
  : option (list jsval * string) :=
  match fuel with
  | O => None
  | S fuel =>
      match parse_value fuel s with
      | Some (v, r) =>
          match skip_ws r with
          | EmptyString => None
          | String c r' =>
              if (nat_of_ascii c =? 44)%nat then
                match parse_elements fuel r' with
                | Some (vs, rest) => Some (v :: vs, rest)
                | None => None
                end
              else if (nat_of_ascii c =? 93)%nat then Some ([v], r')
              else None
          end
      | None => None
      end
  end

with parse_members (fuel : nat) (s : string) {struct fuel}
  : option (list (string * jsval) * string) :=
  match fuel with
  | O => None
  | S fuel =>
      match skip_ws s with
      | EmptyString => None
      | String q r =>
          if (nat_of_ascii q =? 34)%nat then
            match parse_chars r with
            | Some (k, r1) =>
                match skip_ws r1 with
                | EmptyString => None
                | String colon r2 =>
                    if (nat_of_ascii colon =? 58)%nat then
                      match parse_value fuel r2 with
                      | Some (v, r3) =>
                          match skip_ws r3 with
                          | EmptyString => None
                          | String c r4 =>
                              if (nat_of_ascii c =? 44)%nat then
                                match parse_members fuel r4 with
                                | Some (fs, rest) => Some (define_property k v fs, rest)
                                | None => None
                                end
                              else if (nat_of_ascii c =? 125)%nat then Some ([(k, v)], r4)
                              else None
                          end
                      | None => None
                      end
                    else None
                end
            | None => None
            end
          else None
      end
  end.

Definition parse (text : string) : result jsval :=
  match parse_value (S (String.length text)) text with
  | Some (v, rest) =>
      match skip_ws rest with
      | EmptyString => Ok v
      | _ => Throw syntax_error
      end
  | None => Throw syntax_error
  end.

(** The stand-in codec writes two hexadecimal digits for a byte, after a
    mark; its entry points treat [null], [undefined] and the empty string
    as those of lz-string do, and a text it did not write decodes to
    [null]. *)
Fixpoint hex_encode (s : string) : string :=
  match s with
  | EmptyString => EmptyString
  | String c r =>
      let n := nat_of_ascii c in
      String (hex_digit (n / 16)) (String (hex_digit (n mod 16)) (hex_encode r))
  end.

Fixpoint hex_decode (s : string) : option string :=
  match s with
  | EmptyString => Some EmptyString
  | String a (String b r) =>
      match hex_value a, hex_value b, hex_decode r with
      | Some x, Some y, Some t => Some (String (ascii_of_nat (x * 16 + y)) t)
      | _, _, _ => None
      end
  | String _ EmptyString => None
  end.

Definition encode (input : jsval) : string :=
  match input with
  | VStr s => String "x" (hex_encode s)
  | _ => EmptyString
  end.

Definition decode (input : jsval) : result jsval :=
  match input with
  | VUndefined | VNull => Ok (VStr EmptyString)
  | VStr EmptyString => Ok VNull
  | VStr (String mark r) =>
      if Ascii.eqb mark "x" then
        match hex_decode r with
        | Some t => Ok (VStr t)
        | None => Ok VNull
        end
      else Ok VNull
  | _ => Throw (TypeError "input.replace is not a function")
  end.

Definition runtime : Runtime := {|
  JSON_parse := parse;
  compressToEncodedURIComponent := encode;
  decompressFromEncodedURIComponent := decode
|}.

End Reference.

(** ** Vocabulary of the statements *)

Definition sample_workflow : WorkflowDefinition := {|
  workflow_name := "Test Workflow";
  workflowRid := "ri.taurus.main.workflow.test-123";
  objectType := {| objectType_id := "test.object-type";
                   dynamicLookup := false;
                   properties :=
                     [ {| property_id := "property_a"; property_type := "string" |};
                       {| property_id := "property_b"; property_type := "number" |};
                       {| property_id := "property_c"; property_type := "boolean" |} ] |};
  output := {| output_id := "output-123"; output_version := "1.0.0" |}
|}.

Definition sample_validation : ValidationConfig := {|
  grammarVersion := "V1";
  supportedStrategyTypes := ["filterNode"; "windowNode"; "aggregationNode"];
  supportedStringFilters := ["EQUALS"; "CONTAINS"; "MATCHES"];
  unsupportedStringFilters := ["REGEX"; "STARTS_WITH"];
  supportedNumericFilters := ["EQUALS"; "GREATER_THAN"; "LESS_THAN"];
  supportedNullFilters := ["NULL"; "NOT_NULL"]
|}.

Definition sample_config : ResolvedConfig := {|
  workflow := sample_workflow;
  validation := sample_validation
|}.

(** The errors of a build result, none when the field is absent. *)
Definition errors_of (r : Templates.BuildResult) : list string :=
  match Templates.errors r with
  | Some es => es
  | None => []
  end.

(** The error a falsy parameter [name] is reported with. *)
Definition missing (name : string) (v : jsval) : list string :=
  if truthy v then [] else ["Missing required parameter: " ++ name].

(** [values] fails the test of the [string-or] template. *)
Definition no_values (values : jsval) : bool :=
  match values with
  | VArr (_ :: _) => false
  | _ => true
  end.

(** What a template literal prints for [v], when [v] can be printed. *)
Definition printable (v : jsval) : Prop := returns (ToString v).

Definition text_of (v : jsval) : string :=
  match ToString v with
  | Ok s => s
  | Throw _ => EmptyString
  end.

(** No two members of a set are [===]. *)
Definition distinct (l : list jsval) : Prop :=
  ForallOrdPairs (fun a b => strict_equals a b = false) l.

(** [mentions take p filter]: somewhere in [filter], under any nesting of
    [orFilterRule], [andFilterRule] and [notFilterRule] nodes, lies a
    [columnFilterRule] from which [take] reads the truthy value [p]. *)
Inductive mentions (take : jsval -> jsval) (p : jsval) : jsval -> Prop :=
| mentions_column filter :
    truthy (get_opt filter "columnFilterRule") = true ->
    take (get_opt filter "columnFilterRule") = p ->
    truthy p = true ->
    mentions take p filter
| mentions_or filter subFilters sub :
    get_opt (get_opt filter "orFilterRule") "filters" = VArr subFilters ->
    In sub subFilters ->
    mentions take p sub ->
    mentions take p filter
| mentions_and filter subFilters sub :
    get_opt (get_opt filter "andFilterRule") "filters" = VArr subFilters ->
    In sub subFilters ->
    mentions take p sub ->
    mentions take p filter
| mentions_not filter :
    truthy (get_opt filter "notFilterRule") = true ->
    mentions take p (get_opt (get_opt filter "notFilterRule") "filter") ->
    mentions take p filter.

(** The property id of a column reference, that of a column filter, and
    the operator of one kind of a column filter. *)
Definition columnPropertyId (column : jsval) : jsval :=
  get_opt (get_opt column "objectProperty") "propertyTypeId".

Definition propertyOf (rule : jsval) : jsval :=
  columnPropertyId (get_opt rule "column").

Definition operatorOf (kind : string) (rule : jsval) : jsval :=
  get_opt (get_opt (get_opt rule "filter") kind) "type".

(** The filter tree of a rule logic. *)
Definition filterOf (logic : jsval) : jsval :=
  get_opt (get_opt (get_opt logic "strategy") "filterNode") "filter".

(** The logic of the test suite that filters on a property the schema
    does not declare. *)
Definition unknown_property_logic : jsval :=
  VObj [("grammarVersion", VStr "V1");
        ("workflowRid", VStr "ri.taurus.main.workflow.test-123");
        ("strategy",
         VObj [("type", VStr "filterNode");
               ("filterNode",
                VObj [("filter",
                       VObj [("columnFilterRule",
                              VObj [("column",
                                     VObj [("objectProperty",
                                            VObj [("objectTypeId", VStr "test.object-type");
                                                  ("propertyTypeId", VStr "unknown_property")])]);
                                    ("filter",
                                     VObj [("stringColumnFilter",
                                            VObj [("type", VStr "EQUALS");
                                                  ("values", VArr [VStr "x"])])])])])])]);
        ("effect",
         VObj [("type", VStr "v2");
               ("v2", VObj [("outputAndVersion", VObj [("outputId", VStr "output-123")]);
                            ("parameterValues", VObj [])])])].

(** A column filter on a string property with the operator [op]. *)
Definition string_filter (propertyId op : string) : jsval :=
  VObj [("columnFilterRule",
         VObj [("column",
                VObj [("objectProperty", VObj [("propertyTypeId", VStr propertyId)])]);
               ("filter",
                VObj [("stringColumnFilter",
                       VObj [("type", VStr op); ("values", VArr [VStr "test"])])])])].


(** A logic of the wrong grammar version whose window node would make the
    property pass throw. *)
Definition wrong_version_logic : jsval :=
  VObj [("grammarVersion", VStr "V2");
        ("workflowRid", VStr "ri.taurus.main.workflow.test-123");
        ("strategy",
         VObj [("type", VStr "windowNode");
               ("windowNode", VObj [("columnsToAdd", VArr [VNull])])]);
        ("effect",
         VObj [("type", VStr "v2");
               ("v2", VObj [("outputAndVersion", VObj [("outputId", VStr "output-123")])])])].

(** The result of a validation that stopped at the structure pass. *)
Definition stopped (structureErrors : list string) : Cli.FullValidationResult :=
  {| Cli.valid := false;
     Cli.structureErrors := structureErrors;
     Cli.propertyErrors := [];
     Cli.filterErrors := [];
     Cli.filterWarnings := [] |}.






(** A nested value with an empty object, an empty array and [null]. *)
Definition sample_value : jsval :=
  VObj [("grammarVersion", VStr "V1");
        ("strategy", VObj [("values", VArr [VNull; VNum 1; VStr "two"; VBool true])]);
        ("effect", VObj []);
        ("labels", VArr [])].


(** The four keys under which a filter node holds a rule. *)
Definition rule_name (k : string) : Prop :=
  k = "columnFilterRule" \/ k = "orFilterRule" \/ k = "andFilterRule"
  \/ k = "notFilterRule".

(** A wrapper with another [type] and one field more. *)
Definition other_wrapper : string :=
  serialize (VObj [("type", VStr "other"); ("compressedValue", VStr "x6e756c6c");
                   ("size", VNum 4)]).


(** The filter each template builds from its parameters, when they pass
    its tests. *)
Inductive template_filter (objectTypeId : string) (params : jsval)
  : string -> jsval -> Prop :=
| filter_string_equals :
    truthy (get_opt params "value") = true ->
    template_filter objectTypeId params "string-equals"
      (Templates.buildStringEqualsFilter objectTypeId
         (get_opt params "propertyId") (get_opt params "value")
         (coalesce (get_opt params "caseSensitive") (VBool false)))
| filter_string_or values :
    get_opt params "values" = VArr values ->
    values <> [] ->
    template_filter objectTypeId params "string-or"
      (Templates.buildStringOrFilter objectTypeId
         (get_opt params "propertyId") values
         (coalesce (get_opt params "caseSensitive") (VBool false)))
| filter_numeric_range filter :
    Templates.buildNumericRangeFilter objectTypeId
      (get_opt params "propertyId") (get_opt params "min") (get_opt params "max")
    = Ok filter ->
    template_filter objectTypeId params "numeric-range" filter
| filter_null_check :
    template_filter objectTypeId params "null-check"
      (Templates.buildNullFilter objectTypeId
         (get_opt params "propertyId")
         (coalesce (get_opt params "isNull") (VBool true))).


(** The errors of the structure pass on a logic that
    [wrapFilterAsRuleLogic] made. *)
Definition wrapped_structure_errors (workflow : WorkflowDefinition)
  (validationConfig : ValidationConfig) : list string :=
  List.app
    (if "V1" =? grammarVersion validationConfig then []
     else ["grammarVersion must be '" ++ grammarVersion validationConfig ++ "', got: V1"])
    (List.app
       (if workflowRid workflow =? EmptyString
        then ["workflowRid is required and must be a string"] else [])
       (if includes_str (supportedStrategyTypes validationConfig) (VStr "filterNode")
        then []
        else ["strategy.type must be one of ["
              ++ join ", " (supportedStrategyTypes validationConfig)
              ++ "], got: filterNode"])).

(** A string read back from a logic: [null] when it is empty. *)
Definition string_or_null (s : string) : jsval :=
  if s =? EmptyString then VNull else VStr s.


(** The operators of a template: those of the filter it builds. *)
Definition template_filters (templateName : string) (params : jsval)
  : Filters.UsedFilters :=
  {| Filters.used_string :=
       if (templateName =? "string-equals") || (templateName =? "string-or")
       then [VStr "EQUALS"] else [];
     Filters.used_numeric :=
       if templateName =? "numeric-range"
       then List.app
              (if strict_equals (get_opt params "min") VUndefined then []
               else [VStr "GREATER_THAN_OR_EQUAL"])
              (if strict_equals (get_opt params "max") VUndefined then []
               else [VStr "LESS_THAN_OR_EQUAL"])
       else [];
     Filters.used_null :=
       if templateName =? "null-check"
       then [VStr (if truthy (coalesce (get_opt params "isNull") (VBool true))
                   then "NULL" else "NOT_NULL")]
       else [] |}.


(** A configuration that lists no operator but the unsupported [REGEX]
    and [STARTS_WITH]. *)
Definition regex_only_validation : ValidationConfig := {|
  grammarVersion := "V1";
  supportedStrategyTypes := ["filterNode"];
  supportedStringFilters := [];
  unsupportedStringFilters := ["REGEX"; "STARTS_WITH"];
  supportedNumericFilters := [];
  supportedNullFilters := []
|}.


(** The entries of [v], none when [v] is not an array. *)
Definition entries_of (v : jsval) : list jsval :=
  match v with
  | VArr entries => entries
  | _ => []
  end.

(** No entry of the array [v] is [null] or [undefined]; it holds of
    everything that is not an array. *)
Definition no_null_entry (v : jsval) : Prop :=
  Forall (fun e => nullish e = false) (entries_of v).


(** [v] is an object for the tests of the validators: truthy, and of
    type [object]. *)
Definition is_object (v : jsval) : Prop :=
  negb (truthy v) || negb (typeof v =? "object") = false.

(** What the structure pass asks of a logic. *)
Definition well_structured (logic : jsval) (validationConfig : ValidationConfig) : Prop :=
  let strategy := get_opt logic "strategy" in
  let effect := get_opt logic "effect" in
  let v2 := get_opt effect "v2" in
  is_object logic /\
  get_opt logic "grammarVersion" = VStr (grammarVersion validationConfig) /\
  (exists rid, get_opt logic "workflowRid" = VStr rid /\ rid <> EmptyString) /\
  is_object strategy /\
  (exists strategyType,
      get_opt strategy "type" = VStr strategyType /\
      In strategyType (supportedStrategyTypes validationConfig) /\
      (strategyType <> EmptyString -> truthy (get_opt strategy strategyType) = true) /\
      (strategyType = "filterNode" ->
       has_property "type" (get_opt strategy "filterNode") = Ok false)) /\
  is_object effect /\
  get_opt effect "type" = VStr "v2" /\
  is_object v2 /\
  truthy (get_opt v2 "outputAndVersion") = true.

(** A logic whose filter node is a number. *)
Definition primitive_filter_logic : jsval :=
  VObj [("grammarVersion", VStr "V1");
        ("workflowRid", VStr "ri.taurus.main.workflow.test-123");
        ("strategy", VObj [("type", VStr "filterNode"); ("filterNode", VNum 5)]);
        ("effect",
         VObj [("type", VStr "v2");
               ("v2", VObj [("outputAndVersion", VObj [("outputId", VStr "output-123")])])])].


(** Every property that the filter tree of [logic] mentions, and every
    property that a [column] parameter of its effect binds, is a string
    of [declared]. *)
Definition uses_only (declared : list string) (logic : jsval) : Prop :=
  (forall p, mentions propertyOf p (filterOf logic) ->
             exists s, p = VStr s /\ In s declared) /\
  (forall entry,
      In entry (Object_entries (get_opt (get_opt (get_opt logic "effect") "v2")
                                  "parameterValues")) ->
      get_opt (snd entry) "type" = VStr "column" ->
      truthy (columnPropertyId (get_opt (snd entry) "column")) = true ->
      exists s, columnPropertyId (get_opt (snd entry) "column") = VStr s /\ In s declared).

(** No string operator of the filter tree of [logic] is in
    [unsupported]. *)
Definition avoids (unsupported : list string) (logic : jsval) : Prop :=
  forall t, mentions (operatorOf "stringColumnFilter") t (filterOf logic) ->
            forall s, t = VStr s -> ~ In s unsupported.

(** A logic that the sample configuration accepts, and the same filter
    wrapped for another workflow. *)
Definition valid_logic : jsval :=
  Templates.wrapFilterAsRuleLogic
    (Templates.buildStringOrFilter "test.object-type" (VStr "property_a")
       [VStr "x"; VStr "y"] (VBool false))
    sample_workflow.


(** The column filter rule [rule] lies somewhere in [filter]. *)
Definition column_rule (rule filter : jsval) : Prop :=
  mentions (fun rule => rule) rule filter.

(** The string filter of the column filter rule [rule] has an operator
    that needs [ignoreWhitespace: true], and does not have it. *)
Definition neglects_whitespace (rule : jsval) (filterType : string) : Prop :=
  let strFilter := get_opt (get_opt rule "filter") "stringColumnFilter" in
  truthy strFilter = true /\
  get_opt strFilter "type" = VStr filterType /\
  In filterType ["CONTAINS"; "MATCHES"; "EQUALS_WITH_WILDCARDS"] /\
  get_opt strFilter "ignoreWhitespace" <> VBool true.

(** The type that [objectTypeConfig] gives the property [propId]: that of
    its last declaration. *)
Definition declared_type (objectTypeConfig : ObjectTypeConfig) (propId : string)
  : option string :=
  option_map property_type
    (find (fun prop => property_id prop =? propId) (rev (properties objectTypeConfig))).

(** The column filter rule [rule] puts a filter of the kind [kind] on the
    property [propId], which is declared with the type [expectedType],
    not the type of that kind. *)
Definition type_mismatch (objectTypeConfig : ObjectTypeConfig) (rule : jsval)
  (propId expectedType kind : string) : Prop :=
  propertyOf rule = VStr propId /\
  propId <> EmptyString /\
  declared_type objectTypeConfig propId = Some expectedType /\
  expectedType <> EmptyString /\
  truthy (get_opt (get_opt rule "filter") kind) = true /\
  ((kind = "stringColumnFilter" /\ expectedType <> "string") \/
   (kind = "numericColumnFilter" /\ expectedType <> "number")).


(** [arg] is not read as a [--config] flag, whatever follows it. *)
Definition plain_argument (arg : string) : Prop :=
  arg <> "--config" /\ String.prefix "--config=" arg = false.


(** What a walk with [check] that returns has added to the part [proj] of
    the state: the reports of the column filter rules of the tree. *)
Definition walk_spec {state D : Type} (check : state -> jsval -> result state)
  (proj : state -> list D) (report : jsval -> list D) (filter : jsval) : Prop :=
  forall st st',
    walk check filter st = Ok st' ->
    exists delta,
      proj st' = (proj st ++ delta)%list /\
      forall d, In d delta <-> exists rule, column_rule rule filter /\ In d (report rule).


(* ================================================================== *)
(** * Part II.  Properties                                              *)
(* ================================================================== *)

(** ** Values *)

Lemma strict_equals_undefined v : strict_equals v VUndefined = true <-> v = VUndefined.
Proof. destruct v; simpl; split; congruence. Qed.

Lemma get_defined v k : nullish v = false -> get v k = Ok (get_opt v k).
Proof. destruct v; simpl; congruence. Qed.

Lemma truthy_not_nullish v : truthy v = true -> nullish v = false.
Proof. destruct v; simpl; congruence. Qed.

Lemma get_truthy v k : truthy v = true -> get v k = Ok (get_opt v k).
Proof. intro H. apply get_defined, truthy_not_nullish, H. Qed.

(** ** The template builder *)

Section TemplateBuilder.

Import Templates.

Variable objectTypeId : string.
Variable propertyId : jsval.

Let lower (min : jsval) : jsval :=
  buildNumericFilter objectTypeId propertyId "GREATER_THAN_OR_EQUAL" min.
Let upper (max : jsval) : jsval :=
  buildNumericFilter objectTypeId propertyId "LESS_THAN_OR_EQUAL" max.

Lemma range_min_only min :
  min <> VUndefined ->
  buildNumericRangeFilter objectTypeId propertyId min VUndefined = Ok (lower min).
Proof.
  intro H. unfold buildNumericRangeFilter.
  destruct (strict_equals min VUndefined) eqn:E.
  - apply strict_equals_undefined in E. contradiction.
  - reflexivity.
Qed.

Lemma range_max_only max :
  max <> VUndefined ->
  buildNumericRangeFilter objectTypeId propertyId VUndefined max = Ok (upper max).
Proof.
  intro H. unfold buildNumericRangeFilter.
  destruct (strict_equals max VUndefined) eqn:E.
  - apply strict_equals_undefined in E. contradiction.
  - reflexivity.
Qed.

Lemma range_both min max :
  min <> VUndefined -> max <> VUndefined ->
  buildNumericRangeFilter objectTypeId propertyId min max
  = Ok (VObj [("andFilterRule", VObj [("filters", VArr [lower min; upper max])]);
              ("type", VStr "andFilterRule")]).
Proof.
  intros Hmin Hmax. unfold buildNumericRangeFilter.
  destruct (strict_equals min VUndefined) eqn:E1.
  - apply strict_equals_undefined in E1. contradiction.
  - destruct (strict_equals max VUndefined) eqn:E2.
    + apply strict_equals_undefined in E2. contradiction.
    + reflexivity.
Qed.

End TemplateBuilder.

Lemma numeric_range_template params workflow filter :
  nullish params = false ->
  truthy (get_opt params "propertyId") = true ->
  Templates.buildNumericRangeFilter (objectType_id (objectType workflow))
    (get_opt params "propertyId") (get_opt params "min") (get_opt params "max")
  = Ok filter ->
  Templates.buildFromTemplate "numeric-range" params workflow
  = {| Templates.success := true;
       Templates.logic := Some (Templates.wrapFilterAsRuleLogic filter workflow);
       Templates.errors := None |}.
Proof.
  intros Hp Ht Hb.
  unfold Templates.buildFromTemplate, Templates.templateFilter.
  simpl String.eqb. cbv iota.
  rewrite !get_defined by assumption. simpl bind. rewrite Ht. simpl negb.
  unfold push_if at 2.
  destruct (strict_equals (get_opt params "min") VUndefined
            && strict_equals (get_opt params "max") VUndefined) eqn:E.
  - apply andb_true_iff in E. destruct E as [E1 E2].
    unfold Templates.buildNumericRangeFilter in Hb. rewrite E1, E2 in Hb.
    simpl in Hb. discriminate.
  - simpl. rewrite Hb. reflexivity.
Qed.

(** C2.  A numeric range with one bound is the single column filter of
    that bound ([GREATER_THAN_OR_EQUAL] for [min], [LESS_THAN_OR_EQUAL] for
    [max]), not a compound node; with two bounds it is an [andFilterRule]
    of exactly the two filters, the lower bound first.  The
    [numeric-range] template wraps that very filter. *)
Theorem numeric_range_filter_shape :
  forall (objectTypeId : string) (propertyId min max : jsval),
    let lower :=
      Templates.buildNumericFilter objectTypeId propertyId "GREATER_THAN_OR_EQUAL" min in
    let upper :=
      Templates.buildNumericFilter objectTypeId propertyId "LESS_THAN_OR_EQUAL" max in
    let range := Templates.buildNumericRangeFilter objectTypeId propertyId min max in
    (min <> VUndefined -> max = VUndefined -> range = Ok lower) /\
    (min = VUndefined -> max <> VUndefined -> range = Ok upper) /\
    (min <> VUndefined -> max <> VUndefined ->
     range = Ok (VObj [("andFilterRule", VObj [("filters", VArr [lower; upper])]);
                       ("type", VStr "andFilterRule")])) /\
    (get_opt lower "type" = VStr "columnFilterRule" /\
     get_opt lower "andFilterRule" = VUndefined /\
     get_opt (get_opt (get_opt (get_opt lower "columnFilterRule") "filter")
                "numericColumnFilter") "type" = VStr "GREATER_THAN_OR_EQUAL") /\
    (get_opt upper "type" = VStr "columnFilterRule" /\
     get_opt upper "andFilterRule" = VUndefined /\
     get_opt (get_opt (get_opt (get_opt upper "columnFilterRule") "filter")
                "numericColumnFilter") "type" = VStr "LESS_THAN_OR_EQUAL") /\
    (forall params workflow filter,
        nullish params = false ->
        truthy (get_opt params "propertyId") = true ->
        Templates.buildNumericRangeFilter (objectType_id (objectType workflow))
          (get_opt params "propertyId") (get_opt params "min") (get_opt params "max")
        = Ok filter ->
        Templates.buildFromTemplate "numeric-range" params workflow
        = {| Templates.success := true;
             Templates.logic := Some (Templates.wrapFilterAsRuleLogic filter workflow);
             Templates.errors := None |}).
Proof.
  intros objectTypeId propertyId min max lower upper range.
  repeat split.
  - intros Hmin Hmax. subst max. apply range_min_only, Hmin.
  - intros Hmin Hmax. subst min. apply range_max_only, Hmax.
  - intros Hmin Hmax. apply range_both; assumption.
  - intros params workflow filter. apply numeric_range_template.
Qed.

Lemma numeric_range_filter_shape_witness :
  Templates.buildNumericRangeFilter "test.obj" (VStr "price") (VNum 10) VUndefined
  = Ok (Templates.buildNumericFilter "test.obj" (VStr "price")
          "GREATER_THAN_OR_EQUAL" (VNum 10)) /\
  Templates.buildNumericRangeFilter "test.obj" (VStr "price") VUndefined (VNum 100)
  = Ok (Templates.buildNumericFilter "test.obj" (VStr "price")
          "LESS_THAN_OR_EQUAL" (VNum 100)) /\
  Templates.buildNumericRangeFilter "test.obj" (VStr "price") (VNum 10) (VNum 100)
  = Ok (VObj [("andFilterRule",
               VObj [("filters",
                      VArr [Templates.buildNumericFilter "test.obj" (VStr "price")
                              "GREATER_THAN_OR_EQUAL" (VNum 10);
                            Templates.buildNumericFilter "test.obj" (VStr "price")
                              "LESS_THAN_OR_EQUAL" (VNum 100)])]);
              ("type", VStr "andFilterRule")]).
Proof.
  split; [| split].
  - apply (numeric_range_filter_shape "test.obj" (VStr "price") (VNum 10) VUndefined);
      [discriminate | reflexivity].
  - apply (numeric_range_filter_shape "test.obj" (VStr "price") VUndefined (VNum 100));
      [reflexivity | discriminate].
  - apply (numeric_range_filter_shape "test.obj" (VStr "price") (VNum 10) (VNum 100));
      discriminate.
Defined.

(** The result of each template, by cases on the errors it collects. *)

Ltac eval_template H :=
  unfold Templates.buildFromTemplate, Templates.templateFilter;
  simpl String.eqb; cbv iota;
  rewrite !get_defined by exact H; simpl bind.

Lemma string_equals_errors params workflow :
  nullish params = false ->
  let r := Templates.buildFromTemplate "string-equals" params workflow in
  errors_of r = (missing "propertyId" (get_opt params "propertyId")
                 ++ missing "value" (get_opt params "value"))%list /\
  (Templates.success r = true /\ Templates.errors r = None /\
   (exists l, Templates.logic r = Some l)
   \/ Templates.success r = false /\ Templates.logic r = None /\
      Templates.errors r = Some (errors_of r) /\ errors_of r <> []).
Proof.
  intros H. eval_template H. unfold missing.
  destruct (truthy (get_opt params "propertyId"));
    destruct (truthy (get_opt params "value")); simpl;
    (split; [reflexivity |]);
    try (left; repeat split; eexists; reflexivity);
    right; repeat split; discriminate.
Qed.

Lemma string_or_errors params workflow :
  nullish params = false ->
  let r := Templates.buildFromTemplate "string-or" params workflow in
  errors_of r = (missing "propertyId" (get_opt params "propertyId")
                 ++ (if no_values (get_opt params "values")
                     then ["Missing or empty required parameter: values"]
                     else []))%list /\
  (Templates.success r = true /\ Templates.errors r = None /\
   (exists l, Templates.logic r = Some l)
   \/ Templates.success r = false /\ Templates.logic r = None /\
      Templates.errors r = Some (errors_of r) /\ errors_of r <> []).
Proof.
  intros H. eval_template H. unfold missing.
  destruct (truthy (get_opt params "propertyId"));
    destruct (get_opt params "values") as [ | | [] | n | s | [ | e tl] | fs | ];
    simpl;
    try (destruct (negb (n =? 0)%Z)); try (destruct (negb (s =? EmptyString)));
    simpl;
    (split; [reflexivity |]);
    try (left; repeat split; eexists; reflexivity);
    right; repeat split; discriminate.
Qed.

Lemma numeric_range_errors params workflow :
  nullish params = false ->
  let r := Templates.buildFromTemplate "numeric-range" params workflow in
  errors_of r = (missing "propertyId" (get_opt params "propertyId")
                 ++ (if strict_equals (get_opt params "min") VUndefined
                        && strict_equals (get_opt params "max") VUndefined
                     then ["At least one of min or max is required"]
                     else []))%list /\
  (Templates.success r = true /\ Templates.errors r = None /\
   (exists l, Templates.logic r = Some l)
   \/ Templates.success r = false /\ Templates.logic r = None /\
      Templates.errors r = Some (errors_of r) /\ errors_of r <> []).
Proof.
  intros H. eval_template H. unfold missing, Templates.buildNumericRangeFilter.
  destruct (truthy (get_opt params "propertyId"));
    destruct (strict_equals (get_opt params "min") VUndefined);
    destruct (strict_equals (get_opt params "max") VUndefined); simpl;
    (split; [reflexivity |]);
    try (left; repeat split; eexists; reflexivity);
    right; repeat split; discriminate.
Qed.

Lemma null_check_errors params workflow :
  nullish params = false ->
  let r := Templates.buildFromTemplate "null-check" params workflow in
  errors_of r = missing "propertyId" (get_opt params "propertyId") /\
  (Templates.success r = true /\ Templates.errors r = None /\
   (exists l, Templates.logic r = Some l)
   \/ Templates.success r = false /\ Templates.logic r = None /\
      Templates.errors r = Some (errors_of r) /\ errors_of r <> []).
Proof.
  intros H. eval_template H. unfold missing.
  destruct (truthy (get_opt params "propertyId")); simpl;
    (split; [reflexivity |]);
    try (left; repeat split; eexists; reflexivity);
    right; repeat split; discriminate.
Qed.

Lemma unknown_template_errors templateName params workflow :
  templateName <> "string-equals" -> templateName <> "string-or" ->
  templateName <> "numeric-range" -> templateName <> "null-check" ->
  Templates.buildFromTemplate templateName params workflow
  = Templates.failure ["Unknown template: " ++ templateName].
Proof.
  intros H1 H2 H3 H4.
  unfold Templates.buildFromTemplate, Templates.templateFilter.
  apply String.eqb_neq in H1, H2, H3, H4. rewrite H1, H2, H3, H4. reflexivity.
Qed.

Lemma nullish_params_errors templateName params workflow :
  nullish params = true ->
  let r := Templates.buildFromTemplate templateName params workflow in
  Templates.success r = false /\ Templates.logic r = None /\
  Templates.errors r = Some (errors_of r) /\ errors_of r <> [].
Proof.
  intros H.
  unfold Templates.buildFromTemplate, Templates.templateFilter.
  destruct params; try discriminate H;
    destruct (templateName =? "string-equals");
    try (simpl; repeat split; discriminate);
    destruct (templateName =? "string-or");
    try (simpl; repeat split; discriminate);
    destruct (templateName =? "numeric-range");
    try (simpl; repeat split; discriminate);
    destruct (templateName =? "null-check");
    simpl; repeat split; discriminate.
Qed.

Lemma build_never_partial templateName params workflow :
  let r := Templates.buildFromTemplate templateName params workflow in
  Templates.success r = true /\ Templates.errors r = None /\
  (exists l, Templates.logic r = Some l)
  \/ Templates.success r = false /\ Templates.logic r = None /\
     Templates.errors r = Some (errors_of r) /\ errors_of r <> [].
Proof.
  destruct (nullish params) eqn:Hn.
  - right. apply nullish_params_errors, Hn.
  - destruct (string_dec templateName "string-equals") as [-> | H1];
      [apply string_equals_errors, Hn |].
    destruct (string_dec templateName "string-or") as [-> | H2];
      [apply string_or_errors, Hn |].
    destruct (string_dec templateName "numeric-range") as [-> | H3];
      [apply numeric_range_errors, Hn |].
    destruct (string_dec templateName "null-check") as [-> | H4];
      [apply null_check_errors, Hn |].
    right. rewrite unknown_template_errors by assumption.
    simpl. repeat split; discriminate.
Qed.

(** C3, as amended.  [buildFromTemplate] tests every required parameter
    before it builds anything, collects all the errors in the order of the
    tests, and builds only when there is none: a failed build carries no
    logic and at least one error.  A falsy [propertyId] (any template) and
    a falsy [value] ([string-equals]) are reported as
    [Missing required parameter: <name>]; the [values] of [string-or] and
    the bounds of [numeric-range] have messages of their own.  With
    [propertyId] left out of [string-equals] the errors are exactly
    [Missing required parameter: propertyId]. *)
Theorem buildFromTemplate_missing_parameters :
  forall (templateName : string) (params : jsval) (workflow : WorkflowDefinition),
    let r := Templates.buildFromTemplate templateName params workflow in
    (Templates.success r = true /\ Templates.errors r = None /\
     (exists l, Templates.logic r = Some l)
     \/ Templates.success r = false /\ Templates.logic r = None /\
        Templates.errors r = Some (errors_of r) /\ errors_of r <> []) /\
    (nullish params = false ->
     (templateName = "string-equals" ->
      errors_of r = (missing "propertyId" (get_opt params "propertyId")
                     ++ missing "value" (get_opt params "value"))%list) /\
     (templateName = "string-or" ->
      errors_of r = (missing "propertyId" (get_opt params "propertyId")
                     ++ (if no_values (get_opt params "values")
                         then ["Missing or empty required parameter: values"]
                         else []))%list) /\
     (templateName = "numeric-range" ->
      errors_of r = (missing "propertyId" (get_opt params "propertyId")
                     ++ (if strict_equals (get_opt params "min") VUndefined
                            && strict_equals (get_opt params "max") VUndefined
                         then ["At least one of min or max is required"]
                         else []))%list) /\
     (templateName = "null-check" ->
      errors_of r = missing "propertyId" (get_opt params "propertyId"))) /\
    (forall value,
        truthy value = true ->
        Templates.buildFromTemplate "string-equals" (VObj [("value", value)]) workflow
        = {| Templates.success := false;
             Templates.logic := None;
             Templates.errors := Some ["Missing required parameter: propertyId"] |}).
Proof.
  intros templateName params workflow r. split; [| split].
  - apply build_never_partial.
  - intros Hn. repeat split; intros ->.
    + apply string_equals_errors, Hn.
    + apply string_or_errors, Hn.
    + apply numeric_range_errors, Hn.
    + apply null_check_errors, Hn.
  - intros value Hv.
    unfold Templates.buildFromTemplate, Templates.templateFilter.
    destruct value; simpl in *; try discriminate; try rewrite Hv; reflexivity.
Qed.

Lemma buildFromTemplate_missing_parameters_witness :
  errors_of (Templates.buildFromTemplate "string-equals" (VObj []) sample_workflow)
  = ["Missing required parameter: propertyId"; "Missing required parameter: value"] /\
  Templates.buildFromTemplate "string-equals" (VObj [("value", VStr "test")])
    sample_workflow
  = {| Templates.success := false;
       Templates.logic := None;
       Templates.errors := Some ["Missing required parameter: propertyId"] |}.
Proof.
  pose proof (buildFromTemplate_missing_parameters "string-equals" (VObj [])
                sample_workflow) as H.
  destruct H as [_ [H1 H2]]. split.
  - apply (H1 eq_refl). reflexivity.
  - apply H2. reflexivity.
Defined.

(** C3 as stated fails: [values] is a required parameter of [string-or],
    and leaving it out is not reported in the shape
    [Missing required parameter: <name>]. *)
Lemma string_or_missing_values_counterexample :
  let params := VObj [("propertyId", VStr "status")] in
  let r := Templates.buildFromTemplate "string-or" params sample_workflow in
  In "values" (Templates.required_parameters "string-or") /\
  get_opt params "values" = VUndefined /\
  Templates.errors r = Some ["Missing or empty required parameter: values"] /\
  ~ In "Missing required parameter: values" (errors_of r).
Proof.
  simpl. repeat split.
  - right. left. reflexivity.
  - intros [H | []]. discriminate H.
Qed.

(** C9, as amended.  In the [string-or] template a [values] parameter
    that is an empty array and one that is left out are reported with the
    same error, [Missing or empty required parameter: values]; no error of
    the shape [Missing required parameter: values] is produced. *)
Theorem string_or_values_error :
  forall (params : jsval) (workflow : WorkflowDefinition),
    nullish params = false ->
    get_opt params "values" = VArr [] \/ get_opt params "values" = VUndefined ->
    let r := Templates.buildFromTemplate "string-or" params workflow in
    Templates.success r = false /\
    Templates.logic r = None /\
    Templates.errors r = Some (errors_of r) /\
    In "Missing or empty required parameter: values" (errors_of r) /\
    ~ In "Missing required parameter: values" (errors_of r).
Proof.
  intros params workflow Hn Hv r.
  destruct (string_or_errors params workflow Hn) as [He Hc].
  fold r in He, Hc.
  assert (Hno : no_values (get_opt params "values") = true)
    by (destruct Hv as [-> | ->]; reflexivity).
  rewrite Hno in He.
  assert (Hin : In "Missing or empty required parameter: values" (errors_of r)).
  { rewrite He. apply in_or_app. right. left. reflexivity. }
  assert (Hout : ~ In "Missing required parameter: values" (errors_of r)).
  { rewrite He. intro H. apply in_app_or in H. destruct H as [H | [H | []]].
    - unfold missing in H. destruct (truthy (get_opt params "propertyId")).
      + destruct H.
      + destruct H as [H | []]. discriminate H.
    - discriminate H. }
  destruct Hc as [[_ [Hnone _]] | [Hs [Hl [Hes _]]]].
  - exfalso. unfold errors_of in Hin. rewrite Hnone in Hin. destruct Hin.
  - repeat split; assumption.
Qed.

Lemma string_or_values_error_witness :
  let r := Templates.buildFromTemplate "string-or"
             (VObj [("propertyId", VStr "status"); ("values", VArr [])])
             sample_workflow in
  Templates.success r = false /\
  Templates.logic r = None /\
  Templates.errors r = Some (errors_of r) /\
  In "Missing or empty required parameter: values" (errors_of r) /\
  ~ In "Missing required parameter: values" (errors_of r).
Proof.
  apply (string_or_values_error
           (VObj [("propertyId", VStr "status"); ("values", VArr [])]) sample_workflow).
  - reflexivity.
  - left. reflexivity.
Defined.

(** C9 as stated fails: the empty array and the missing parameter give
    one and the same list of errors. *)
Lemma string_or_empty_values_counterexample :
  Templates.errors
    (Templates.buildFromTemplate "string-or"
       (VObj [("propertyId", VStr "status"); ("values", VArr [])]) sample_workflow)
  = Templates.errors
      (Templates.buildFromTemplate "string-or"
         (VObj [("propertyId", VStr "status")]) sample_workflow).
Proof. reflexivity. Qed.

(** ** Sets in insertion order *)

Lemma strict_equals_eq a b : strict_equals a b = true -> a = b.
Proof.
  destruct a, b; simpl; try discriminate; intro H; try reflexivity.
  - apply Bool.eqb_prop in H. congruence.
  - apply Z.eqb_eq in H. congruence.
  - apply String.eqb_eq in H. congruence.
Qed.

Lemma strict_equals_sym a b : strict_equals a b = strict_equals b a.
Proof.
  destruct a, b; simpl; try reflexivity.
  - destruct b, b0; reflexivity.
  - apply Z.eqb_sym.
  - apply String.eqb_sym.
Qed.

Lemma includes_In s x : includes s x = true -> In x s.
Proof.
  unfold includes. intro H. apply existsb_exists in H.
  destruct H as [y [Hy He]]. apply strict_equals_eq in He. subst. exact Hy.
Qed.

Lemma includes_false s x y : includes s x = false -> In y s -> strict_equals y x = false.
Proof.
  unfold includes. intros H Hy.
  destruct (strict_equals y x) eqn:E; [| reflexivity].
  assert (existsb (fun y => strict_equals y x) s = true)
    by (apply existsb_exists; exists y; split; assumption).
  congruence.
Qed.

Lemma set_add_spec s x y : In y (set_add s x) <-> In y s \/ y = x.
Proof.
  unfold set_add, push. destruct (includes s x) eqn:E.
  - split; [auto |]. intros [H | ->]; [exact H | apply includes_In, E].
  - rewrite in_app_iff. simpl. intuition.
Qed.

Lemma set_add_all_spec t : forall s y, In y (set_add_all s t) <-> In y s \/ In y t.
Proof.
  unfold set_add_all. induction t as [| x t IH]; intros s y; simpl.
  - intuition.
  - rewrite IH, set_add_spec. intuition.
Qed.

Lemma distinct_push s x : distinct s -> includes s x = false -> distinct (push s x).
Proof.
  unfold distinct, push. intros Hs Hx. induction Hs as [| a l Ha Hl IH].
  - simpl. constructor; constructor.
  - simpl. constructor.
    + apply Forall_app. split; [exact Ha |].
      constructor; [| constructor].
      apply (includes_false _ _ a Hx). left. reflexivity.
    + apply IH. unfold includes in *. simpl in Hx.
      apply orb_false_iff in Hx. apply Hx.
Qed.

Lemma distinct_set_add s x : distinct s -> distinct (set_add s x).
Proof.
  intro Hs. unfold set_add. destruct (includes s x) eqn:E.
  - exact Hs.
  - apply distinct_push; assumption.
Qed.

Lemma distinct_set_add_all t : forall s, distinct s -> distinct (set_add_all s t).
Proof.
  unfold set_add_all. induction t as [| x t IH]; intros s Hs; simpl.
  - exact Hs.
  - apply IH, distinct_set_add, Hs.
Qed.

Lemma distinct_nil : distinct [].
Proof. constructor. Qed.

(** ** Loops *)

Lemma forEach_ext {A S : Type} (f g : S -> A -> result S) l :
  (forall x s, In x l -> f s x = g s x) ->
  forall s, forEach f l s = forEach g l s.
Proof.
  induction l as [| x l IH]; intros H s; simpl.
  - reflexivity.
  - rewrite (H x s) by (left; reflexivity).
    destruct (g s x); simpl; [| reflexivity].
    apply IH. intros y s' Hy. apply H. right. exact Hy.
Qed.

Lemma forEach_returns {A S : Type} (f : S -> A -> result S) l :
  (forall x s, In x l -> returns (f s x)) ->
  forall s, returns (forEach f l s).
Proof.
  induction l as [| x l IH]; intros H s; simpl.
  - exists s. reflexivity.
  - destruct (H x s) as [s' Hs']; [left; reflexivity |].
    rewrite Hs'. simpl. apply IH. intros y s'' Hy. apply H. right. exact Hy.
Qed.

Lemma forEach_invariant {A S : Type} (P : S -> Prop) (f : S -> A -> result S) l :
  (forall x s s', In x l -> P s -> f s x = Ok s' -> P s') ->
  forall s s', P s -> forEach f l s = Ok s' -> P s'.
Proof.
  induction l as [| x l IH]; intros H s s' Hs Hr; simpl in Hr.
  - inversion Hr. subst. exact Hs.
  - destruct (f s x) as [s1 |] eqn:E; simpl in Hr; [| discriminate].
    apply (IH (fun y t t' Hy => H y t t' (or_intror Hy)) s1 s').
    + apply (H x s s1); [left; reflexivity | exact Hs | exact E].
    + exact Hr.
Qed.

Lemma forEach_app {A S : Type} (f : S -> A -> result S) l1 l2 s :
  forEach f (l1 ++ l2)%list s = (s' <- forEach f l1 s ;; forEach f l2 s').
Proof.
  revert s. induction l1 as [| x l1 IH]; intro s; simpl.
  - reflexivity.
  - destruct (f s x); simpl; [apply IH | reflexivity].
Qed.

(** ** Depth of the values a property read gives *)

Lemma depth_obj_cons k x fs :
  depth (VObj ((k, x) :: fs)) = Nat.max (S (depth x)) (depth (VObj fs)).
Proof. reflexivity. Qed.

Lemma depth_arr_cons x l :
  depth (VArr (x :: l)) = Nat.max (S (depth x)) (depth (VArr l)).
Proof. reflexivity. Qed.

Lemma depth_assoc k fs x : assoc k fs = Some x -> depth x < depth (VObj fs).
Proof.
  induction fs as [| [k' y] fs IH]; [discriminate |].
  rewrite depth_obj_cons. simpl assoc. destruct (k' =? k).
  - intro H. injection H as ->. lia.
  - intro H. specialize (IH H). lia.
Qed.

Lemma depth_elem l x : In x l -> depth x < depth (VArr l).
Proof.
  induction l as [| y l IH]; [intros [] |].
  rewrite depth_arr_cons. intros [-> | H].
  - lia.
  - specialize (IH H). lia.
Qed.

Lemma depth_nth l i x : nth_error l i = Some x -> depth x < depth (VArr l).
Proof. intro H. apply depth_elem. eapply nth_error_In, H. Qed.

Lemma depth_own v k x : own_property v k = Some x -> depth x <= depth v.
Proof.
  destruct v; cbn [own_property]; try discriminate.
  - destruct (k =? "length");
      [intro H; injection H as <-; change (depth (VNum _)) with 0; lia | discriminate].
  - destruct (k =? "length");
      [intro H; injection H as <-; change (depth (VNum _)) with 0; lia |].
    destruct (index_of_key k); [| discriminate].
    intro H. apply depth_nth in H. lia.
  - intro H. apply depth_assoc in H. lia.
Qed.

Lemma depth_get_opt v k : depth (get_opt v k) <= depth v.
Proof.
  unfold get_opt. destruct (own_property v k) eqn:E.
  - eapply depth_own, E.
  - destruct (inherited v k); [destruct (k =? "__proto__") |];
      change (depth (VObj [])) with 0; change (depth VFun) with 0;
      change (depth VUndefined) with 0; lia.
Qed.

(** A truthy value read under one of the four rule names is a field of
    an object, one level down. *)
Lemma depth_rule v k :
  rule_name k -> truthy (get_opt v k) = true -> depth (get_opt v k) < depth v.
Proof.
  intros Hk. unfold get_opt.
  destruct v; destruct Hk as [-> | [-> | [-> | ->]]]; simpl;
    try discriminate;
    match goal with
    | |- context [assoc ?k ?fs] =>
        destruct (assoc k fs) eqn:E;
        [intros _; apply depth_assoc in E; exact E | discriminate]
    end.
Qed.

(** ** The traversal of a filter tree *)

Lemma bind_ext {A B : Type} (c : result A) (k1 k2 : A -> result B) :
  (forall a, c = Ok a -> k1 a = k2 a) -> bind c k1 = bind c k2.
Proof. destruct c; simpl; intro H; [apply H |]; reflexivity. Qed.

Lemma bind_returns {A B : Type} (c : result A) (k : A -> result B) :
  returns c -> (forall a, returns (k a)) -> returns (bind c k).
Proof. intros [a ->] H. simpl. apply H. Qed.

Lemma object_is_truthy filter :
  negb (truthy filter) || negb (typeof filter =? "object") = false ->
  truthy filter = true.
Proof. destruct (truthy filter); simpl; congruence. Qed.

Section TraversalFacts.

Variable leaf : list jsval -> jsval -> result (list jsval).
Variable take : jsval -> jsval.

Hypothesis leaf_takes :
  forall found rule,
    truthy rule = true ->
    leaf found rule = Ok (if truthy (take rule) then set_add found (take rule) else found).

(** *** Fuel *)

Lemma visit_all_ext r1 r2 l found :
  (forall sub, In sub l -> r1 sub = r2 sub) ->
  visit_all r1 l found = visit_all r2 l found.
Proof.
  intro H. unfold visit_all. apply forEach_ext.
  intros x s Hx. rewrite (H x Hx). reflexivity.
Qed.

Lemma visit_filters_ext r1 r2 rule found :
  (forall sub, depth sub < depth rule -> r1 sub = r2 sub) ->
  visit_filters r1 rule found = visit_filters r2 rule found.
Proof.
  intro H. unfold visit_filters. apply bind_ext. intros filters Hf.
  destruct filters; try reflexivity.
  apply visit_all_ext. intros sub Hsub. apply H.
  apply depth_elem in Hsub.
  assert (depth (VArr elems) <= depth rule).
  { destruct rule; try discriminate Hf; simpl in Hf;
      injection Hf as Hf; rewrite <- Hf; apply depth_get_opt. }
  lia.
Qed.

Lemma visit_inner_ext r1 r2 rule found :
  (forall sub, depth sub <= depth rule -> r1 sub = r2 sub) ->
  visit_inner r1 rule found = visit_inner r2 rule found.
Proof.
  intro H. unfold visit_inner. apply bind_ext. intros inner Hi.
  rewrite (H inner); [reflexivity |].
  destruct rule; try discriminate Hi; simpl in Hi;
    injection Hi as Hi; rewrite <- Hi; apply depth_get_opt.
Qed.

Lemma visit_ext r1 r2 filter :
  (forall sub, depth sub < depth filter -> r1 sub = r2 sub) ->
  visit leaf r1 filter = visit leaf r2 filter.
Proof.
  intro H. unfold visit.
  destruct (negb (truthy filter) || negb (typeof filter =? "object")) eqn:E;
    [reflexivity |].
  apply object_is_truthy in E.
  rewrite !(get_truthy _ _ E). simpl bind.
  apply bind_ext. intros found1 _.
  assert (Hlt : forall k, rule_name k -> truthy (get_opt filter k) = true ->
                          depth (get_opt filter k) < depth filter)
    by (intros k Hk; apply depth_rule, Hk).
  assert (E2 : (if truthy (get_opt filter "orFilterRule")
                then visit_filters r1 (get_opt filter "orFilterRule") found1
                else Ok found1)
               = (if truthy (get_opt filter "orFilterRule")
                  then visit_filters r2 (get_opt filter "orFilterRule") found1
                  else Ok found1)).
  { destruct (truthy (get_opt filter "orFilterRule")) eqn:T; [| reflexivity].
    apply visit_filters_ext. intros sub Hs. apply H.
    specialize (Hlt "orFilterRule"). unfold rule_name in Hlt.
    assert (depth (get_opt filter "orFilterRule") < depth filter) by auto. lia. }
  rewrite E2. apply bind_ext. intros found2 _.
  assert (E3 : (if truthy (get_opt filter "andFilterRule")
                then visit_filters r1 (get_opt filter "andFilterRule") found2
                else Ok found2)
               = (if truthy (get_opt filter "andFilterRule")
                  then visit_filters r2 (get_opt filter "andFilterRule") found2
                  else Ok found2)).
  { destruct (truthy (get_opt filter "andFilterRule")) eqn:T; [| reflexivity].
    apply visit_filters_ext. intros sub Hs. apply H.
    specialize (Hlt "andFilterRule"). unfold rule_name in Hlt.
    assert (depth (get_opt filter "andFilterRule") < depth filter) by auto. lia. }
  rewrite E3. apply bind_ext. intros found3 _.
  assert (E4 : (if truthy (get_opt filter "notFilterRule")
                then visit_inner r1 (get_opt filter "notFilterRule") found3
                else Ok found3)
               = (if truthy (get_opt filter "notFilterRule")
                  then visit_inner r2 (get_opt filter "notFilterRule") found3
                  else Ok found3)).
  { destruct (truthy (get_opt filter "notFilterRule")) eqn:T; [| reflexivity].
    apply visit_inner_ext. intros sub Hs. apply H.
    specialize (Hlt "notFilterRule"). unfold rule_name in Hlt.
    assert (depth (get_opt filter "notFilterRule") < depth filter) by auto. lia. }
  rewrite E4. reflexivity.
Qed.

Lemma traverse_step n :
  forall filter, depth filter < n -> traverse leaf n filter = traverse leaf (S n) filter.
Proof.
  induction n as [| n IH]; intros filter Hd; [lia |].
  change (visit leaf (traverse leaf n) filter
          = visit leaf (traverse leaf (S n)) filter).
  apply visit_ext. intros sub Hs. apply IH. lia.
Qed.

Lemma traverse_fuel n filter :
  depth filter < n -> traverse leaf n filter = extract leaf filter.
Proof.
  unfold extract. intro Hd.
  assert (H : forall m, S (depth filter) <= m ->
                        traverse leaf m filter = traverse leaf (S (depth filter)) filter).
  { induction 1 as [| m Hm IH]; [reflexivity |].
    rewrite <- traverse_step by lia. exact IH. }
  apply H. lia.
Qed.

(** The extractor satisfies the equation of the source function. *)
Lemma extract_unfold filter :
  extract leaf filter = visit leaf (extract leaf) filter.
Proof.
  unfold extract at 1.
  change (visit leaf (traverse leaf (depth filter)) filter
          = visit leaf (extract leaf) filter).
  apply visit_ext. intros sub Hs. apply traverse_fuel, Hs.
Qed.

End TraversalFacts.

Section TraversalResults.

Variable leaf : list jsval -> jsval -> result (list jsval).
Variable take : jsval -> jsval.

Hypothesis leaf_takes :
  forall found rule,
    truthy rule = true ->
    leaf found rule = Ok (if truthy (take rule) then set_add found (take rule) else found).

(** *** No exception *)

Lemma visit_all_returns r l found :
  (forall sub, returns (r sub)) -> returns (visit_all r l found).
Proof.
  intro H. unfold visit_all. apply forEach_returns.
  intros x s _. apply bind_returns; [apply H |].
  intro a. eexists. reflexivity.
Qed.

Lemma visit_filters_returns r rule found :
  truthy rule = true -> (forall sub, returns (r sub)) ->
  returns (visit_filters r rule found).
Proof.
  intros Ht H. unfold visit_filters. rewrite (get_truthy _ _ Ht). simpl.
  destruct (get_opt rule "filters"); try (eexists; reflexivity).
  apply visit_all_returns, H.
Qed.

Lemma visit_inner_returns r rule found :
  truthy rule = true -> (forall sub, returns (r sub)) ->
  returns (visit_inner r rule found).
Proof.
  intros Ht H. unfold visit_inner. rewrite (get_truthy _ _ Ht). simpl.
  apply bind_returns; [apply H |]. intro a. eexists. reflexivity.
Qed.

Lemma visit_returns r filter :
  (forall sub, returns (r sub)) -> returns (visit leaf r filter).
Proof.
  intro H. unfold visit.
  destruct (negb (truthy filter) || negb (typeof filter =? "object")) eqn:E;
    [eexists; reflexivity |].
  apply object_is_truthy in E. rewrite !(get_truthy _ _ E). simpl bind.
  apply bind_returns.
  { destruct (truthy (get_opt filter "columnFilterRule")) eqn:T.
    - rewrite leaf_takes by exact T. eexists. reflexivity.
    - eexists. reflexivity. }
  intro found1. apply bind_returns.
  { destruct (truthy (get_opt filter "orFilterRule")) eqn:T.
    - apply visit_filters_returns; assumption.
    - eexists. reflexivity. }
  intro found2. apply bind_returns.
  { destruct (truthy (get_opt filter "andFilterRule")) eqn:T.
    - apply visit_filters_returns; assumption.
    - eexists. reflexivity. }
  intro found3. apply bind_returns.
  { destruct (truthy (get_opt filter "notFilterRule")) eqn:T.
    - apply visit_inner_returns; assumption.
    - eexists. reflexivity. }
  intro found4. eexists. reflexivity.
Qed.

Lemma traverse_returns n : forall filter, returns (traverse leaf n filter).
Proof.
  induction n as [| n IH]; intro filter; simpl.
  - eexists. reflexivity.
  - apply visit_returns, IH.
Qed.

Lemma extract_returns filter : returns (extract leaf filter).
Proof. apply traverse_returns. Qed.

(** *** What the result holds *)

(** The four steps of [visit], one after the other. *)
Lemma visit_steps r filter ps :
  visit leaf r filter = Ok ps ->
  negb (truthy filter) || negb (typeof filter =? "object") = false ->
  exists found1 found2 found3,
    (if truthy (get_opt filter "columnFilterRule")
     then leaf [] (get_opt filter "columnFilterRule") else Ok []) = Ok found1 /\
    (if truthy (get_opt filter "orFilterRule")
     then visit_filters r (get_opt filter "orFilterRule") found1
     else Ok found1) = Ok found2 /\
    (if truthy (get_opt filter "andFilterRule")
     then visit_filters r (get_opt filter "andFilterRule") found2
     else Ok found2) = Ok found3 /\
    (if truthy (get_opt filter "notFilterRule")
     then visit_inner r (get_opt filter "notFilterRule") found3
     else Ok found3) = Ok ps.
Proof.
  intros Hv E. unfold visit in Hv. rewrite E in Hv.
  apply object_is_truthy in E. rewrite !(get_truthy _ _ E) in Hv. simpl bind in Hv.
  destruct (if truthy (get_opt filter "columnFilterRule")
            then leaf [] (get_opt filter "columnFilterRule") else Ok [])
    as [found1 |] eqn:E1; [| discriminate].
  simpl bind in Hv.
  destruct (if truthy (get_opt filter "orFilterRule")
            then visit_filters r (get_opt filter "orFilterRule") found1
            else Ok found1) as [found2 |] eqn:E2; [| discriminate].
  simpl bind in Hv.
  destruct (if truthy (get_opt filter "andFilterRule")
            then visit_filters r (get_opt filter "andFilterRule") found2
            else Ok found2) as [found3 |] eqn:E3; [| discriminate].
  simpl bind in Hv.
  destruct (if truthy (get_opt filter "notFilterRule")
            then visit_inner r (get_opt filter "notFilterRule") found3
            else Ok found3) as [found4 |] eqn:E4; [| discriminate].
  simpl bind in Hv. injection Hv as <-.
  exists found1, found2, found3. repeat split; first [reflexivity | assumption].
Qed.

Lemma visit_all_grows r l : forall found found',
  visit_all r l found = Ok found' -> incl found found'.
Proof.
  unfold visit_all. intros found found' H.
  refine (forEach_invariant (fun s => incl found s) _ l _ found found' (incl_refl _) H).
  intros x s s' _ Hs Hx.
  destruct (r x) as [sub |]; simpl in Hx; [| discriminate].
  injection Hx as <-. intros y Hy. apply set_add_all_spec. left. apply Hs, Hy.
Qed.

Lemma visit_all_holds r l : forall found found' sub qs p,
  visit_all r l found = Ok found' ->
  In sub l -> r sub = Ok qs -> In p qs -> In p found'.
Proof.
  induction l as [| x l IH]; intros found found' sub qs p H Hin Hr Hp;
    [destruct Hin |].
  unfold visit_all in H. simpl in H.
  destruct (r x) as [xs |] eqn:Ex; simpl in H; [| discriminate].
  destruct Hin as [-> | Hin].
  - apply (visit_all_grows r l _ _ H). apply set_add_all_spec. right.
    rewrite Hr in Ex. injection Ex as <-. exact Hp.
  - eapply IH; eassumption.
Qed.

Lemma visit_filters_grows r rule found found' :
  visit_filters r rule found = Ok found' -> incl found found'.
Proof.
  unfold visit_filters. destruct (get rule "filters") as [filters |]; simpl;
    [| discriminate].
  destruct filters; try (intro H; injection H as <-; apply incl_refl).
  apply visit_all_grows.
Qed.

Lemma visit_inner_grows r rule found found' :
  visit_inner r rule found = Ok found' -> incl found found'.
Proof.
  unfold visit_inner. destruct (get rule "filter") as [inner |]; simpl;
    [| discriminate].
  destruct (r inner) as [sub |]; simpl; [| discriminate].
  intro H. injection H as <-. intros y Hy. apply set_add_all_spec. left. exact Hy.
Qed.

Lemma step_grows (c : bool) (step : result (list jsval)) found found' :
  (if c then step else Ok found) = Ok found' ->
  (step = Ok found' -> incl found found') -> incl found found'.
Proof.
  destruct c; intros H Hs.
  - apply Hs, H.
  - injection H as <-. apply incl_refl.
Qed.

(** A value read under a rule name is truthy only on an object. *)
Lemma rule_on_object filter k :
  rule_name k -> truthy (get_opt filter k) = true ->
  negb (truthy filter) || negb (typeof filter =? "object") = false.
Proof.
  intros Hk. destruct filter; destruct Hk as [-> | [-> | [-> | ->]]];
    simpl; try discriminate; reflexivity.
Qed.

Lemma filters_on_truthy rule l : get_opt rule "filters" = VArr l -> truthy rule = true.
Proof. destruct rule; simpl; try discriminate; try reflexivity;
         unfold get_opt; simpl; discriminate. Qed.

Lemma extract_mentions p filter :
  mentions take p filter ->
  exists ps, extract leaf filter = Ok ps /\ In p ps.
Proof.
  induction 1 as [filter Hc Ht Hp
                 | filter l sub Hf Hin Hm IH
                 | filter l sub Hf Hin Hm IH
                 | filter Hn Hm IH];
    destruct (extract_returns filter) as [ps Hps]; exists ps; (split; [exact Hps |]);
    rewrite extract_unfold in Hps.
  - assert (E : negb (truthy filter) || negb (typeof filter =? "object") = false)
      by (apply (rule_on_object filter "columnFilterRule"); unfold rule_name; auto).
    destruct (visit_steps _ _ _ Hps E) as [f1 [f2 [f3 [H1 [H2 [H3 H4]]]]]].
    rewrite Hc, leaf_takes, Ht, Hp in H1 by exact Hc. injection H1 as <-.
    apply (step_grows _ _ _ _ H4 (visit_inner_grows _ _ _ _)).
    apply (step_grows _ _ _ _ H3 (visit_filters_grows _ _ _ _)).
    apply (step_grows _ _ _ _ H2 (visit_filters_grows _ _ _ _)).
    apply set_add_spec. right. reflexivity.
  - assert (Hr : truthy (get_opt filter "orFilterRule") = true)
      by (eapply filters_on_truthy, Hf).
    assert (E : negb (truthy filter) || negb (typeof filter =? "object") = false)
      by (apply (rule_on_object filter "orFilterRule"); unfold rule_name; auto).
    destruct (visit_steps _ _ _ Hps E) as [f1 [f2 [f3 [H1 [H2 [H3 H4]]]]]].
    rewrite Hr in H2. unfold visit_filters in H2.
    rewrite (get_truthy _ _ Hr), Hf in H2. simpl in H2.
    destruct IH as [qs [Hq Hpq]].
    apply (step_grows _ _ _ _ H4 (visit_inner_grows _ _ _ _)).
    apply (step_grows _ _ _ _ H3 (visit_filters_grows _ _ _ _)).
    eapply visit_all_holds; eassumption.
  - assert (Hr : truthy (get_opt filter "andFilterRule") = true)
      by (eapply filters_on_truthy, Hf).
    assert (E : negb (truthy filter) || negb (typeof filter =? "object") = false)
      by (apply (rule_on_object filter "andFilterRule"); unfold rule_name; auto).
    destruct (visit_steps _ _ _ Hps E) as [f1 [f2 [f3 [H1 [H2 [H3 H4]]]]]].
    rewrite Hr in H3. unfold visit_filters in H3.
    rewrite (get_truthy _ _ Hr), Hf in H3. simpl in H3.
    destruct IH as [qs [Hq Hpq]].
    apply (step_grows _ _ _ _ H4 (visit_inner_grows _ _ _ _)).
    eapply visit_all_holds; eassumption.
  - assert (E : negb (truthy filter) || negb (typeof filter =? "object") = false)
      by (apply (rule_on_object filter "notFilterRule"); unfold rule_name; auto).
    destruct (visit_steps _ _ _ Hps E) as [f1 [f2 [f3 [H1 [H2 [H3 H4]]]]]].
    rewrite Hn in H4. unfold visit_inner in H4.
    rewrite (get_truthy _ _ Hn) in H4. simpl in H4.
    destruct IH as [qs [Hq Hpq]]. rewrite Hq in H4. simpl in H4.
    injection H4 as <-. apply set_add_all_spec. right. exact Hpq.
Qed.

(** *** The result is a set *)

Lemma visit_all_distinct r l found found' :
  distinct found -> visit_all r l found = Ok found' -> distinct found'.
Proof.
  unfold visit_all. intros Hd H.
  refine (forEach_invariant distinct _ l _ found found' Hd H).
  intros x s s' _ Hs Hx.
  destruct (r x) as [sub |]; simpl in Hx; [| discriminate].
  injection Hx as <-. apply distinct_set_add_all, Hs.
Qed.

Lemma visit_filters_distinct r rule found found' :
  distinct found -> visit_filters r rule found = Ok found' -> distinct found'.
Proof.
  unfold visit_filters. intro Hd.
  destruct (get rule "filters") as [filters |]; simpl; [| discriminate].
  destruct filters; try (intro H; injection H as <-; exact Hd).
  apply visit_all_distinct, Hd.
Qed.

Lemma visit_inner_distinct r rule found found' :
  distinct found -> visit_inner r rule found = Ok found' -> distinct found'.
Proof.
  unfold visit_inner. intro Hd.
  destruct (get rule "filter") as [inner |]; simpl; [| discriminate].
  destruct (r inner) as [sub |]; simpl; [| discriminate].
  intro H. injection H as <-. apply distinct_set_add_all, Hd.
Qed.

Lemma visit_distinct r filter ps : visit leaf r filter = Ok ps -> distinct ps.
Proof.
  intro Hv.
  destruct (negb (truthy filter) || negb (typeof filter =? "object")) eqn:E.
  - unfold visit in Hv. rewrite E in Hv. injection Hv as <-. apply distinct_nil.
  - destruct (visit_steps _ _ _ Hv E) as [f1 [f2 [f3 [H1 [H2 [H3 H4]]]]]].
    assert (D1 : distinct f1).
    { destruct (truthy (get_opt filter "columnFilterRule")) eqn:T.
      - rewrite leaf_takes in H1 by exact T. injection H1 as <-.
        destruct (truthy (take (get_opt filter "columnFilterRule")));
          [apply distinct_set_add |]; apply distinct_nil.
      - injection H1 as <-. apply distinct_nil. }
    assert (D2 : distinct f2).
    { destruct (truthy (get_opt filter "orFilterRule")).
      - eapply visit_filters_distinct; eassumption.
      - injection H2 as <-. exact D1. }
    assert (D3 : distinct f3).
    { destruct (truthy (get_opt filter "andFilterRule")).
      - eapply visit_filters_distinct; eassumption.
      - injection H3 as <-. exact D2. }
    destruct (truthy (get_opt filter "notFilterRule")).
    + eapply visit_inner_distinct; eassumption.
    + injection H4 as <-. exact D3.
Qed.

Lemma extract_distinct filter ps : extract leaf filter = Ok ps -> distinct ps.
Proof. apply visit_distinct. Qed.

End TraversalResults.

(** ** Substrings *)

Lemma prefix_app a : forall s t, prefix a s = true -> prefix a (s ++ t) = true.
Proof.
  induction a as [| c a IH]; intros s t H; [destruct (s ++ t); reflexivity |].
  destruct s as [| d s]; simpl in *; [discriminate |].
  destruct (ascii_dec c d); [apply IH, H | discriminate].
Qed.

Lemma prefix_refl a : prefix a a = true.
Proof.
  induction a as [| c a IH]; simpl; [reflexivity |].
  destruct (ascii_dec c c); [exact IH | congruence].
Qed.



Lemma append_empty_r s : s ++ EmptyString = s.
Proof. induction s as [| c s IH]; simpl; [| rewrite IH]; reflexivity. Qed.

Lemma append_assoc a b c : (a ++ b) ++ c = a ++ (b ++ c).
Proof. induction a as [| x a IH]; simpl; [| rewrite IH]; reflexivity. Qed.




(** ** The property pass *)

Lemma columnProperty_takes found rule :
  truthy rule = true ->
  Properties.columnProperty found rule
  = Ok (if truthy (propertyOf rule) then set_add found (propertyOf rule) else found).
Proof.
  intro H. unfold Properties.columnProperty, propertyOf, columnPropertyId.
  rewrite (get_truthy _ _ H). simpl.
  destruct (truthy (get_opt (get_opt (get_opt rule "column") "objectProperty")
                      "propertyTypeId")); reflexivity.
Qed.

Lemma includes_str_In l s : includes_str l (VStr s) = true <-> In s l.
Proof.
  unfold includes_str, includes. rewrite existsb_exists. split.
  - intros [y [Hy He]]. apply in_map_iff in Hy. destruct Hy as [t [<- Ht]].
    simpl in He. apply String.eqb_eq in He. subst. exact Ht.
  - intro H. exists (VStr s). split; [apply in_map, H | simpl; apply String.eqb_refl].
Qed.

Lemma includes_str_string l v : includes_str l v = true -> exists s, v = VStr s /\ In s l.
Proof.
  intro H. pose proof H as H'. apply includes_In in H'.
  apply in_map_iff in H'. destruct H' as [s [<- Hs]]. exists s. split; [reflexivity | exact Hs].
Qed.

(** The loop of [validateProperties]. *)
Lemma checkProperty_loop cfg valid used : forall errors,
  Forall printable used ->
  forEach (Properties.checkProperty cfg valid) used errors
  = Ok (errors ++ map (fun p => Properties.missingPropertyError (text_of p) cfg valid)
                      (filter (fun p => negb (includes_str valid p)) used))%list.
Proof.
  induction used as [| p used IH]; intros errors Hp; simpl.
  - rewrite List.app_nil_r. reflexivity.
  - inversion Hp as [| ? ? [text Ht] Hp']. subst.
    unfold Properties.checkProperty at 1.
    destruct (negb (includes_str valid p)); simpl.
    + rewrite Ht. simpl. rewrite IH by exact Hp'.
      unfold push, text_of. rewrite Ht. rewrite <- List.app_assoc. reflexivity.
    + apply IH, Hp'.
Qed.


Lemma forEach_holds {A : Type} (f : list jsval -> A -> result (list jsval)) l x p :
  (forall s y s', f s y = Ok s' -> incl s s') ->
  (forall s s', f s x = Ok s' -> In p s') ->
  In x l -> forall s s', forEach f l s = Ok s' -> In p s'.
Proof.
  intros Hg Hx. induction l as [| y l IH]; intros Hin s s' H; [destruct Hin |].
  simpl in H. destruct (f s y) as [s1 |] eqn:E; simpl in H; [| discriminate].
  destruct Hin as [-> | Hin].
  - assert (Hi : incl s1 s').
    { refine (forEach_invariant (fun t => incl s1 t) f l _ s1 s' (incl_refl _) H).
      intros z t t' _ Ht Hz. intros q Hq. eapply Hg; [exact Hz | apply Ht, Hq]. }
    apply Hi. eapply Hx, E.
  - eapply IH; eassumption.
Qed.

Lemma extractPropertyFromColumn_returns column :
  returns (Properties.extractPropertyFromColumn column).
Proof.
  unfold Properties.extractPropertyFromColumn.
  destruct (negb (truthy column) || negb (typeof column =? "object")) eqn:E.
  - eexists. reflexivity.
  - apply object_is_truthy in E. rewrite (get_truthy _ _ E). eexists. reflexivity.
Qed.

Lemma extractPropertyFromColumn_value column :
  truthy (columnPropertyId column) = true ->
  Properties.extractPropertyFromColumn column = Ok (columnPropertyId column).
Proof.
  unfold columnPropertyId. intro H. unfold Properties.extractPropertyFromColumn.
  destruct column; try (simpl in H; discriminate H).
  simpl negb. simpl orb. cbv iota. simpl get. simpl bind.
  unfold or_else. rewrite H. reflexivity.
Qed.

Lemma add_if_truthy_grows s p : incl s (Properties.add_if_truthy s p).
Proof.
  unfold Properties.add_if_truthy. intros y Hy.
  destruct (truthy p); [apply set_add_spec; left |]; exact Hy.
Qed.

Lemma add_if_truthy_distinct s p : distinct s -> distinct (Properties.add_if_truthy s p).
Proof.
  unfold Properties.add_if_truthy. intro H.
  destruct (truthy p); [apply distinct_set_add |]; exact H.
Qed.

Lemma column_type_defined v :
  strict_equals (get_opt v "type") (VStr "column") = true -> nullish v = false.
Proof. destruct v; simpl; try reflexivity; discriminate. Qed.

Lemma parameterProperty_cases s entry :
  exists propId,
    Properties.parameterProperty s entry = Ok (Properties.add_if_truthy s propId) /\
    (strict_equals (get_opt (snd entry) "type") (VStr "column") = true ->
     truthy (columnPropertyId (get_opt (snd entry) "column")) = true ->
     propId = columnPropertyId (get_opt (snd entry) "column")).
Proof.
  unfold Properties.parameterProperty.
  destruct (strict_equals (get_opt (snd entry) "type") (VStr "column")) eqn:E.
  - rewrite (get_defined _ _ (column_type_defined _ E)). simpl bind.
    destruct (truthy (columnPropertyId (get_opt (snd entry) "column"))) eqn:T.
    + rewrite (extractPropertyFromColumn_value _ T). simpl.
      eexists. split; [reflexivity | intros _ _; reflexivity].
    + destruct (extractPropertyFromColumn_returns (get_opt (snd entry) "column"))
        as [propId Hp].
      rewrite Hp. simpl. exists propId. split; [reflexivity | discriminate].
  - exists VUndefined. split; [reflexivity | discriminate].
Qed.

Lemma parameterProperty_returns s entry : returns (Properties.parameterProperty s entry).
Proof.
  destruct (parameterProperty_cases s entry) as [p [H _]]. rewrite H.
  eexists. reflexivity.
Qed.

Lemma parameterProperty_grows s entry s' :
  Properties.parameterProperty s entry = Ok s' -> incl s s'.
Proof.
  destruct (parameterProperty_cases s entry) as [p [H _]]. rewrite H.
  intro E. injection E as <-. apply add_if_truthy_grows.
Qed.

Lemma parameterProperty_distinct s entry s' :
  distinct s -> Properties.parameterProperty s entry = Ok s' -> distinct s'.
Proof.
  destruct (parameterProperty_cases s entry) as [p [H _]]. rewrite H.
  intros Hd E. injection E as <-. apply add_if_truthy_distinct, Hd.
Qed.

Lemma strategy_on_object logic :
  truthy (get_opt logic "strategy") = true ->
  negb (truthy logic) || negb (typeof logic =? "object") = false.
Proof. destruct logic; simpl; try discriminate; reflexivity. Qed.

Lemma extractPropertiesFromFilter_returns filter :
  returns (Properties.extractPropertiesFromFilter filter).
Proof. apply (extract_returns _ propertyOf), columnProperty_takes. Qed.

(** The four steps of [extractAllProperties] on a logic with a strategy. *)
Lemma extractAllProperties_steps logic used :
  Properties.extractAllProperties logic = Ok used ->
  truthy (get_opt logic "strategy") = true ->
  exists p1 p2 p3,
    (if truthy (get_opt (get_opt logic "strategy") "filterNode")
     then found <- Properties.extractPropertiesFromFilter (filterOf logic) ;;
          Ok (set_add_all [] found)
     else Ok []) = Ok p1 /\
    (if truthy (get_opt (get_opt logic "strategy") "windowNode")
     then found <- Properties.extractPropertiesFromWindowNode
                     (get_opt (get_opt logic "strategy") "windowNode") ;;
          Ok (set_add_all p1 found)
     else Ok p1) = Ok p2 /\
    (if truthy (get_opt (get_opt logic "strategy") "aggregationNode")
     then found <- Properties.extractPropertiesFromAggregationNode
                     (get_opt (get_opt logic "strategy") "aggregationNode") ;;
          Ok (set_add_all p2 found)
     else Ok p2) = Ok p3 /\
    (if truthy (get_opt (get_opt (get_opt logic "effect") "v2") "parameterValues")
     then forEach Properties.parameterProperty
            (Object_entries (get_opt (get_opt (get_opt logic "effect") "v2")
                               "parameterValues")) p3
     else Ok p3) = Ok used.
Proof.
  intros H Hs. unfold Properties.extractAllProperties in H.
  pose proof (strategy_on_object _ Hs) as Ho. rewrite Ho in H.
  apply object_is_truthy in Ho.
  rewrite !(get_truthy _ _ Ho) in H. simpl bind in H. rewrite Hs in H.
  simpl negb in H. cbv iota in H.
  rewrite !(get_truthy _ _ Hs) in H. simpl bind in H.
  assert (E1 : (if truthy (get_opt (get_opt logic "strategy") "filterNode")
                then filter <- get (get_opt (get_opt logic "strategy") "filterNode")
                                 "filter" ;;
                     found <- Properties.extractPropertiesFromFilter filter ;;
                     Ok (set_add_all [] found)
                else Ok [])
               = (if truthy (get_opt (get_opt logic "strategy") "filterNode")
                  then found <- Properties.extractPropertiesFromFilter (filterOf logic) ;;
                       Ok (set_add_all [] found)
                  else Ok [])).
  { destruct (truthy (get_opt (get_opt logic "strategy") "filterNode")) eqn:T;
      [| reflexivity].
    rewrite (get_truthy _ _ T). reflexivity. }
  rewrite E1 in H. clear E1.
  match type of H with
  | bind ?c _ = _ => destruct c as [p1 |] eqn:H1; [| discriminate]
  end.
  simpl bind in H.
  match type of H with
  | bind ?c _ = _ => destruct c as [p2 |] eqn:H2; [| discriminate]
  end.
  simpl bind in H.
  match type of H with
  | bind ?c _ = _ => destruct c as [p3 |] eqn:H3; [| discriminate]
  end.
  simpl bind in H.
  match type of H with
  | bind ?c _ = _ => destruct c as [p4 |] eqn:H4; [| discriminate]
  end.
  simpl bind in H. injection H as <-.
  exists p1, p2, p3. repeat split; assumption.
Qed.

Lemma parameters_grow logic p3 used :
  (if truthy (get_opt (get_opt (get_opt logic "effect") "v2") "parameterValues")
   then forEach Properties.parameterProperty
          (Object_entries (get_opt (get_opt (get_opt logic "effect") "v2")
                             "parameterValues")) p3
   else Ok p3) = Ok used ->
  incl p3 used.
Proof.
  destruct (truthy _); intro H.
  - refine (forEach_invariant (fun t => incl p3 t) _ _ _ p3 used (incl_refl _) H).
    intros x s s' _ Hs Hx q Hq. eapply parameterProperty_grows; [exact Hx |].
    apply Hs, Hq.
  - injection H as <-. apply incl_refl.
Qed.

Lemma node_grows (c : bool) (found : result (list jsval)) p p' :
  (if c then (f <- found ;; Ok (set_add_all p f)) else Ok p) = Ok p' -> incl p p'.
Proof.
  destruct c; intro H.
  - destruct found as [f |]; simpl in H; [| discriminate].
    injection H as <-. intros q Hq. apply set_add_all_spec. left. exact Hq.
  - injection H as <-. apply incl_refl.
Qed.

Lemma node_distinct (c : bool) (found : result (list jsval)) p p' :
  distinct p ->
  (if c then (f <- found ;; Ok (set_add_all p f)) else Ok p) = Ok p' -> distinct p'.
Proof.
  intro Hd. destruct c; intro H.
  - destruct found as [f |]; simpl in H; [| discriminate].
    injection H as <-. apply distinct_set_add_all, Hd.
  - injection H as <-. exact Hd.
Qed.

Lemma extractAllProperties_early logic :
  truthy (get_opt logic "strategy") = false ->
  Properties.extractAllProperties logic = Ok [].
Proof.
  intro Hs. unfold Properties.extractAllProperties.
  destruct (negb (truthy logic) || negb (typeof logic =? "object")) eqn:E;
    [reflexivity |].
  apply object_is_truthy in E. rewrite (get_truthy _ _ E). simpl bind.
  rewrite Hs. reflexivity.
Qed.

Lemma extractAllProperties_distinct logic used :
  Properties.extractAllProperties logic = Ok used -> distinct used.
Proof.
  intro H. destruct (truthy (get_opt logic "strategy")) eqn:Hs.
  - destruct (extractAllProperties_steps _ _ H Hs) as [p1 [p2 [p3 [H1 [H2 [H3 H4]]]]]].
    assert (D3 : distinct p3).
    { eapply node_distinct; [| exact H3]. eapply node_distinct; [| exact H2].
      eapply node_distinct; [apply distinct_nil | exact H1]. }
    destruct (truthy _) in H4.
    + refine (forEach_invariant distinct _ _ _ p3 used D3 H4).
      intros x s s' _ Hd Hx. eapply parameterProperty_distinct; eassumption.
    + injection H4 as <-. exact D3.
  - rewrite (extractAllProperties_early _ Hs) in H. injection H as <-.
    apply distinct_nil.
Qed.

Lemma extractAllProperties_filter logic used p :
  Properties.extractAllProperties logic = Ok used ->
  truthy (get_opt (get_opt logic "strategy") "filterNode") = true ->
  mentions propertyOf p (filterOf logic) ->
  In p used.
Proof.
  intros H Hf Hm.
  assert (Hs : truthy (get_opt logic "strategy") = true).
  { destruct (get_opt logic "strategy"); simpl in Hf; try discriminate Hf;
      reflexivity. }
  destruct (extractAllProperties_steps _ _ H Hs) as [p1 [p2 [p3 [H1 [H2 [H3 H4]]]]]].
  apply (parameters_grow _ _ _ H4).
  apply (node_grows _ _ _ _ H3). apply (node_grows _ _ _ _ H2).
  rewrite Hf in H1.
  destruct (extract_mentions _ propertyOf columnProperty_takes p _ Hm) as [ps [Hps Hin]].
  unfold Properties.extractPropertiesFromFilter in H1. rewrite Hps in H1.
  simpl in H1. injection H1 as <-. apply set_add_all_spec. right. exact Hin.
Qed.

Lemma entries_truthy v entry : In entry (Object_entries v) -> truthy v = true.
Proof. destruct v; simpl; try tauto. destruct s; simpl; tauto. Qed.

Lemma extractAllProperties_parameter logic used entry :
  Properties.extractAllProperties logic = Ok used ->
  truthy (get_opt logic "strategy") = true ->
  In entry (Object_entries (get_opt (get_opt (get_opt logic "effect") "v2")
                              "parameterValues")) ->
  get_opt (snd entry) "type" = VStr "column" ->
  truthy (columnPropertyId (get_opt (snd entry) "column")) = true ->
  In (columnPropertyId (get_opt (snd entry) "column")) used.
Proof.
  intros H Hs Hin Ht Hp.
  destruct (extractAllProperties_steps _ _ H Hs) as [p1 [p2 [p3 [H1 [H2 [H3 H4]]]]]].
  rewrite (entries_truthy _ _ Hin) in H4.
  refine (forEach_holds Properties.parameterProperty _ entry _ _ _ Hin p3 used H4).
  - intros s y s'. apply parameterProperty_grows.
  - intros s s' Hx.
    destruct (parameterProperty_cases s entry) as [propId [Hc Hv]].
    rewrite Hc in Hx. injection Hx as <-.
    rewrite Hv by (rewrite ?Ht; auto).
    unfold Properties.add_if_truthy. rewrite Hp. apply set_add_spec. right. reflexivity.
Qed.

Lemma extractAllProperties_returns logic :
  let strategy := get_opt logic "strategy" in
  (truthy (get_opt strategy "windowNode") = true ->
   returns (Properties.extractPropertiesFromWindowNode (get_opt strategy "windowNode"))) ->
  (truthy (get_opt strategy "aggregationNode") = true ->
   returns (Properties.extractPropertiesFromAggregationNode
              (get_opt strategy "aggregationNode"))) ->
  returns (Properties.extractAllProperties logic).
Proof.
  intros strategy Hw Ha. unfold Properties.extractAllProperties.
  destruct (negb (truthy logic) || negb (typeof logic =? "object")) eqn:E;
    [eexists; reflexivity |].
  apply object_is_truthy in E. rewrite !(get_truthy _ _ E). simpl bind.
  fold strategy. destruct (truthy strategy) eqn:Hs; [| eexists; reflexivity].
  simpl negb. cbv iota. rewrite !(get_truthy _ _ Hs). simpl bind.
  apply bind_returns.
  { destruct (truthy (get_opt strategy "filterNode")) eqn:T; [| eexists; reflexivity].
    rewrite (get_truthy _ _ T). simpl bind.
    apply bind_returns; [apply extractPropertiesFromFilter_returns |].
    intro a. eexists. reflexivity. }
  intro p1. apply bind_returns.
  { destruct (truthy (get_opt strategy "windowNode")) eqn:T; [| eexists; reflexivity].
    apply bind_returns; [apply Hw; reflexivity |]. intro a. eexists. reflexivity. }
  intro p2. apply bind_returns.
  { destruct (truthy (get_opt strategy "aggregationNode")) eqn:T;
      [| eexists; reflexivity].
    apply bind_returns; [apply Ha; reflexivity |]. intro a. eexists. reflexivity. }
  intro p3. apply bind_returns.
  { destruct (truthy (get_opt (get_opt (get_opt logic "effect") "v2")
                        "parameterValues"));
      [| eexists; reflexivity].
    apply forEach_returns. intros x s _. apply parameterProperty_returns. }
  intro p4. eexists. reflexivity.
Qed.

Lemma length_zero {A : Type} (l : list A) : (List.length l =? 0)%nat = true <-> l = [].
Proof. destruct l; simpl; split; congruence. Qed.


Lemma validateProperties_result logic cfg used :
  Properties.extractAllProperties logic = Ok used ->
  Forall printable used ->
  let declared := map property_id (properties cfg) in
  let errors :=
    map (fun p => Properties.missingPropertyError (text_of p) cfg declared)
        (filter (fun p => negb (includes_str declared p)) used) in
  Properties.validateProperties logic cfg
  = Ok {| Properties.valid := (List.length errors =? 0)%nat;
          Properties.errors := errors;
          Properties.usedProperties := used;
          Properties.validProperties := declared |}.
Proof.
  intros H Hp declared errors. unfold Properties.validateProperties.
  rewrite H. simpl bind. fold declared.
  rewrite (checkProperty_loop cfg declared used [] Hp). reflexivity.
Qed.



(** ** The filter-type pass *)

Lemma columnFilterType_takes kind found rule :
  truthy rule = true ->
  Filters.columnFilterType kind found rule
  = Ok (if truthy (operatorOf kind rule) then set_add found (operatorOf kind rule)
        else found).
Proof.
  intro H. unfold Filters.columnFilterType, operatorOf.
  rewrite (get_truthy _ _ H). simpl.
  destruct (truthy (get_opt (get_opt (get_opt rule "filter") kind) "type"));
    reflexivity.
Qed.

(** The loop of [validateFilterTypes] over the string filter types. *)
Lemma checkStringFilter_loop cfg types : forall errors warnings,
  Forall printable types ->
  forEach (Filters.checkStringFilter cfg) types (errors, warnings)
  = Ok ((errors ++
         map (fun t => Filters.unsupportedStringError (text_of t) cfg)
             (filter (fun t => includes_str (unsupportedStringFilters cfg) t) types))%list,
        (warnings ++
         map (fun t => Filters.untestedStringWarning (text_of t))
             (filter (fun t => negb (includes_str (unsupportedStringFilters cfg) t)
                               && negb (includes_str (supportedStringFilters cfg) t))
                     types))%list).
Proof.
  induction types as [| t types IH]; intros errors warnings Hp; simpl.
  - rewrite !List.app_nil_r. reflexivity.
  - inversion Hp as [| ? ? [text Ht] Hp']. subst.
    unfold Filters.checkStringFilter at 1.
    destruct (includes_str (unsupportedStringFilters cfg) t); simpl.
    + rewrite Ht. simpl. rewrite IH by exact Hp'.
      unfold push, text_of. rewrite Ht. rewrite <- List.app_assoc. reflexivity.
    + destruct (includes_str (supportedStringFilters cfg) t); simpl.
      * apply IH, Hp'.
      * rewrite Ht. simpl. rewrite IH by exact Hp'.
        unfold push, text_of. rewrite Ht. rewrite <- List.app_assoc. reflexivity.
Qed.

(** The loops over the numeric and the null filter types. *)
Lemma checkTestedFilter_loop supported warning types : forall warnings,
  Forall printable types ->
  forEach (Filters.checkTestedFilter supported warning) types warnings
  = Ok (warnings ++
        map (fun t => warning (text_of t))
            (filter (fun t => negb (includes_str supported t)) types))%list.
Proof.
  induction types as [| t types IH]; intros warnings Hp; simpl.
  - rewrite List.app_nil_r. reflexivity.
  - inversion Hp as [| ? ? [text Ht] Hp']. subst.
    unfold Filters.checkTestedFilter at 1.
    destruct (includes_str supported t); simpl.
    + apply IH, Hp'.
    + rewrite Ht. simpl. rewrite IH by exact Hp'.
      unfold push, text_of. rewrite Ht. rewrite <- List.app_assoc. reflexivity.
Qed.




Lemma validateFilterTypes_result logic cfg stringTypes numericTypes nullTypes :
  Filters.extractStringFilterTypes (filterOf logic) = Ok stringTypes ->
  Filters.extractNumericFilterTypes (filterOf logic) = Ok numericTypes ->
  Filters.extractNullFilterTypes (filterOf logic) = Ok nullTypes ->
  Forall printable stringTypes ->
  Forall printable numericTypes ->
  Forall printable nullTypes ->
  exists warnings,
    Filters.validateFilterTypes logic cfg
    = Ok {| Filters.valid :=
              (List.length
                 (map (fun t => Filters.unsupportedStringError (text_of t) cfg)
                    (filter (fun t => includes_str (unsupportedStringFilters cfg) t)
                       stringTypes)) =? 0)%nat;
            Filters.errors :=
              map (fun t => Filters.unsupportedStringError (text_of t) cfg)
                  (filter (fun t => includes_str (unsupportedStringFilters cfg) t)
                     stringTypes);
            Filters.warnings :=
              (map (fun t => Filters.untestedStringWarning (text_of t))
                   (filter (fun t => negb (includes_str (unsupportedStringFilters cfg) t)
                                     && negb (includes_str (supportedStringFilters cfg) t))
                      stringTypes) ++ warnings)%list;
            Filters.usedFilters :=
              {| Filters.used_string := stringTypes;
                 Filters.used_numeric := numericTypes;
                 Filters.used_null := nullTypes |} |}.
Proof.
  intros Hs Hn Hz Ps Pn Pz.
  exists ((if (0 <? List.length (supportedNumericFilters cfg))%nat
           then map (fun t => Filters.untestedNumericWarning (text_of t))
                    (filter (fun t => negb (includes_str (supportedNumericFilters cfg) t))
                       numericTypes)
           else []) ++
          (if (0 <? List.length (supportedNullFilters cfg))%nat
           then map (fun t => Filters.untestedNullWarning (text_of t))
                    (filter (fun t => negb (includes_str (supportedNullFilters cfg) t))
                       nullTypes)
           else []))%list.
  unfold Filters.validateFilterTypes.
  fold (filterOf logic). rewrite Hs, Hn, Hz. simpl bind.
  rewrite (checkStringFilter_loop cfg stringTypes [] [] Ps). simpl bind.
  cbv iota beta. rewrite ?List.app_nil_l.
  destruct (0 <? List.length (supportedNumericFilters cfg))%nat;
    destruct (0 <? List.length (supportedNullFilters cfg))%nat;
    rewrite ?checkTestedFilter_loop by assumption; simpl bind;
    rewrite ?checkTestedFilter_loop by assumption; simpl bind;
    rewrite ?List.app_nil_r, <- ?List.app_assoc, ?List.app_nil_r; reflexivity.
Qed.



(** ** The full validator *)

(** C6.  When the structure pass fails, the full validator (that of the
    command line and that of the library) returns at once: the result is
    invalid, carries the structure errors and no property error, filter
    error or filter warning, and the later passes are not run: nothing
    is written to the console after the first line. *)
Theorem full_validation_stops_at_structure :
  forall (logic : jsval) (config : ResolvedConfig)
         (structureResult : Schema.ValidationResult),
    Schema.validateRuleLogic logic (validation config) = Ok structureResult ->
    Schema.valid structureResult = false ->
    Cli.performFullValidation logic config
    = Ok (stopped (Schema.errors structureResult), ["Validating structure..."]) /\
    (forall proposal,
        Library.proposalLogic proposal config = inl logic ->
        Library.validateProposal proposal config
        = Ok (stopped (Schema.errors structureResult))) /\
    Schema.errors structureResult <> [].
Proof.
  intros logic config sr Hr Hv. split; [| split].
  - unfold Cli.performFullValidation. rewrite Hr. simpl bind. rewrite Hv. reflexivity.
  - intros proposal Hp. unfold Library.validateProposal.
    rewrite Hp, Hr. simpl bind. rewrite Hv. reflexivity.
  - intro He. unfold Schema.validateRuleLogic in Hr.
    destruct (negb (truthy logic) || negb (typeof logic =? "object")).
    + injection Hr as <-. discriminate He.
    + repeat match type of Hr with
             | bind ?c _ = _ => destruct c; simpl bind in Hr; [| discriminate Hr]
             end.
      injection Hr as <-. simpl in Hv, He. rewrite He in Hv. discriminate Hv.
Qed.

Lemma full_validation_stops_at_structure_witness :
  exists structureErrors,
    Cli.performFullValidation wrong_version_logic sample_config
    = Ok (stopped structureErrors, ["Validating structure..."]) /\
    Library.validateProposal
      {| Library.template := None; Library.params := VUndefined;
         Library.logic := wrong_version_logic |} sample_config
    = Ok (stopped structureErrors) /\
    structureErrors <> [] /\
    exists e, Properties.validateProperties wrong_version_logic
                (objectType sample_workflow) = Throw e.
Proof.
  destruct (Schema.validateRuleLogic wrong_version_logic sample_validation)
    as [sr |] eqn:Hr; [| discriminate Hr].
  assert (Hv : Schema.valid sr = false)
    by (vm_compute in Hr; injection Hr as <-; reflexivity).
  destruct (full_validation_stops_at_structure wrong_version_logic sample_config
              sr Hr Hv) as [H1 [H2 H3]].
  exists (Schema.errors sr). split; [exact H1 |]. split; [| split].
  - apply H2. reflexivity.
  - exact H3.
  - eexists. reflexivity.
Defined.

(** ** Parameters of the effect *)




(** ** The text [JSON.stringify] writes *)

Lemma uint_text_first d :
  exists c r, NilZero.string_of_uint d = String c r /\ (nat_of_ascii c <? 128)%nat = true.
Proof.
  destruct d; simpl; try (eexists; eexists; split; reflexivity).
Qed.

Lemma number_text_first n :
  exists c r, string_of_Z n = String c r /\ (nat_of_ascii c <? 128)%nat = true.
Proof.
  unfold string_of_Z. destruct (Z.to_int n) as [d | d]; simpl.
  - apply uint_text_first.
  - eexists. eexists. split; reflexivity.
Qed.

Lemma serialize_first v :
  exists c r, serialize v = String c r /\ (nat_of_ascii c <? 128)%nat = true.
Proof.
  destruct v as [ | | [] | n | s | l | fs | ]; simpl;
    try (eexists; eexists; split; reflexivity).
  apply number_text_first.
Qed.

Lemma serialize_nonempty v : serialize v <> EmptyString.
Proof. destruct (serialize_first v) as [c [r [H _]]]. rewrite H. discriminate. Qed.


Lemma json_value_serializable v : json_value v -> unserializable v = false.
Proof. destruct v; simpl; tauto. Qed.

(** ** The compression module *)

Section CompressionFacts.

Context {R : Runtime} {L : RuntimeLaws R}.

Let wrapper_of (compressed : string) : jsval :=
  VObj [("compressedValue", VStr compressed); ("type", VStr "compressedValue")].

Lemma wrapper_is_json compressed : json_value (wrapper_of compressed).
Proof.
  simpl. repeat split; try exact I.
  constructor.
  - intros [H | []]. discriminate H.
  - constructor; [intros [] | constructor].
Qed.

Lemma parse_wrapper compressed :
  JSON_parse (Compression.wrapCompressedValue compressed) = Ok (wrapper_of compressed).
Proof. apply parse_serialize, wrapper_is_json. Qed.

Lemma decompress_wrapped compressed :
  Compression.decompress (Compression.wrapCompressedValue compressed)
  = (json <- decompressFromEncodedURIComponent (VStr compressed) ;;
     if negb (truthy json)
     then Throw (Error "Failed to decompress - invalid compressed value")
     else (text <- ToString json ;; JSON_parse text)).
Proof. unfold Compression.decompress. rewrite parse_wrapper. reflexivity. Qed.





End CompressionFacts.

(** ** The reference run-time meets the laws *)

(** *** Characters *)

Lemma value_start_tests c :
  Reference.value_start c = true ->
  Reference.is_ws c = false /\
  (nat_of_ascii c =? 93)%nat = false /\
  (nat_of_ascii c =? 125)%nat = false.
Proof.
  destruct c as [[] [] [] [] [] [] [] []]; simpl; intro H;
    try discriminate H; repeat split; reflexivity.
Qed.

Lemma digit_tests c :
  Reference.is_digit c = true \/ c = "-"%char ->
  Reference.is_ws c = false /\
  (nat_of_ascii c =? 110)%nat = false /\
  (nat_of_ascii c =? 116)%nat = false /\
  (nat_of_ascii c =? 102)%nat = false /\
  (nat_of_ascii c =? 34)%nat = false /\
  (nat_of_ascii c =? 91)%nat = false /\
  (nat_of_ascii c =? 123)%nat = false.
Proof.
  intros [H | ->]; [| repeat split; reflexivity].
  destruct c as [[] [] [] [] [] [] [] []]; simpl in H;
    try discriminate H; repeat split; reflexivity.
Qed.

Lemma digit_not_minus c :
  Reference.is_digit c = true -> (nat_of_ascii c =? 45)%nat = false.
Proof.
  destruct c as [[] [] [] [] [] [] [] []]; simpl; intro H;
    try discriminate H; reflexivity.
Qed.

(** *** Literals *)

Lemma strip_prefix_app p : forall r, Reference.strip_prefix p (p ++ r) = Some r.
Proof.
  induction p as [| c p IH]; intro r; simpl; [reflexivity |].
  rewrite Ascii.eqb_refl. apply IH.
Qed.

(** *** Numbers *)

Lemma uint_beq_refl d : Decimal.uint_beq d d = true.
Proof. induction d; simpl; auto. Qed.

Lemma uint_text_digits d : forall rest,
  Reference.ends_number rest = true ->
  Reference.span_digits (NilEmpty.string_of_uint d ++ rest)
  = (NilEmpty.string_of_uint d, rest).
Proof.
  induction d; intros rest Hr; simpl;
    try (rewrite IHd by exact Hr; reflexivity).
  destruct rest as [| c r]; [reflexivity |].
  simpl in Hr. simpl. apply negb_true_iff in Hr.
  apply orb_false_iff in Hr. destruct Hr as [Hr _].
  apply orb_false_iff in Hr. destruct Hr as [Hr _].
  apply orb_false_iff in Hr. destruct Hr as [Hr _].
  rewrite Hr. reflexivity.
Qed.

Lemma uint_text_start d :
  d <> Decimal.Nil ->
  exists c r, NilEmpty.string_of_uint d = String c r /\ Reference.is_digit c = true.
Proof.
  destruct d; intro H; try congruence; simpl;
    eexists; eexists; split; reflexivity.
Qed.

(** The decimal numeral of an integer is in normal form. *)
Lemma to_int_normal n :
  exists d, d <> Decimal.Nil /\ Decimal.unorm d = d /\
            (Z.to_int n = Decimal.Pos d \/ Z.to_int n = Decimal.Neg d).
Proof.
  pose proof (DecimalZ.to_of (Z.to_int n)) as H.
  rewrite DecimalZ.of_to in H.
  destruct (Z.to_int n) as [d | d] eqn:E.
  - exists d. simpl in H. injection H as H.
    split; [rewrite H; apply unorm_nonnil |]. split; [congruence | left; reflexivity].
  - exists d. unfold Decimal.norm in H. unfold Decimal.unorm.
    destruct (Decimal.nzhead d) eqn:Hn; try discriminate H;
      injection H as H;
      (split; [congruence |]);
      (split; [congruence | right; reflexivity]).
Qed.

Lemma number_text n :
  exists d,
    d <> Decimal.Nil /\ Decimal.unorm d = d /\
    (string_of_Z n = NilEmpty.string_of_uint d /\ Z.of_int (Decimal.Pos d) = n
     \/ string_of_Z n = String "-" (NilEmpty.string_of_uint d)
        /\ Z.of_int (Decimal.Neg d) = n).
Proof.
  destruct (to_int_normal n) as [d [Hd [Hu [E | E]]]];
    exists d; (split; [exact Hd |]); (split; [exact Hu |]);
    [left | right]; unfold string_of_Z; rewrite E; (split; [| rewrite <- E; apply DecimalZ.of_to]).
  - simpl. destruct d; try congruence; reflexivity.
  - simpl. destruct d; try congruence; reflexivity.
Qed.

Lemma parse_uint_text d rest :
  d <> Decimal.Nil -> Decimal.unorm d = d ->
  Reference.ends_number rest = true ->
  forall negative : bool,
    (let (ds, rest') := Reference.span_digits (NilEmpty.string_of_uint d ++ rest) in
     match NilZero.uint_of_string ds with
     | Some d' =>
         if Decimal.uint_beq (Decimal.unorm d') d'
            && negb (Reference.number_continues rest')
         then Some (Z.of_int (if negative then Decimal.Neg d' else Decimal.Pos d'), rest')
         else None
     | None => None
     end)
    = Some (Z.of_int (if negative then Decimal.Neg d else Decimal.Pos d), rest).
Proof.
  intros Hd Hu Hr negative. rewrite uint_text_digits by exact Hr.
  replace (NilEmpty.string_of_uint d) with (NilZero.string_of_uint d)
    by (destruct d; try congruence; reflexivity).
  rewrite NilZero.usu by exact Hd. rewrite Hu, uint_beq_refl.
  assert (Hc : Reference.number_continues rest = false).
  { destruct rest as [| c r]; [reflexivity |]. simpl in *.
    apply negb_true_iff in Hr.
    apply orb_false_iff in Hr. destruct Hr as [Hr H3].
    apply orb_false_iff in Hr. destruct Hr as [Hr H2].
    apply orb_false_iff in Hr. destruct Hr as [_ H1].
    rewrite H1, H2, H3. reflexivity. }
  rewrite Hc. reflexivity.
Qed.

Lemma parse_number_text n rest :
  Reference.ends_number rest = true ->
  Reference.parse_number (string_of_Z n ++ rest) = Some (n, rest).
Proof.
  intro Hr. destruct (number_text n) as [d [Hd [Hu [[E Hn] | [E Hn]]]]]; rewrite E.
  - destruct (uint_text_start d Hd) as [c [r [Ec Hc]]].
    unfold Reference.parse_number.
    assert (Es : NilEmpty.string_of_uint d ++ rest = String c (r ++ rest))
      by (rewrite Ec; reflexivity).
    rewrite Es. rewrite (digit_not_minus c Hc). rewrite <- Es.
    rewrite (parse_uint_text d rest Hd Hu Hr false). rewrite Hn. reflexivity.
  - exact (eq_trans (parse_uint_text d rest Hd Hu Hr true)
                     (f_equal (fun z => Some (z, rest)) Hn)).
Qed.

Lemma number_text_start n :
  exists c r, string_of_Z n = String c r
              /\ (Reference.is_digit c = true \/ c = "-"%char).
Proof.
  destruct (number_text n) as [d [Hd [_ [[E _] | [E _]]]]]; rewrite E.
  - destruct (uint_text_start d Hd) as [c [r [Ec Hc]]].
    exists c, r. split; [exact Ec | left; exact Hc].
  - eexists. eexists. split; [reflexivity | right; reflexivity].
Qed.

(** *** Strings *)

Lemma parse_escaped_char c tl :
  Reference.parse_chars (escape_char c ++ tl)
  = match Reference.parse_chars tl with
    | Some (t, rest) => Some (String c t, rest)
    | None => None
    end.
Proof.
  destruct c as [[] [] [] [] [] [] [] []]; reflexivity.
Qed.

Lemma parse_escaped s : forall rest,
  Reference.parse_chars (escape s ++ dquote ++ rest) = Some (s, rest).
Proof.
  induction s as [| c s IH]; intro rest.
  - reflexivity.
  - simpl escape. rewrite append_assoc, parse_escaped_char, IH. reflexivity.
Qed.

Lemma parse_quoted s rest :
  Reference.parse_chars (escape s ++ dquote ++ rest) = Some (s, rest) /\
  quote s ++ rest = String (ascii_of_nat 34) (escape s ++ dquote ++ rest).
Proof.
  split; [apply parse_escaped |].
  unfold quote, dquote. simpl. rewrite append_assoc. reflexivity.
Qed.

(** *** The codec *)

Lemma hex_decode_char c tl :
  Reference.hex_decode
    (String (hex_digit (nat_of_ascii c / 16))
       (String (hex_digit (nat_of_ascii c mod 16)) tl))
  = match Reference.hex_decode tl with
    | Some t => Some (String c t)
    | None => None
    end.
Proof.
  destruct c as [[] [] [] [] [] [] [] []]; reflexivity.
Qed.

Lemma hex_roundtrip s : Reference.hex_decode (Reference.hex_encode s) = Some s.
Proof.
  induction s as [| c s IH]; [reflexivity |].
  change (Reference.hex_encode (String c s))
    with (String (hex_digit (nat_of_ascii c / 16))
            (String (hex_digit (nat_of_ascii c mod 16)) (Reference.hex_encode s))).
  rewrite hex_decode_char, IH. reflexivity.
Qed.

(** *** Values *)

Lemma json_value_cons e l :
  json_value (VArr (e :: l)) <-> json_value e /\ json_value (VArr l).
Proof. reflexivity. Qed.

Lemma json_value_member k x fs :
  json_value (VObj ((k, x) :: fs))
  <-> ~ In k (map fst fs) /\ json_value x /\ json_value (VObj fs).
Proof.
  simpl. split.
  - intros [Hn [Hx Hf]]. inversion Hn. subst. tauto.
  - intros [Hk [Hx [Hn Hf]]]. split; [constructor; assumption | tauto].
Qed.

Lemma size_cons e l : size (VArr (e :: l)) = S (size e) + size (VArr l).
Proof. simpl. lia. Qed.

Lemma size_member k x fs : size (VObj ((k, x) :: fs)) = S (size x) + size (VObj fs).
Proof. simpl. lia. Qed.

Lemma size_positive v : 1 <= size v.
Proof. destruct v; simpl; lia. Qed.

Lemma serialize_start v :
  json_value v ->
  exists c r, serialize v = String c r /\ Reference.value_start c = true.
Proof.
  destruct v as [ | | [] | n | s | l | fs | ]; simpl; intro H; try contradiction;
    try (eexists; eexists; split; reflexivity).
  destruct (number_text_start n) as [c [r [E [Hc | ->]]]].
  - exists c, r. split; [exact E |].
    unfold Reference.value_start. rewrite Hc. reflexivity.
  - exists "-"%char, r. split; [exact E | reflexivity].
Qed.

Lemma members_cons k x fs :
  unserializable x = false ->
  member_texts serialize ((k, x) :: fs)
  = (quote k ++ ":" ++ serialize x) :: member_texts serialize fs.
Proof. intro H. simpl. rewrite H. reflexivity. Qed.

Lemma join_cons sep x y l : join sep (x :: y :: l) = x ++ sep ++ join sep (y :: l).
Proof. reflexivity. Qed.

Lemma assoc_absent k fs : ~ In k (map fst fs) -> assoc k fs = None.
Proof.
  induction fs as [| [k' x] fs IH]; simpl; [reflexivity |].
  intro H. destruct (k' =? k) eqn:E.
  - apply String.eqb_eq in E. tauto.
  - apply IH. tauto.
Qed.

(** One step of the reader on the first character of a text. *)
Lemma parse_value_number f c r :
  Reference.is_digit c = true \/ c = "-"%char ->
  Reference.parse_value (S f) (String c r)
  = match Reference.parse_number (String c r) with
    | Some (z, rest) => Some (VNum z, rest)
    | None => None
    end.
Proof.
  intro H. destruct (digit_tests c H) as [W [T1 [T2 [T3 [T4 [T5 T6]]]]]].
  simpl. rewrite W, T1, T2, T3, T4, T5, T6. reflexivity.
Qed.

Lemma parse_value_string f r :
  Reference.parse_value (S f) (String (ascii_of_nat 34) r)
  = match Reference.parse_chars r with
    | Some (t, rest) => Some (VStr t, rest)
    | None => None
    end.
Proof. reflexivity. Qed.

Lemma parse_value_array f c r :
  Reference.value_start c = true ->
  Reference.parse_value (S f) (String "[" (String c r))
  = match Reference.parse_elements f (String c r) with
    | Some (l, rest) => Some (VArr l, rest)
    | None => None
    end.
Proof.
  intro H. destruct (value_start_tests c H) as [W [T1 T2]].
  simpl. rewrite W, T1. reflexivity.
Qed.

Lemma parse_value_object f c r :
  Reference.value_start c = true ->
  Reference.parse_value (S f) (String "{" (String c r))
  = match Reference.parse_members f (String c r) with
    | Some (fs, rest) => Some (VObj fs, rest)
    | None => None
    end.
Proof.
  intro H. destruct (value_start_tests c H) as [W [T1 T2]].
  simpl. rewrite W, T2. reflexivity.
Qed.

Lemma parse_elements_step f s :
  Reference.parse_elements (S f) s
  = match Reference.parse_value f s with
    | Some (v, r) =>
        match Reference.skip_ws r with
        | EmptyString => None
        | String c r' =>
            if (nat_of_ascii c =? 44)%nat then
              match Reference.parse_elements f r' with
              | Some (vs, rest) => Some (v :: vs, rest)
              | None => None
              end
            else if (nat_of_ascii c =? 93)%nat then Some ([v], r')
            else None
        end
    | None => None
    end.
Proof. reflexivity. Qed.

Lemma parse_members_quoted f k tail :
  Reference.parse_members (S f) (quote k ++ ":" ++ tail)
  = match Reference.parse_value f tail with
    | Some (v, r3) =>
        match Reference.skip_ws r3 with
        | EmptyString => None
        | String c r4 =>
            if (nat_of_ascii c =? 44)%nat then
              match Reference.parse_members f r4 with
              | Some (fs, rest) => Some (Reference.define_property k v fs, rest)
              | None => None
              end
            else if (nat_of_ascii c =? 125)%nat then Some ([(k, v)], r4)
            else None
        end
    | None => None
    end.
Proof.
  destruct (parse_quoted k (":" ++ tail)) as [Hp Hq].
  rewrite Hq.
  change (Reference.parse_members (S f)
            (String (ascii_of_nat 34) (escape k ++ dquote ++ ":" ++ tail)))
    with (match Reference.parse_chars (escape k ++ dquote ++ ":" ++ tail) with
          | Some (k, r1) =>
              match Reference.skip_ws r1 with
              | EmptyString => None
              | String colon r2 =>
                  if (nat_of_ascii colon =? 58)%nat then
                    match Reference.parse_value f r2 with
                    | Some (v, r3) =>
                        match Reference.skip_ws r3 with
                        | EmptyString => None
                        | String c r4 =>
                            if (nat_of_ascii c =? 44)%nat then
                              match Reference.parse_members f r4 with
                              | Some (fs, rest) =>
                                  Some (Reference.define_property k v fs, rest)
                              | None => None
                              end
                            else if (nat_of_ascii c =? 125)%nat then Some ([(k, v)], r4)
                            else None
                        end
                    | None => None
                    end
                  else None
              end
          | None => None
          end).
  rewrite Hp. reflexivity.
Qed.

Lemma ends_number_bracket rest : Reference.ends_number ("]" ++ rest) = true.
Proof. reflexivity. Qed.

Lemma ends_number_brace rest : Reference.ends_number ("}" ++ rest) = true.
Proof. reflexivity. Qed.

Lemma ends_number_comma rest : Reference.ends_number ("," ++ rest) = true.
Proof. reflexivity. Qed.

Lemma define_fresh k x fs :
  ~ In k (map fst fs) -> Reference.define_property k x fs = (k, x) :: fs.
Proof. intro H. unfold Reference.define_property. rewrite (assoc_absent _ _ H). reflexivity. Qed.

(** The reader gives back a serialized value and the text after it, when
    the fuel covers the size of the value. *)
Lemma parse_serialized fuel :
  (forall v rest,
      json_value v -> size v <= fuel -> Reference.ends_number rest = true ->
      Reference.parse_value fuel (serialize v ++ rest) = Some (v, rest)) /\
  (forall e l rest,
      json_value (VArr (e :: l)) -> size (VArr (e :: l)) <= S fuel ->
      Reference.parse_elements fuel (join "," (map serialize (e :: l)) ++ "]" ++ rest)
      = Some (e :: l, rest)) /\
  (forall k x fs rest,
      json_value (VObj ((k, x) :: fs)) -> size (VObj ((k, x) :: fs)) <= S fuel ->
      Reference.parse_members fuel
        (join "," (member_texts serialize ((k, x) :: fs)) ++ "}" ++ rest)
      = Some ((k, x) :: fs, rest)).
Proof.
  induction fuel as [| f [IHv [IHe IHm]]].
  - split; [| split].
    + intros v rest _ Hs _. pose proof (size_positive v). lia.
    + intros e l rest _ Hs. rewrite size_cons in Hs.
      pose proof (size_positive (VArr l)). lia.
    + intros k x fs rest _ Hs. rewrite size_member in Hs.
      pose proof (size_positive (VObj fs)). lia.
  - split; [| split].
    + intros v rest Hv Hs Hr.
      destruct v as [ | | [] | n | s | l | fs | ]; try contradiction Hv;
        try reflexivity.
      * destruct (number_text_start n) as [c [r [E Hc]]].
        pose proof (parse_number_text n rest Hr) as Hp.
        simpl serialize. rewrite E in *.
        change (String c r ++ rest) with (String c (r ++ rest)) in *.
        rewrite (parse_value_number f c _ Hc), Hp. reflexivity.
      * destruct (parse_quoted s rest) as [Hp Hq].
        simpl serialize. rewrite Hq, parse_value_string, Hp. reflexivity.
      * destruct l as [| e l]; [reflexivity |].
        destruct (proj1 (json_value_cons e l) Hv) as [He _].
        destruct (serialize_start e He) as [c [r [E Hc]]].
        change (serialize (VArr (e :: l)))
          with ("[" ++ join "," (map serialize (e :: l)) ++ "]").
        rewrite !append_assoc.
        change ("[" ++ ?t) with (String "[" t).
        pose proof (IHe e l rest Hv Hs) as Hp.
        assert (Hj : exists r', join "," (map serialize (e :: l)) ++ "]" ++ rest
                                = String c r').
        { destruct l; simpl; rewrite E; eexists; reflexivity. }
        destruct Hj as [r' Hj]. rewrite Hj in *.
        rewrite (parse_value_array f c r' Hc), Hp. reflexivity.
      * destruct fs as [| [k x] fs]; [reflexivity |].
        destruct (proj1 (json_value_member k x fs) Hv) as [_ [Hx _]].
        change (serialize (VObj ((k, x) :: fs)))
          with ("{" ++ join "," (member_texts serialize ((k, x) :: fs)) ++ "}").
        rewrite !append_assoc.
        change ("{" ++ ?t) with (String "{" t).
        pose proof (IHm k x fs rest Hv Hs) as Hp.
        assert (Hj : exists r', join "," (member_texts serialize ((k, x) :: fs))
                                ++ "}" ++ rest
                                = String (ascii_of_nat 34) r').
        { rewrite (members_cons k x fs (json_value_serializable _ Hx)).
          destruct (member_texts serialize fs); simpl; eexists; reflexivity. }
        destruct Hj as [r' Hj]. rewrite Hj in *.
        rewrite (parse_value_object f (ascii_of_nat 34) r' eq_refl), Hp. reflexivity.
    + intros e l rest Hv Hs.
      destruct (proj1 (json_value_cons e l) Hv) as [He Hl].
      rewrite size_cons in Hs. rewrite parse_elements_step.
      destruct l as [| e' l].
      * change (join "," (map serialize [e])) with (serialize e).
        rewrite (IHv e ("]" ++ rest) He) by (simpl in Hs; first [lia | reflexivity]).
        reflexivity.
      * change (map serialize (e :: e' :: l))
          with (serialize e :: serialize e' :: map serialize l).
        rewrite join_cons, !append_assoc.
        pose proof (size_positive e).
        pose proof (size_positive (VArr (e' :: l))).
        rewrite (IHv e _ He) by first [lia | reflexivity].
        change (Reference.skip_ws ("," ++ ?t)) with (String ","%char t).
        cbv iota beta.
        change ((nat_of_ascii "," =? 44)%nat) with true. cbv iota.
        change (serialize e' :: map serialize l) with (map serialize (e' :: l)).
        rewrite (IHe e' l rest Hl) by lia.
        reflexivity.
    + intros k x fs rest Hv Hs.
      destruct (proj1 (json_value_member k x fs) Hv) as [Hk [Hx Hf]].
      rewrite size_member in Hs.
      rewrite (members_cons k x fs (json_value_serializable _ Hx)).
      destruct fs as [| [k' x'] fs].
      * change (member_texts serialize []) with (@nil string).
        change (join "," [quote k ++ ":" ++ serialize x])
          with (quote k ++ ":" ++ serialize x).
        rewrite !append_assoc. rewrite parse_members_quoted.
        rewrite (IHv x ("}" ++ rest) Hx) by (simpl in Hs; first [lia | reflexivity]).
        reflexivity.
      * destruct (proj1 (json_value_member k' x' fs) Hf) as [_ [Hx' _]].
        pose proof (members_cons k' x' fs (json_value_serializable _ Hx')) as Hm.
        rewrite Hm, join_cons, <- Hm, !append_assoc.
        rewrite parse_members_quoted.
        pose proof (size_positive x).
        pose proof (size_positive (VObj ((k', x') :: fs))).
        rewrite (IHv x _ Hx) by first [lia | reflexivity].
        change (Reference.skip_ws ("," ++ ?t)) with (String ","%char t).
        cbv iota beta.
        change ((nat_of_ascii "," =? 44)%nat) with true. cbv iota.
        rewrite (IHm k' x' fs rest Hf) by lia.
        rewrite (define_fresh _ _ _ Hk). reflexivity.
Qed.

Lemma length_append a b : String.length (a ++ b) = String.length a + String.length b.
Proof. induction a as [| c a IH]; simpl; [| rewrite IH]; reflexivity. Qed.

(** The serialization of a value has at least as many characters as the
    value has nodes, so the length of a text is fuel enough to read it. *)
Lemma size_bound n :
  forall v, size v <= n -> json_value v -> size v <= String.length (serialize v).
Proof.
  induction n as [| n IH]; intros v Hs Hv.
  { pose proof (size_positive v). lia. }
  assert (Hatom : size v = 1 -> size v <= String.length (serialize v)).
  { intros ->. pose proof (serialize_nonempty v) as Hne.
    destruct (serialize v); [congruence | simpl; lia]. }
  destruct v as [ | | b | z | s | l | fs | ]; try (apply Hatom; reflexivity).
  - assert (Hl : size (VArr l) <= String.length (join "," (map serialize l)) + 2).
    { clear Hatom. induction l as [| e l IHl]; [simpl; lia |].
      destruct (proj1 (json_value_cons e l) Hv) as [He Hl].
      rewrite size_cons in *. pose proof (size_positive (VArr l)).
      assert (size e <= String.length (serialize e)) by (apply IH; [lia | exact He]).
      specialize (IHl ltac:(lia) Hl).
      destruct l as [| e' l].
      - change (join "," (map serialize [e])) with (serialize e).
        change (size (VArr [])) with 1. lia.
      - change (map serialize (e :: e' :: l))
          with (serialize e :: serialize e' :: map serialize l).
        rewrite join_cons, !length_append.
        change (serialize e' :: map serialize l) with (map serialize (e' :: l)).
        change (String.length ",") with 1. lia. }
    change (serialize (VArr l)) with ("[" ++ join "," (map serialize l) ++ "]").
    rewrite !length_append. change (String.length "[") with 1.
    change (String.length "]") with 1. lia.
  - assert (Hl : size (VObj fs)
                 <= String.length (join "," (member_texts serialize fs)) + 2).
    { clear Hatom. induction fs as [| [k x] fs IHl]; [simpl; lia |].
      destruct (proj1 (json_value_member k x fs) Hv) as [_ [Hx Hf]].
      rewrite size_member in *. pose proof (size_positive (VObj fs)).
      assert (size x <= String.length (serialize x)) by (apply IH; [lia | exact Hx]).
      specialize (IHl ltac:(lia) Hf).
      rewrite (members_cons k x fs (json_value_serializable _ Hx)).
      destruct fs as [| [k' x'] fs].
      - change (member_texts serialize []) with (@nil string).
        change (join "," [quote k ++ ":" ++ serialize x])
          with (quote k ++ ":" ++ serialize x).
        rewrite !length_append. change (size (VObj [])) with 1. lia.
      - destruct (proj1 (json_value_member k' x' fs) Hf) as [_ [Hx' _]].
        pose proof (members_cons k' x' fs (json_value_serializable _ Hx')) as Hm.
        rewrite Hm, join_cons, <- Hm, !length_append.
        change (String.length ",") with 1. lia. }
    change (serialize (VObj fs))
      with ("{" ++ join "," (member_texts serialize fs) ++ "}").
    rewrite !length_append. change (String.length "{") with 1.
    change (String.length "}") with 1. lia.
Qed.

Lemma reference_parse_serialize v :
  json_value v -> Reference.parse (serialize v) = Ok v.
Proof.
  intro Hv. unfold Reference.parse.
  pose proof (proj1 (parse_serialized (S (String.length (serialize v))))
                v EmptyString Hv) as Hp.
  rewrite append_empty_r in Hp.
  rewrite Hp; [reflexivity | | reflexivity].
  pose proof (size_bound (size v) v (le_n _) Hv). lia.
Qed.

Lemma reference_parse_throws s e :
  Reference.parse s = Throw e -> exists m, e = SyntaxError m.
Proof.
  unfold Reference.parse, Reference.syntax_error.
  destruct (Reference.parse_value _ s) as [[v rest] |];
    [destruct (Reference.skip_ws rest) |];
    intro H; try discriminate H; injection H as <-; eexists; reflexivity.
Qed.

Lemma reference_decode_range v r :
  Reference.decode v = Ok r -> r = VNull \/ exists s, r = VStr s.
Proof.
  destruct v as [ | | b | z | s | l | fs | ]; simpl; intro H; try discriminate H;
    try (injection H as <-; right; eexists; reflexivity).
  destruct s as [| mark s]; [injection H as <-; left; reflexivity |].
  destruct (Ascii.eqb mark "x");
    [destruct (Reference.hex_decode s) |];
    injection H as <-; first [left; reflexivity | right; eexists; reflexivity].
Qed.

(** The reference run-time meets the laws the compression module relies
    on. *)
Lemma reference_laws : RuntimeLaws Reference.runtime.
Proof.
  constructor.
  - exact reference_parse_serialize.
  - exact reference_parse_throws.
  - intro s. simpl. rewrite hex_roundtrip. reflexivity.
  - intros v Hv. destruct v; try discriminate Hv; reflexivity.
  - exact reference_decode_range.
Qed.

(** ** The compression module on the reference run-time *)







(* ================================================================== *)
(** * Part III.  Further properties of the code                         *)
(* ================================================================== *)

(** ** compression.ts: wrappers and payloads *)

Section WrapperFacts.

Context {R : Runtime} {L : RuntimeLaws R}.

Lemma payload_defined wrapper c :
  get_opt wrapper "compressedValue" = VStr c -> nullish wrapper = false.
Proof. destruct wrapper; simpl; try reflexivity; discriminate. Qed.

(** X1.  [getCompressedValue] undoes [wrapCompressedValue], and [compress] is
    the wrapper of the payload that [getCompressedValue] reads in it. *)
Theorem compressed_value_roundtrip :
  forall (compressedValue : string) (logic : jsval),
    Compression.getCompressedValue (Compression.wrapCompressedValue compressedValue)
    = Ok (VStr compressedValue) /\
    Compression.getCompressedValue (Compression.compress logic)
    = Ok (VStr (compressToEncodedURIComponent (JSON_stringify logic))) /\
    Compression.wrapCompressedValue
      (compressToEncodedURIComponent (JSON_stringify logic))
    = Compression.compress logic.
Proof.
  intros c logic.
  assert (H : forall s, Compression.getCompressedValue (Compression.wrapCompressedValue s)
                        = Ok (VStr s)).
  { intro s. unfold Compression.getCompressedValue. rewrite parse_wrapper. reflexivity. }
  split; [apply H |]. split; [| reflexivity].
  change (Compression.compress logic)
    with (Compression.wrapCompressedValue
            (compressToEncodedURIComponent (JSON_stringify logic))).
  apply H.
Qed.

(** X2.  [decompress] looks at the [compressedValue] of the wrapper and at
    nothing else: a wrapper with another [type], or with more fields,
    decompresses as the plain wrapper of its payload does. *)
Theorem decompress_reads_payload_only :
  forall (compressedWrapper : string) (wrapper : jsval) (payload : string),
    JSON_parse compressedWrapper = Ok wrapper ->
    get_opt wrapper "compressedValue" = VStr payload ->
    Compression.getCompressedValue compressedWrapper = Ok (VStr payload) /\
    Compression.decompress compressedWrapper
    = Compression.decompress (Compression.wrapCompressedValue payload).
Proof.
  intros w wrapper c Hw Hc. pose proof (payload_defined _ _ Hc) as Hn.
  split.
  - unfold Compression.getCompressedValue. rewrite Hw. simpl bind.
    rewrite (get_defined _ _ Hn), Hc. reflexivity.
  - rewrite decompress_wrapped. unfold Compression.decompress.
    rewrite Hw. simpl bind. rewrite (get_defined _ _ Hn), Hc. reflexivity.
Qed.

(** X3.  [compress] never fails, but what it returns for [undefined] or a
    function cannot be decompressed: [JSON.stringify] gives [undefined],
    which the codec encodes as the empty string, and the empty payload
    decodes to [null]. *)
Theorem compress_unserializable :
  forall v : jsval,
    unserializable v = true ->
    compressToEncodedURIComponent VUndefined = EmptyString ->
    decompressFromEncodedURIComponent (VStr EmptyString) = Ok VNull ->
    Compression.compress v = Compression.wrapCompressedValue EmptyString /\
    Compression.decompress (Compression.compress v)
    = Throw (Error "Failed to decompress - invalid compressed value").
Proof.
  intros v Hv He Hd.
  assert (E : Compression.compress v = Compression.wrapCompressedValue EmptyString).
  { unfold Compression.compress, JSON_stringify. rewrite Hv, He. reflexivity. }
  split; [exact E |]. rewrite E, decompress_wrapped, Hd. reflexivity.
Qed.

End WrapperFacts.

Lemma compressed_value_roundtrip_witness :
  RuntimeLaws Reference.runtime /\
  @Compression.getCompressedValue Reference.runtime
    (@Compression.compress Reference.runtime sample_value)
  = Ok (VStr (Reference.encode (VStr (serialize sample_value)))).
Proof.
  split; [exact reference_laws |].
  exact (proj1 (proj2 (@compressed_value_roundtrip Reference.runtime reference_laws
                         EmptyString sample_value))).
Defined.

Lemma decompress_reads_payload_only_witness :
  RuntimeLaws Reference.runtime /\
  @Compression.decompress Reference.runtime other_wrapper
  = @Compression.decompress Reference.runtime
      (Compression.wrapCompressedValue "x6e756c6c").
Proof.
  split; [exact reference_laws |].
  exact (proj2 (@decompress_reads_payload_only Reference.runtime reference_laws
                  other_wrapper
                  (VObj [("type", VStr "other"); ("compressedValue", VStr "x6e756c6c");
                         ("size", VNum 4)])
                  "x6e756c6c" eq_refl eq_refl)).
Defined.

Lemma compress_unserializable_witness :
  RuntimeLaws Reference.runtime /\
  @Compression.decompress Reference.runtime
    (@Compression.compress Reference.runtime VUndefined)
  = Throw (Error "Failed to decompress - invalid compressed value").
Proof.
  split; [exact reference_laws |].
  exact (proj2 (@compress_unserializable Reference.runtime reference_laws
                  VUndefined eq_refl eq_refl eq_refl)).
Defined.

(** ** templates/loader.ts: what a successful build holds *)

Lemma build_failure_logic errors :
  Templates.logic (Templates.failure errors) = None.
Proof. reflexivity. Qed.

(** A build that gives a logic had parameters that pass the tests of its
    template, and the logic is the wrapped filter of the template. *)
Lemma build_success templateName params workflow logic :
  Templates.logic (Templates.buildFromTemplate templateName params workflow)
  = Some logic ->
  nullish params = false /\
  truthy (get_opt params "propertyId") = true /\
  exists filter,
    template_filter (objectType_id (objectType workflow)) params templateName filter /\
    logic = Templates.wrapFilterAsRuleLogic filter workflow /\
    Templates.buildFromTemplate templateName params workflow
    = {| Templates.success := true;
         Templates.logic := Some logic;
         Templates.errors := None |}.
Proof.
  intro H.
  destruct (nullish params) eqn:Hn.
  { destruct (nullish_params_errors templateName params workflow Hn) as [_ [Hl _]].
    rewrite Hl in H. discriminate. }
  split; [reflexivity |].
  destruct (String.eqb_spec templateName "string-equals") as [-> | N1].
  { revert H. eval_template Hn.
    destruct (truthy (get_opt params "propertyId")) eqn:Tp;
      destruct (truthy (get_opt params "value")) eqn:Tv; simpl;
      intro H; try discriminate H.
    injection H as <-. split; [reflexivity |].
    eexists. split; [apply filter_string_equals, Tv |]. split; reflexivity. }
  destruct (String.eqb_spec templateName "string-or") as [-> | N2].
  { revert H. eval_template Hn.
    destruct (truthy (get_opt params "propertyId")) eqn:Tp;
      destruct (get_opt params "values") as [ | | [] | n | s | [ | e tl] | fs | ] eqn:Ev;
      simpl;
      try (destruct (negb (n =? 0)%Z)); try (destruct (negb (s =? EmptyString)));
      simpl; intro H; try discriminate H.
    injection H as <-. split; [reflexivity |].
    eexists. split; [eapply filter_string_or; [exact Ev | discriminate] |].
    split; reflexivity. }
  destruct (String.eqb_spec templateName "numeric-range") as [-> | N3].
  { revert H. eval_template Hn.
    destruct (truthy (get_opt params "propertyId")) eqn:Tp; simpl;
      unfold push_if;
      destruct (strict_equals (get_opt params "min") VUndefined
                && strict_equals (get_opt params "max") VUndefined) eqn:E; simpl;
      intro H; try discriminate H.
    destruct (Templates.buildNumericRangeFilter _ _ _ _) as [filter |] eqn:Eb;
      simpl in H; [| discriminate H].
    injection H as <-. split; [reflexivity |].
    exists filter. split; [apply filter_numeric_range, Eb |]. split; reflexivity. }
  destruct (String.eqb_spec templateName "null-check") as [-> | N4].
  { revert H. eval_template Hn.
    destruct (truthy (get_opt params "propertyId")) eqn:Tp; simpl;
      intro H; try discriminate H.
    injection H as <-. split; [reflexivity |].
    eexists. split; [apply filter_null_check |]. split; reflexivity. }
  rewrite unknown_template_errors in H by assumption. discriminate H.
Qed.

Lemma missing_messages name v text :
  In text (missing name v) -> text = "Missing required parameter: " ++ name.
Proof.
  unfold missing. destruct (truthy v); [intros [] | intros [<- | []]; reflexivity].
Qed.

(** The errors of a build on parameters that are neither [null] nor
    [undefined], for a template [buildFromTemplate] knows. *)
Lemma known_template_errors templateName params workflow text :
  nullish params = false ->
  In templateName (map Templates.template_name Templates.getBuiltInTemplates) ->
  In text (errors_of (Templates.buildFromTemplate templateName params workflow)) ->
  text = "Missing required parameter: propertyId" \/
  text = "Missing required parameter: value" \/
  text = "Missing or empty required parameter: values" \/
  text = "At least one of min or max is required".
Proof.
  intros Hn Hk.
  simpl in Hk. destruct Hk as [<- | [<- | [<- | [<- | []]]]].
  - destruct (string_equals_errors params workflow Hn) as [-> _].
    intro H. apply in_app_iff in H. destruct H as [H | H];
      apply missing_messages in H; auto.
  - destruct (string_or_errors params workflow Hn) as [-> _].
    intro H. apply in_app_iff in H. destruct H as [H | H].
    + apply missing_messages in H. auto.
    + destruct (no_values _); [destruct H as [<- | []]; auto | destruct H].
  - destruct (numeric_range_errors params workflow Hn) as [-> _].
    intro H. apply in_app_iff in H. destruct H as [H | H].
    + apply missing_messages in H. auto.
    + destruct (_ && _); [destruct H as [<- | []]; auto | destruct H].
  - destruct (null_check_errors params workflow Hn) as [-> _].
    intro H. apply missing_messages in H. auto.
Qed.

Lemma nullish_params_message templateName params workflow text :
  nullish params = true ->
  In text (errors_of (Templates.buildFromTemplate templateName params workflow)) ->
  text = "Unknown template: " ++ templateName \/
  text = "Cannot read properties of undefined (reading 'propertyId')" \/
  text = "Cannot read properties of null (reading 'propertyId')".
Proof.
  intro Hn.
  unfold Templates.buildFromTemplate, Templates.templateFilter.
  destruct params; try discriminate Hn;
    destruct (templateName =? "string-equals");
    try (simpl; intros [<- | []]; auto);
    destruct (templateName =? "string-or");
    try (simpl; intros [<- | []]; auto);
    destruct (templateName =? "numeric-range");
    try (simpl; intros [<- | []]; auto);
    destruct (templateName =? "null-check");
    simpl; intros [<- | []]; auto.
Qed.

Lemma built_in_cases templateName :
  In templateName (map Templates.template_name Templates.getBuiltInTemplates) \/
  (templateName <> "string-equals" /\ templateName <> "string-or" /\
   templateName <> "numeric-range" /\ templateName <> "null-check").
Proof.
  destruct (String.eqb_spec templateName "string-equals") as [-> | N1];
    [left; simpl; auto |].
  destruct (String.eqb_spec templateName "string-or") as [-> | N2];
    [left; simpl; auto |].
  destruct (String.eqb_spec templateName "numeric-range") as [-> | N3];
    [left; simpl; auto |].
  destruct (String.eqb_spec templateName "null-check") as [-> | N4];
    [left; simpl; auto 6 |].
  right. auto.
Qed.

(** X4.  [buildNumericRangeFilter] throws exactly when both bounds are
    [undefined] ([null] counts as a bound), and never through
    [buildFromTemplate], which tests the bounds first: the message of
    the exception is no error of any build. *)
Theorem numeric_range_exception :
  forall (objectTypeId : string) (propertyId min max : jsval),
    (Templates.buildNumericRangeFilter objectTypeId propertyId min max
     = Throw (Error "Numeric range filter requires at least min or max")
     <-> min = VUndefined /\ max = VUndefined) /\
    (returns (Templates.buildNumericRangeFilter objectTypeId propertyId min max)
     <-> ~ (min = VUndefined /\ max = VUndefined)) /\
    (forall templateName params workflow,
        ~ In "Numeric range filter requires at least min or max"
             (errors_of (Templates.buildFromTemplate templateName params workflow))).
Proof.
  intros objectTypeId propertyId min max.
  assert (Hcases :
            (min = VUndefined /\ max = VUndefined /\
             Templates.buildNumericRangeFilter objectTypeId propertyId min max
             = Throw (Error "Numeric range filter requires at least min or max"))
            \/ (~ (min = VUndefined /\ max = VUndefined) /\
                returns (Templates.buildNumericRangeFilter objectTypeId propertyId min max))).
  { unfold Templates.buildNumericRangeFilter.
    destruct (strict_equals min VUndefined) eqn:E1;
      destruct (strict_equals max VUndefined) eqn:E2; simpl.
    - left. apply strict_equals_undefined in E1, E2. auto.
    - right. split; [| eexists; reflexivity].
      intros [_ H]. apply strict_equals_undefined in H. congruence.
    - right. split; [| eexists; reflexivity].
      intros [H _]. apply strict_equals_undefined in H. congruence.
    - right. split; [| eexists; reflexivity].
      intros [H _]. apply strict_equals_undefined in H. congruence. }
  split; [| split].
  - destruct Hcases as [[H1 [H2 H3]] | [H1 [a H2]]].
    + split; auto.
    + rewrite H2. split; [discriminate | intro H; contradiction].
  - destruct Hcases as [[H1 [H2 H3]] | [H1 H2]].
    + rewrite H3. split; [intros [a Ha]; discriminate Ha | intro H; tauto].
    + tauto.
  - intros templateName params workflow Hin.
    destruct (nullish params) eqn:Hn.
    + apply (nullish_params_message _ _ _ _ Hn) in Hin.
      destruct Hin as [H | [H | H]]; discriminate H.
    + destruct (built_in_cases templateName) as [Hk | [N1 [N2 [N3 N4]]]].
      * apply (known_template_errors _ _ _ _ Hn Hk) in Hin.
        destruct Hin as [H | [H | [H | H]]]; discriminate H.
      * rewrite unknown_template_errors in Hin by assumption.
        destruct Hin as [H | []]. discriminate H.
Qed.

(** X5.  The templates [getBuiltInTemplates] lists are those
    [buildFromTemplate] knows: every other name, and no listed one, is
    answered with [Unknown template], whatever the parameters. *)
Theorem built_in_templates_are_known :
  forall (templateName : string) (params : jsval) (workflow : WorkflowDefinition),
    In templateName (map Templates.template_name Templates.getBuiltInTemplates)
    <-> Templates.buildFromTemplate templateName params workflow
        <> Templates.failure ["Unknown template: " ++ templateName].
Proof.
  intros templateName params workflow. split.
  - intros Hk Heq.
    assert (Hin : In ("Unknown template: " ++ templateName)
                     (errors_of (Templates.buildFromTemplate templateName params workflow)))
      by (rewrite Heq; left; reflexivity).
    destruct (nullish params) eqn:Hn.
    + clear Hin. revert Heq. simpl in Hk.
      destruct Hk as [<- | [<- | [<- | [<- | []]]]];
        destruct params; try discriminate Hn; discriminate.
    + apply (known_template_errors _ _ _ _ Hn Hk) in Hin.
      destruct Hin as [H | [H | [H | H]]]; discriminate H.
  - intro Hne. destruct (built_in_cases templateName) as [Hk | [N1 [N2 [N3 N4]]]];
      [exact Hk |].
    exfalso. apply Hne. apply unknown_template_errors; assumption.
Qed.

(** ** What [wrapFilterAsRuleLogic] makes *)

(** The result of the structure pass on a wrapped filter. *)
Lemma wrapped_structure filter workflow cfg :
  let errors := wrapped_structure_errors workflow cfg in
  Schema.validateRuleLogic (Templates.wrapFilterAsRuleLogic filter workflow) cfg
  = Ok {| Schema.valid := (List.length errors =? 0)%nat;
          Schema.errors := errors;
          Schema.warnings := None |} /\
  ((List.length errors =? 0)%nat = true
   <-> grammarVersion cfg = "V1"
       /\ workflowRid workflow <> EmptyString
       /\ In "filterNode" (supportedStrategyTypes cfg)).
Proof.
  intros errors. split.
  - unfold Schema.validateRuleLogic.
    set (l := Templates.wrapFilterAsRuleLogic filter workflow).
    change (negb (truthy l) || negb (typeof l =? "object")) with false. cbv iota.
    change (get l "grammarVersion") with (Ok (VStr "V1")).
    change (get l "workflowRid") with (Ok (VStr (workflowRid workflow))).
    change (get l "strategy") with (Ok (get_opt l "strategy")).
    change (get l "effect") with (Ok (get_opt l "effect")).
    cbn [bind].
    change (strict_equals (VStr "V1") (VStr (grammarVersion cfg)))
      with ("V1" =? grammarVersion cfg).
    change (ToString (VStr "V1")) with (Ok "V1").
    change (truthy (VStr (workflowRid workflow)))
      with (negb (workflowRid workflow =? EmptyString)).
    change (typeof (VStr (workflowRid workflow)) =? "string") with true.
    change (negb (truthy (get_opt l "strategy"))
            || negb (typeof (get_opt l "strategy") =? "object")) with false.
    change (negb (truthy (get_opt l "effect"))
            || negb (typeof (get_opt l "effect") =? "object")) with false.
    cbv iota.
    unfold Schema.checkStrategy, Schema.checkEffect.
    change (get (get_opt l "strategy") "type") with (Ok (VStr "filterNode")).
    change (get (get_opt l "effect") "type") with (Ok (VStr "v2")).
    change (get (get_opt l "effect") "v2")
      with (Ok (get_opt (get_opt l "effect") "v2")).
    cbn [bind].
    change (truthy (VStr "filterNode")) with true.
    change (strict_equals (VStr "filterNode") (VStr "filterNode")) with true.
    change (strict_equals (VStr "v2") (VStr "v2")) with true.
    change (ToString (VStr "filterNode")) with (Ok "filterNode").
    cbv iota. cbn [bind negb].
    unfold errors, wrapped_structure_errors.
    destruct ("V1" =? grammarVersion cfg);
      destruct (workflowRid workflow =? EmptyString);
      destruct (includes_str (supportedStrategyTypes cfg) (VStr "filterNode"));
      reflexivity.
  - rewrite length_zero. unfold errors, wrapped_structure_errors.
    rewrite <- includes_str_In.
    destruct (String.eqb_spec "V1" (grammarVersion cfg)) as [E1 | E1];
      destruct (String.eqb_spec (workflowRid workflow) EmptyString) as [E2 | E2];
      destruct (includes_str (supportedStrategyTypes cfg) (VStr "filterNode"));
      simpl; split; try discriminate; try (intros [H1 [H2 H3]]; congruence);
      intros _; repeat split; congruence.
Qed.

(** X6.  The structure pass accepts a wrapped filter exactly when the
    configuration has the grammar version [V1], a workflow RID that is
    not empty and [filterNode] among its strategy types; the filter
    plays no part in it. *)
Theorem wrapped_logic_structure :
  forall (filter : jsval) (workflow : WorkflowDefinition)
         (validationConfig : ValidationConfig),
    let errors := wrapped_structure_errors workflow validationConfig in
    Schema.validateRuleLogic (Templates.wrapFilterAsRuleLogic filter workflow)
      validationConfig
    = Ok {| Schema.valid := (List.length errors =? 0)%nat;
            Schema.errors := errors;
            Schema.warnings := None |} /\
    ((List.length errors =? 0)%nat = true
     <-> grammarVersion validationConfig = "V1"
         /\ workflowRid workflow <> EmptyString
         /\ In "filterNode" (supportedStrategyTypes validationConfig)).
Proof. intros filter workflow cfg. apply wrapped_structure. Qed.

(** X7.  The identifiers of the configuration can be read back from a wrapped
    filter, unless they are empty: an empty one reads [null] and fails
    the check against itself. *)
Theorem wrapped_logic_identifiers :
  forall (filter : jsval) (workflow : WorkflowDefinition),
    let logic := Templates.wrapFilterAsRuleLogic filter workflow in
    let rid := workflowRid workflow in
    let id := objectType_id (objectType workflow) in
    Schema.extractWorkflowRid logic = string_or_null rid /\
    Schema.extractObjectTypeId logic = string_or_null id /\
    Schema.getStrategyType logic = VStr "filterNode" /\
    Schema.validateWorkflowRid logic rid
    = Ok {| Schema.valid := negb (rid =? EmptyString);
            Schema.errors := if rid =? EmptyString
                             then ["workflowRid not found in rule logic"] else [];
            Schema.warnings := None |} /\
    Schema.validateObjectType logic id
    = Ok {| Schema.valid := negb (id =? EmptyString);
            Schema.errors := if id =? EmptyString
                             then ["objectTypeId not found in rule logic"] else [];
            Schema.warnings := None |}.
Proof.
  intros filter workflow logic rid id.
  assert (H1 : Schema.extractWorkflowRid logic = string_or_null rid).
  { unfold Schema.extractWorkflowRid, string_or_null, or_else. simpl.
    fold rid. destruct (rid =? EmptyString); reflexivity. }
  assert (H2 : Schema.extractObjectTypeId logic = string_or_null id).
  { unfold Schema.extractObjectTypeId, string_or_null. simpl.
    fold id. destruct (id =? EmptyString); reflexivity. }
  split; [exact H1 |]. split; [exact H2 |]. split; [reflexivity |].
  split.
  - unfold Schema.validateWorkflowRid. rewrite H1. unfold string_or_null.
    destruct (rid =? EmptyString) eqn:E; simpl; [reflexivity |].
    rewrite E, String.eqb_refl. reflexivity.
  - unfold Schema.validateObjectType. rewrite H2. unfold string_or_null.
    destruct (id =? EmptyString) eqn:E; simpl; [reflexivity |].
    rewrite E, String.eqb_refl. reflexivity.
Qed.

(** ** schema.ts: checks against an expected identifier *)

Lemma extractWorkflowRid_cases logic :
  Schema.extractWorkflowRid logic = VNull
  \/ truthy (Schema.extractWorkflowRid logic) = true.
Proof.
  unfold Schema.extractWorkflowRid, or_else.
  destruct (negb (truthy logic) || negb (typeof logic =? "object")); [left; reflexivity |].
  destruct (truthy (get_opt logic "workflowRid")) eqn:T; [right; exact T | left; reflexivity].
Qed.

Lemma extractObjectTypeId_cases logic :
  Schema.extractObjectTypeId logic = VNull
  \/ truthy (Schema.extractObjectTypeId logic) = true.
Proof.
  unfold Schema.extractObjectTypeId.
  destruct (negb (truthy logic) || negb (typeof logic =? "object")); [left; reflexivity |].
  destruct (negb (truthy (get_opt logic "strategy"))); [left; reflexivity |].
  repeat match goal with
         | |- context [if truthy ?v then _ else _] =>
             destruct (truthy v) eqn:?; [right; assumption |]
         end.
  left. reflexivity.
Qed.

Lemma strict_equals_string v s : strict_equals v (VStr s) = true <-> v = VStr s.
Proof.
  split; [apply strict_equals_eq |]. intros ->. simpl. apply String.eqb_refl.
Qed.

(** The shape of both checks: [actual] is what the extractor found. *)
Lemma expected_check actual (missing_text : string) (mismatch : string -> string)
  (r : Schema.ValidationResult) :
  actual = VNull \/ truthy actual = true ->
  forall expected,
    (errors <- (if negb (truthy actual)
                then Ok (push [] missing_text)
                else if negb (strict_equals actual (VStr expected)) then
                       text <- ToString actual ;; Ok (push [] (mismatch text))
                     else Ok []) ;;
     Ok {| Schema.valid := (List.length errors =? 0)%nat;
           Schema.errors := errors;
           Schema.warnings := None |}) = Ok r ->
    (Schema.valid r = true <-> actual = VStr expected) /\
    (Schema.valid r = true <-> Schema.errors r = []) /\
    (actual = VNull -> Schema.errors r = [missing_text]) /\
    (truthy actual = true -> actual <> VStr expected ->
     exists text, ToString actual = Ok text /\ Schema.errors r = [mismatch text]) /\
    Schema.warnings r = None.
Proof.
  intros Hc expected.
  destruct Hc as [-> | Ht].
  - simpl. intro H. injection H as <-. simpl.
    repeat split; try discriminate; auto.
  - rewrite Ht. simpl negb. cbv iota.
    destruct (strict_equals actual (VStr expected)) eqn:E; simpl negb; cbv iota.
    + cbn [bind]. intro H. injection H as <-. simpl.
      apply strict_equals_string in E.
      repeat split; auto; try discriminate.
      * intros ->. discriminate Ht.
      * intros _ N. contradiction.
    + destruct (ToString actual) as [text |]; cbn [bind]; [| discriminate].
      intro H. injection H as <-. simpl.
      assert (N : actual <> VStr expected).
      { intro A. apply strict_equals_string in A. congruence. }
      repeat split; auto; try discriminate; try contradiction.
      * intros ->. discriminate Ht.
      * intros _ _. exists text. split; reflexivity.
Qed.

(** X8.  [validateWorkflowRid] and [validateObjectType] accept a logic exactly
    when the extractor finds the expected identifier in it; they report
    one error otherwise: [not found] when the extractor finds nothing,
    which is also what an empty string in the logic gives, and a
    mismatch that quotes what it found. *)
Theorem expected_identifier_checks :
  forall (logic : jsval) (expectedRid expectedId : string)
         (rid id : Schema.ValidationResult),
    Schema.validateWorkflowRid logic expectedRid = Ok rid ->
    Schema.validateObjectType logic expectedId = Ok id ->
    (Schema.valid rid = true <-> Schema.extractWorkflowRid logic = VStr expectedRid) /\
    (Schema.valid id = true <-> Schema.extractObjectTypeId logic = VStr expectedId) /\
    (Schema.valid rid = true <-> Schema.errors rid = []) /\
    (Schema.valid id = true <-> Schema.errors id = []) /\
    (Schema.extractWorkflowRid logic = VNull ->
     Schema.errors rid = ["workflowRid not found in rule logic"]) /\
    (Schema.extractObjectTypeId logic = VNull ->
     Schema.errors id = ["objectTypeId not found in rule logic"]) /\
    (truthy (Schema.extractWorkflowRid logic) = true ->
     Schema.extractWorkflowRid logic <> VStr expectedRid ->
     exists text,
       ToString (Schema.extractWorkflowRid logic) = Ok text /\
       Schema.errors rid
       = ["workflowRid mismatch: expected '" ++ expectedRid ++ "', got '" ++ text ++ "'"]) /\
    (truthy (Schema.extractObjectTypeId logic) = true ->
     Schema.extractObjectTypeId logic <> VStr expectedId ->
     exists text,
       ToString (Schema.extractObjectTypeId logic) = Ok text /\
       Schema.errors id
       = ["objectTypeId mismatch: expected '" ++ expectedId ++ "', got '" ++ text ++ "'"]).
Proof.
  intros logic expectedRid expectedId rid id Hr Hi.
  destruct (expected_check (Schema.extractWorkflowRid logic)
              "workflowRid not found in rule logic"
              (fun text => "workflowRid mismatch: expected '" ++ expectedRid
                           ++ "', got '" ++ text ++ "'")
              rid (extractWorkflowRid_cases logic) expectedRid Hr)
    as [R1 [R2 [R3 [R4 _]]]].
  destruct (expected_check (Schema.extractObjectTypeId logic)
              "objectTypeId not found in rule logic"
              (fun text => "objectTypeId mismatch: expected '" ++ expectedId
                           ++ "', got '" ++ text ++ "'")
              id (extractObjectTypeId_cases logic) expectedId Hi)
    as [I1 [I2 [I3 [I4 _]]]].
  repeat split; try tauto; first [apply R1 | apply I1 | apply R2 | apply I2 | idtac];
    auto.
Qed.

Lemma expected_identifier_checks_witness :
  exists rid id,
    Schema.validateWorkflowRid unknown_property_logic "ri.taurus.main.workflow.other"
    = Ok rid /\
    Schema.validateObjectType unknown_property_logic "test.object-type" = Ok id /\
    Schema.valid rid = false /\
    Schema.errors id = ["objectTypeId not found in rule logic"].
Proof.
  eexists. eexists. split; [reflexivity |]. split; [reflexivity |].
  destruct (expected_identifier_checks unknown_property_logic
              "ri.taurus.main.workflow.other" "test.object-type" _ _ eq_refl eq_refl)
    as [H1 [_ [_ [_ [_ [H6 _]]]]]].
  split; [| apply H6; reflexivity].
  destruct (Schema.valid _) eqn:E; [| reflexivity].
  destruct H1 as [H1 _]. specialize (H1 eq_refl). discriminate H1.
Defined.

(** ** Templates and the extractors *)

Lemma includes_app s t x : includes (s ++ t)%list x = includes s x || includes t x.
Proof. unfold includes. apply existsb_app. Qed.

Lemma distinct_app_head s x l :
  distinct (s ++ x :: l)%list -> includes s x = false.
Proof.
  unfold distinct. induction s as [| y s IH]; simpl; intro H; [reflexivity |].
  inversion H as [| ? ? Hy Hs]. subst.
  unfold includes. simpl.
  rewrite Forall_app in Hy. destruct Hy as [_ Hy]. inversion Hy as [| ? ? Hyx _].
  subst. rewrite Hyx. apply IH, Hs.
Qed.

Lemma set_add_all_distinct l : forall s,
  distinct (s ++ l)%list -> set_add_all s l = (s ++ l)%list.
Proof.
  unfold set_add_all. induction l as [| x l IH]; intros s H; simpl.
  - rewrite List.app_nil_r. reflexivity.
  - unfold set_add at 2. rewrite (distinct_app_head _ _ _ H).
    unfold push. rewrite IH; rewrite <- List.app_assoc; [reflexivity | exact H].
Qed.

Lemma set_add_all_nil l : distinct l -> set_add_all [] l = l.
Proof. intro H. apply (set_add_all_distinct l []). exact H. Qed.

Lemma wrapped_properties filter workflow :
  Properties.extractAllProperties (Templates.wrapFilterAsRuleLogic filter workflow)
  = Properties.extractPropertiesFromFilter filter.
Proof.
  unfold Properties.extractAllProperties.
  set (l := Templates.wrapFilterAsRuleLogic filter workflow).
  change (negb (truthy l) || negb (typeof l =? "object")) with false. cbv iota.
  change (get l "strategy") with (Ok (get_opt l "strategy")). cbn [bind].
  change (negb (truthy (get_opt l "strategy"))) with false. cbv iota.
  change (get (get_opt l "strategy") "filterNode")
    with (Ok (get_opt (get_opt l "strategy") "filterNode")).
  change (get (get_opt l "strategy") "windowNode") with (Ok VUndefined).
  change (get (get_opt l "strategy") "aggregationNode") with (Ok VUndefined).
  change (get l "effect") with (Ok (get_opt l "effect")).
  cbn [bind].
  change (truthy (get_opt (get_opt l "strategy") "filterNode")) with true.
  change (truthy VUndefined) with false. cbv iota.
  change (get (get_opt (get_opt l "strategy") "filterNode") "filter") with (Ok filter).
  cbn [bind].
  destruct (Properties.extractPropertiesFromFilter filter) as [found |] eqn:E;
    cbn [bind]; [| reflexivity].
  change (get_opt (get_opt (get_opt l "effect") "v2") "parameterValues") with (VObj []).
  simpl. f_equal. apply set_add_all_nil.
  eapply (extract_distinct _ propertyOf columnProperty_takes), E.
Qed.

Lemma wrapped_filter filter workflow :
  filterOf (Templates.wrapFilterAsRuleLogic filter workflow) = filter.
Proof. reflexivity. Qed.

(** The extractors on the nodes the builders make. *)

Section BuiltNodes.

Variable leaf : list jsval -> jsval -> result (list jsval).
Variable take : jsval -> jsval.

Hypothesis leaf_takes :
  forall found rule,
    truthy rule = true ->
    leaf found rule = Ok (if truthy (take rule) then set_add found (take rule) else found).

Lemma extract_column_node fields t :
  extract leaf (VObj [("columnFilterRule", VObj fields); ("type", t)])
  = Ok (if truthy (take (VObj fields)) then [take (VObj fields)] else []).
Proof.
  rewrite extract_unfold. unfold visit.
  set (f := VObj [("columnFilterRule", VObj fields); ("type", t)]).
  change (negb (truthy f) || negb (typeof f =? "object")) with false. cbv iota.
  change (get f "columnFilterRule") with (Ok (VObj fields)).
  change (get f "orFilterRule") with (Ok VUndefined).
  change (get f "andFilterRule") with (Ok VUndefined).
  change (get f "notFilterRule") with (Ok VUndefined).
  cbn [bind]. change (truthy (VObj fields)) with true.
  change (truthy VUndefined) with false. cbv iota.
  rewrite leaf_takes by reflexivity. cbn [bind].
  destruct (truthy (take (VObj fields))); reflexivity.
Qed.

Lemma extract_or_node subFilters t :
  extract leaf (VObj [("orFilterRule", VObj [("filters", VArr subFilters)]); ("type", t)])
  = visit_all (extract leaf) subFilters [].
Proof.
  rewrite extract_unfold. unfold visit.
  set (f := VObj [("orFilterRule", VObj [("filters", VArr subFilters)]); ("type", t)]).
  change (negb (truthy f) || negb (typeof f =? "object")) with false. cbv iota.
  change (get f "columnFilterRule") with (Ok VUndefined).
  change (get f "orFilterRule") with (Ok (VObj [("filters", VArr subFilters)])).
  change (get f "andFilterRule") with (Ok VUndefined).
  change (get f "notFilterRule") with (Ok VUndefined).
  cbn [bind]. change (truthy VUndefined) with false.
  change (truthy (VObj [("filters", VArr subFilters)])) with true. cbv iota.
  unfold visit_filters.
  change (get (VObj [("filters", VArr subFilters)]) "filters") with (Ok (VArr subFilters)).
  cbn [bind].
  destruct (visit_all (extract leaf) subFilters []); reflexivity.
Qed.

Lemma extract_and_node subFilters t :
  extract leaf (VObj [("andFilterRule", VObj [("filters", VArr subFilters)]); ("type", t)])
  = visit_all (extract leaf) subFilters [].
Proof.
  rewrite extract_unfold. unfold visit.
  set (f := VObj [("andFilterRule", VObj [("filters", VArr subFilters)]); ("type", t)]).
  change (negb (truthy f) || negb (typeof f =? "object")) with false. cbv iota.
  change (get f "columnFilterRule") with (Ok VUndefined).
  change (get f "orFilterRule") with (Ok VUndefined).
  change (get f "andFilterRule") with (Ok (VObj [("filters", VArr subFilters)])).
  change (get f "notFilterRule") with (Ok VUndefined).
  cbn [bind]. change (truthy VUndefined) with false.
  change (truthy (VObj [("filters", VArr subFilters)])) with true. cbv iota.
  unfold visit_filters.
  change (get (VObj [("filters", VArr subFilters)]) "filters") with (Ok (VArr subFilters)).
  cbn [bind].
  destruct (visit_all (extract leaf) subFilters []); reflexivity.
Qed.

End BuiltNodes.

(** Sub-filters that all hold the same one thing, or nothing. *)
Lemma visit_all_same r l sub :
  (forall x, In x l -> r x = Ok sub) ->
  sub = [] \/ (exists a, sub = [a] /\ strict_equals a a = true) ->
  l <> [] ->
  visit_all r l [] = Ok sub.
Proof.
  intros Hr Hs Hl.
  assert (H : forall l found,
             (forall x, In x l -> r x = Ok sub) ->
             visit_all r l found = Ok (fold_left (fun f _ => set_add_all f sub) l found)).
  { clear. induction l as [| x l IH]; intros found Hr; [reflexivity |].
    unfold visit_all. simpl. rewrite (Hr x) by (left; reflexivity). cbn [bind].
    apply IH. intros y Hy. apply Hr. right. exact Hy. }
  rewrite (H l [] Hr). f_equal.
  destruct Hs as [-> | [a [-> Ha]]].
  - clear. induction l as [| x l IH]; [reflexivity | exact IH].
  - destruct l as [| x l]; [contradiction |]. clear - Ha.
    change (fold_left (fun f (_ : jsval) => set_add_all f [a]) l [a] = [a]).
    induction l as [| y l IH]; [reflexivity |].
    cbn [fold_left].
    assert (E : set_add_all [a] [a] = [a]).
    { unfold set_add_all, set_add, includes. simpl. rewrite Ha. reflexivity. }
    rewrite E. exact IH.
Qed.

Lemma truthy_string s : s <> EmptyString -> truthy (VStr s) = true.
Proof. intro H. simpl. apply String.eqb_neq in H. rewrite H. reflexivity. Qed.

(** A template names one property, and every node it builds filters on
    it. *)
Lemma template_properties objectTypeId params templateName filter propertyId :
  template_filter objectTypeId params templateName filter ->
  get_opt params "propertyId" = VStr propertyId ->
  propertyId <> EmptyString ->
  Properties.extractPropertiesFromFilter filter = Ok [VStr propertyId].
Proof.
  intros Hf Hp Hne. pose proof (truthy_string _ Hne) as Ht.
  assert (Hs : strict_equals (VStr propertyId) (VStr propertyId) = true)
    by (simpl; apply String.eqb_refl).
  unfold Properties.extractPropertiesFromFilter.
  assert (Heq : forall value caseSensitive,
             extract Properties.columnProperty
               (Templates.buildStringEqualsFilter objectTypeId (VStr propertyId)
                  value caseSensitive)
             = Ok [VStr propertyId]).
  { intros value caseSensitive. unfold Templates.buildStringEqualsFilter.
    rewrite (extract_column_node _ propertyOf columnProperty_takes).
    match goal with
    | |- context [propertyOf ?rule] => change (propertyOf rule) with (VStr propertyId)
    end.
    rewrite Ht. reflexivity. }
  assert (Hnum : forall comparison value,
             extract Properties.columnProperty
               (Templates.buildNumericFilter objectTypeId (VStr propertyId)
                  comparison value)
             = Ok [VStr propertyId]).
  { intros comparison value. unfold Templates.buildNumericFilter.
    rewrite (extract_column_node _ propertyOf columnProperty_takes).
    match goal with
    | |- context [propertyOf ?rule] => change (propertyOf rule) with (VStr propertyId)
    end.
    rewrite Ht. reflexivity. }
  destruct Hf as [Hv | values Hv Hn | filter Hb | ]; rewrite ?Hp in *.
  - apply Heq.
  - unfold Templates.buildStringOrFilter.
    rewrite extract_or_node. apply visit_all_same.
    + intros x Hx. apply in_map_iff in Hx. destruct Hx as [v [<- _]]. apply Heq.
    + right. exists (VStr propertyId). split; [reflexivity | exact Hs].
    + destruct values; [contradiction | discriminate].
  - assert (Hdef : forall v, strict_equals v VUndefined = false -> v <> VUndefined)
      by (intros v E ->; discriminate E).
    destruct (strict_equals (get_opt params "min") VUndefined) eqn:E1;
      destruct (strict_equals (get_opt params "max") VUndefined) eqn:E2.
    + apply strict_equals_undefined in E1, E2. rewrite E1, E2 in Hb. discriminate Hb.
    + apply strict_equals_undefined in E1. rewrite E1 in Hb.
      rewrite range_max_only in Hb by (apply Hdef, E2). injection Hb as <-.
      exact (Hnum _ _).
    + apply strict_equals_undefined in E2. rewrite E2 in Hb.
      rewrite range_min_only in Hb by (apply Hdef, E1). injection Hb as <-.
      exact (Hnum _ _).
    + rewrite range_both in Hb by (apply Hdef; assumption). injection Hb as <-.
      rewrite extract_and_node. apply visit_all_same.
      * intros x [<- | [<- | []]]; exact (Hnum _ _).
      * right. exists (VStr propertyId). split; [reflexivity | exact Hs].
      * discriminate.
  - unfold Templates.buildNullFilter.
    rewrite (extract_column_node _ propertyOf columnProperty_takes).
    match goal with
    | |- context [propertyOf ?rule] => change (propertyOf rule) with (VStr propertyId)
    end.
    rewrite Ht. reflexivity.
Qed.

(** X9.  A logic that a template built uses the property of the template
    and no other; the property pass accepts it exactly when the
    configuration declares that property. *)
Theorem template_logic_properties :
  forall (templateName : string) (params : jsval) (workflow : WorkflowDefinition)
         (logic : jsval) (propertyId : string),
    Templates.logic (Templates.buildFromTemplate templateName params workflow)
    = Some logic ->
    get_opt params "propertyId" = VStr propertyId ->
    let declared := map property_id (properties (objectType workflow)) in
    Properties.extractAllProperties logic = Ok [VStr propertyId] /\
    Properties.validateProperties logic (objectType workflow)
    = Ok {| Properties.valid := includes_str declared (VStr propertyId);
            Properties.errors :=
              if includes_str declared (VStr propertyId) then []
              else [Properties.missingPropertyError propertyId
                      (objectType workflow) declared];
            Properties.usedProperties := [VStr propertyId];
            Properties.validProperties := declared |} /\
    (includes_str declared (VStr propertyId) = true <-> In propertyId declared).
Proof.
  intros templateName params workflow logic propertyId Hb Hp declared.
  destruct (build_success _ _ _ _ Hb) as [Hn [Ht [filter [Hf [-> _]]]]].
  assert (Hne : propertyId <> EmptyString).
  { intros ->. rewrite Hp in Ht. discriminate Ht. }
  assert (Hu : Properties.extractAllProperties
                 (Templates.wrapFilterAsRuleLogic filter workflow)
               = Ok [VStr propertyId]).
  { rewrite wrapped_properties. eapply template_properties; eassumption. }
  split; [exact Hu |]. split; [| apply includes_str_In].
  rewrite (validateProperties_result _ (objectType workflow) _ Hu).
  - fold declared. cbn [List.filter].
    destruct (includes_str declared (VStr propertyId)); reflexivity.
  - constructor; [eexists; reflexivity | constructor].
Qed.

Lemma template_logic_properties_witness :
  Properties.extractAllProperties
    (Templates.wrapFilterAsRuleLogic
       (Templates.buildStringOrFilter "test.object-type" (VStr "property_d")
          [VStr "x"; VStr "y"] (VBool false))
       sample_workflow)
  = Ok [VStr "property_d"] /\
  (includes_str ["property_a"; "property_b"; "property_c"] (VStr "property_d") = true
   <-> In "property_d" ["property_a"; "property_b"; "property_c"]).
Proof.
  destruct (template_logic_properties "string-or"
              (VObj [("propertyId", VStr "property_d");
                     ("values", VArr [VStr "x"; VStr "y"])])
              sample_workflow _ "property_d" eq_refl eq_refl) as [H1 [_ H3]].
  split; [exact H1 | exact H3].
Defined.

Ltac column_node_kind kind :=
  rewrite (extract_column_node _ (operatorOf kind) (columnFilterType_takes kind));
  reflexivity.

Lemma equals_filter_kinds objectTypeId propertyId value caseSensitive :
  let filter :=
    Templates.buildStringEqualsFilter objectTypeId propertyId value caseSensitive in
  Filters.extractStringFilterTypes filter = Ok [VStr "EQUALS"] /\
  Filters.extractNumericFilterTypes filter = Ok [] /\
  Filters.extractNullFilterTypes filter = Ok [].
Proof.
  unfold Templates.buildStringEqualsFilter, Filters.extractStringFilterTypes,
    Filters.extractNumericFilterTypes, Filters.extractNullFilterTypes.
  cbv zeta. split; [| split].
  - column_node_kind "stringColumnFilter".
  - column_node_kind "numericColumnFilter".
  - column_node_kind "nullColumnFilter".
Qed.

Lemma numeric_filter_kinds objectTypeId propertyId comparison value :
  comparison <> EmptyString ->
  let filter :=
    Templates.buildNumericFilter objectTypeId propertyId comparison value in
  Filters.extractStringFilterTypes filter = Ok [] /\
  Filters.extractNumericFilterTypes filter = Ok [VStr comparison] /\
  Filters.extractNullFilterTypes filter = Ok [].
Proof.
  intro Hc.
  unfold Templates.buildNumericFilter, Filters.extractStringFilterTypes,
    Filters.extractNumericFilterTypes, Filters.extractNullFilterTypes.
  cbv zeta. split; [| split].
  - column_node_kind "stringColumnFilter".
  - rewrite (extract_column_node _ (operatorOf "numericColumnFilter")
               (columnFilterType_takes "numericColumnFilter")).
    match goal with
    | |- context [operatorOf ?k ?rule] =>
        change (operatorOf k rule) with (VStr comparison)
    end.
    rewrite (truthy_string _ Hc). reflexivity.
  - column_node_kind "nullColumnFilter".
Qed.

Lemma null_filter_kinds objectTypeId propertyId isNull :
  let filter := Templates.buildNullFilter objectTypeId propertyId isNull in
  Filters.extractStringFilterTypes filter = Ok [] /\
  Filters.extractNumericFilterTypes filter = Ok [] /\
  Filters.extractNullFilterTypes filter
  = Ok [VStr (if truthy isNull then "NULL" else "NOT_NULL")].
Proof.
  unfold Templates.buildNullFilter, Filters.extractStringFilterTypes,
    Filters.extractNumericFilterTypes, Filters.extractNullFilterTypes.
  cbv zeta. split; [| split].
  - column_node_kind "stringColumnFilter".
  - column_node_kind "numericColumnFilter".
  - rewrite (extract_column_node _ (operatorOf "nullColumnFilter")
               (columnFilterType_takes "nullColumnFilter")).
    match goal with
    | |- context [operatorOf ?k ?rule] =>
        change (operatorOf k rule)
          with (VStr (if truthy isNull then "NULL" else "NOT_NULL"))
    end.
    destruct (truthy isNull); reflexivity.
Qed.

(** The operators of the filter of a template. *)
Lemma template_kinds objectTypeId params templateName filter :
  template_filter objectTypeId params templateName filter ->
  Filters.extractStringFilterTypes filter
  = Ok (Filters.used_string (template_filters templateName params)) /\
  Filters.extractNumericFilterTypes filter
  = Ok (Filters.used_numeric (template_filters templateName params)) /\
  Filters.extractNullFilterTypes filter
  = Ok (Filters.used_null (template_filters templateName params)).
Proof.
  intros [Hv | values Hv Hn | range Hb | ].
  - exact (equals_filter_kinds _ _ _ _).
  - unfold Templates.buildStringOrFilter, Filters.extractStringFilterTypes,
      Filters.extractNumericFilterTypes, Filters.extractNullFilterTypes.
    cbv zeta. rewrite !extract_or_node.
    assert (Hl : map (fun value =>
                        Templates.buildStringEqualsFilter objectTypeId
                          (get_opt params "propertyId") value
                          (Templates.default_to (VBool false)
                             (coalesce (get_opt params "caseSensitive") (VBool false))))
                     values <> [])
      by (destruct values; [contradiction | discriminate]).
    assert (He : forall x,
               In x (map (fun value =>
                            Templates.buildStringEqualsFilter objectTypeId
                              (get_opt params "propertyId") value
                              (Templates.default_to (VBool false)
                                 (coalesce (get_opt params "caseSensitive") (VBool false))))
                         values) ->
               Filters.extractStringFilterTypes x = Ok [VStr "EQUALS"] /\
               Filters.extractNumericFilterTypes x = Ok [] /\
               Filters.extractNullFilterTypes x = Ok []).
    { intros x Hx. apply in_map_iff in Hx. destruct Hx as [v [<- _]].
      exact (equals_filter_kinds _ _ _ _). }
    split; [| split]; (apply visit_all_same; [| | exact Hl]).
    + intros x Hx. exact (proj1 (He x Hx)).
    + right. exists (VStr "EQUALS"). split; reflexivity.
    + intros x Hx. exact (proj1 (proj2 (He x Hx))).
    + left. reflexivity.
    + intros x Hx. exact (proj2 (proj2 (He x Hx))).
    + left. reflexivity.
  - unfold template_filters.
    cbn [Filters.used_string Filters.used_numeric Filters.used_null].
    change ("numeric-range" =? "string-equals") with false.
    change ("numeric-range" =? "string-or") with false.
    change ("numeric-range" =? "numeric-range") with true.
    change ("numeric-range" =? "null-check") with false.
    cbv iota. cbn [orb].
    assert (Hdef : forall v, strict_equals v VUndefined = false -> v <> VUndefined)
      by (intros v E ->; discriminate E).
    destruct (strict_equals (get_opt params "min") VUndefined) eqn:E1;
      destruct (strict_equals (get_opt params "max") VUndefined) eqn:E2.
    + apply strict_equals_undefined in E1, E2. rewrite E1, E2 in Hb. discriminate Hb.
    + apply strict_equals_undefined in E1. rewrite E1 in Hb.
      rewrite range_max_only in Hb by (apply Hdef, E2). injection Hb as <-.
      refine (numeric_filter_kinds _ _ _ _ _). discriminate.
    + apply strict_equals_undefined in E2. rewrite E2 in Hb.
      rewrite range_min_only in Hb by (apply Hdef, E1). injection Hb as <-.
      refine (numeric_filter_kinds _ _ _ _ _). discriminate.
    + rewrite range_both in Hb by (apply Hdef; assumption). injection Hb as <-.
      unfold Filters.extractStringFilterTypes, Filters.extractNumericFilterTypes,
        Filters.extractNullFilterTypes.
      rewrite !extract_and_node.
      pose proof (numeric_filter_kinds objectTypeId (get_opt params "propertyId")
                    "GREATER_THAN_OR_EQUAL" (get_opt params "min")) as Hlo.
      pose proof (numeric_filter_kinds objectTypeId (get_opt params "propertyId")
                    "LESS_THAN_OR_EQUAL" (get_opt params "max")) as Hhi.
      cbv zeta in Hlo, Hhi.
      destruct Hlo as [L1 [L2 L3]]; [discriminate |].
      destruct Hhi as [U1 [U2 U3]]; [discriminate |].
      unfold Filters.extractStringFilterTypes, Filters.extractNumericFilterTypes,
        Filters.extractNullFilterTypes in *.
      unfold visit_all. cbn [forEach].
      rewrite L1, L2, L3. cbn [bind]. rewrite U1, U2, U3. cbn [bind].
      split; [| split]; reflexivity.
  - exact (null_filter_kinds _ _ _).
Qed.

Lemma template_filters_printable templateName params :
  let used := template_filters templateName params in
  Forall printable (Filters.used_string used) /\
  Forall printable (Filters.used_numeric used) /\
  Forall printable (Filters.used_null used).
Proof.
  unfold template_filters. cbn [Filters.used_string Filters.used_numeric Filters.used_null].
  split; [| split].
  - destruct (_ || _); repeat constructor; eexists; reflexivity.
  - destruct (templateName =? "numeric-range"); [| constructor].
    destruct (strict_equals (get_opt params "min") VUndefined);
      destruct (strict_equals (get_opt params "max") VUndefined);
      repeat constructor; eexists; reflexivity.
  - destruct (templateName =? "null-check"); repeat constructor; eexists; reflexivity.
Qed.

Lemma template_compound objectTypeId params templateName filter :
  template_filter objectTypeId params templateName filter ->
  truthy (or_else (or_else (get_opt filter "orFilterRule")
                           (get_opt filter "andFilterRule"))
                  (get_opt filter "notFilterRule")) = true
  <-> templateName = "string-or"
      \/ (templateName = "numeric-range"
          /\ get_opt params "min" <> VUndefined
          /\ get_opt params "max" <> VUndefined).
Proof.
  assert (Hdef : forall v, strict_equals v VUndefined = false -> v <> VUndefined)
    by (intros v E ->; discriminate E).
  intros [Hv | values Hv Hn | range Hb | ].
  - split; [discriminate |]. intros [H | [H _]]; discriminate H.
  - split; [auto | reflexivity].
  - destruct (strict_equals (get_opt params "min") VUndefined) eqn:E1;
      destruct (strict_equals (get_opt params "max") VUndefined) eqn:E2.
    + apply strict_equals_undefined in E1, E2. rewrite E1, E2 in Hb. discriminate Hb.
    + apply strict_equals_undefined in E1. rewrite E1 in Hb.
      rewrite range_max_only in Hb by (apply Hdef, E2). injection Hb as <-.
      split; [discriminate |]. intros [H | [_ [H _]]]; [discriminate H | contradiction].
    + apply strict_equals_undefined in E2. rewrite E2 in Hb.
      rewrite range_min_only in Hb by (apply Hdef, E1). injection Hb as <-.
      split; [discriminate |]. intros [H | [_ [_ H]]]; [discriminate H | contradiction].
    + rewrite range_both in Hb by (apply Hdef; assumption). injection Hb as <-.
      split; [| reflexivity]. intros _. right. auto.
  - split; [discriminate |]. intros [H | [H _]]; discriminate H.
Qed.

(** X10.  A logic that a template built uses the operators of the template:
    [EQUALS] for the two string templates, the bounds given for
    [numeric-range], [NULL] or [NOT_NULL] for [null-check].  The
    filter-type pass rejects it only when it is a string template and the
    configuration lists [EQUALS] as unsupported; only [string-or] and a
    range with two bounds are compound. *)
Theorem template_logic_filters :
  forall (templateName : string) (params : jsval) (workflow : WorkflowDefinition)
         (logic : jsval) (validationConfig : ValidationConfig),
    Templates.logic (Templates.buildFromTemplate templateName params workflow)
    = Some logic ->
    let used := template_filters templateName params in
    exists r summary,
      Filters.validateFilterTypes logic validationConfig = Ok r /\
      Filters.getFilterSummary logic = Ok summary /\
      Filters.usedFilters r = used /\
      Filters.stringFilters summary = Filters.used_string used /\
      Filters.numericFilters summary = Filters.used_numeric used /\
      Filters.nullFilters summary = Filters.used_null used /\
      (Filters.hasCompoundFilters summary = true
       <-> templateName = "string-or"
           \/ (templateName = "numeric-range"
               /\ get_opt params "min" <> VUndefined
               /\ get_opt params "max" <> VUndefined)) /\
      (Filters.valid r = false
       <-> (templateName = "string-equals" \/ templateName = "string-or")
           /\ In "EQUALS" (unsupportedStringFilters validationConfig)).
Proof.
  intros templateName params workflow logic cfg Hb used.
  destruct (build_success _ _ _ _ Hb) as [Hn [Ht [filter [Hf [-> _]]]]].
  destruct (template_kinds _ _ _ _ Hf) as [Ks [Kn Kz]].
  destruct (template_filters_printable templateName params) as [Ps [Pn Pz]].
  fold used in Ks, Kn, Kz, Ps, Pn, Pz.
  destruct (validateFilterTypes_result
              (Templates.wrapFilterAsRuleLogic filter workflow) cfg
              (Filters.used_string used) (Filters.used_numeric used)
              (Filters.used_null used))
    as [warnings Hr]; try assumption.
  eexists. eexists. split; [exact Hr |]. split.
  { unfold Filters.getFilterSummary.
    change (get_opt (get_opt (get_opt (Templates.wrapFilterAsRuleLogic filter workflow)
                                "strategy") "filterNode") "filter") with filter.
    rewrite Ks, Kn, Kz. cbn [bind]. reflexivity. }
  cbn [Filters.usedFilters Filters.stringFilters Filters.numericFilters
         Filters.nullFilters Filters.hasCompoundFilters Filters.valid].
  split; [destruct used; reflexivity |].
  split; [reflexivity |]. split; [reflexivity |]. split; [reflexivity |].
  split; [eapply template_compound, Hf |].
  unfold used, template_filters. cbn [Filters.used_string].
  destruct (String.eqb_spec templateName "string-equals") as [E1 | E1];
    destruct (String.eqb_spec templateName "string-or") as [E2 | E2];
    cbn [orb List.filter map List.length];
    try solve
      [destruct (includes_str (unsupportedStringFilters cfg) (VStr "EQUALS")) eqn:U;
       cbn [List.filter map List.length Nat.eqb];
       [apply includes_str_In in U; split; auto
       | split; [discriminate |];
         intros [_ Hin]; apply includes_str_In in Hin; congruence]].
  split; [discriminate |]. intros [[Hin | Hin] _]; contradiction.
Qed.

Lemma template_logic_filters_witness :
  exists r,
    Filters.validateFilterTypes
      (Templates.wrapFilterAsRuleLogic
         (Templates.buildStringOrFilter "test.object-type" (VStr "property_a")
            [VStr "x"; VStr "y"] (VBool false))
         sample_workflow)
      regex_only_validation
    = Ok r /\
    Filters.used_string (Filters.usedFilters r) = [VStr "EQUALS"] /\
    Filters.valid r = true.
Proof.
  destruct (template_logic_filters "string-or"
              (VObj [("propertyId", VStr "property_a");
                     ("values", VArr [VStr "x"; VStr "y"])])
              sample_workflow _ regex_only_validation eq_refl)
    as [r [summary [Hr [_ [Hu [_ [_ [_ [_ Hv]]]]]]]]].
  exists r. split; [exact Hr |]. split; [rewrite Hu; reflexivity |].
  destruct (Filters.valid r) eqn:E; [reflexivity |].
  destruct Hv as [Hv _]. destruct (Hv eq_refl) as [_ [H | [H | []]]]; discriminate H.
Defined.

(** X11.  The property pass sees in a wrapped filter what the extractor finds
    in the filter, and never fails on it: the wrapping adds no window,
    no aggregation and no parameter of the effect. *)
Theorem wrapped_logic_extraction :
  forall (filter : jsval) (workflow : WorkflowDefinition),
    let logic := Templates.wrapFilterAsRuleLogic filter workflow in
    Properties.extractAllProperties logic
    = Properties.extractPropertiesFromFilter filter /\
    returns (Properties.extractAllProperties logic) /\
    returns (Properties.getPropertySummary logic) /\
    filterOf logic = filter.
Proof.
  intros filter workflow logic.
  pose proof (wrapped_properties filter workflow) as H. fold logic in H.
  destruct (extractPropertiesFromFilter_returns filter) as [found Hf].
  split; [exact H |]. split; [| split].
  - rewrite H. exists found. exact Hf.
  - unfold Properties.getPropertySummary. rewrite H, Hf. eexists. reflexivity.
  - reflexivity.
Qed.

(** ** The extractors find nothing but what the tree holds *)

Section TraversalSoundness.

Variable leaf : list jsval -> jsval -> result (list jsval).
Variable take : jsval -> jsval.

Hypothesis leaf_takes :
  forall found rule,
    truthy rule = true ->
    leaf found rule = Ok (if truthy (take rule) then set_add found (take rule) else found).

Lemma visit_all_sound r l : forall found found' p,
  visit_all r l found = Ok found' ->
  In p found' ->
  In p found \/ exists sub qs, In sub l /\ r sub = Ok qs /\ In p qs.
Proof.
  induction l as [| x l IH]; intros found found' p H Hp.
  - injection H as <-. left. exact Hp.
  - unfold visit_all in H. cbn [forEach] in H.
    destruct (r x) as [qs |] eqn:Ex; cbn [bind] in H; [| discriminate].
    destruct (IH _ _ _ H Hp) as [Hin | [sub [qs' [Hs [Hr Hq]]]]].
    + apply set_add_all_spec in Hin. destruct Hin as [Hin | Hin]; [left; exact Hin |].
      right. exists x, qs. split; [left; reflexivity | split; assumption].
    + right. exists sub, qs'. split; [right; exact Hs | split; assumption].
Qed.

Lemma visit_filters_sound r rule found found' p :
  truthy rule = true ->
  visit_filters r rule found = Ok found' ->
  In p found' ->
  In p found
  \/ exists subFilters sub qs,
       get_opt rule "filters" = VArr subFilters /\
       In sub subFilters /\ r sub = Ok qs /\ In p qs.
Proof.
  intros Ht H Hp. unfold visit_filters in H.
  rewrite (get_truthy _ _ Ht) in H. cbn [bind] in H.
  destruct (get_opt rule "filters") as [ | | | | | subFilters | | ] eqn:E;
    try (injection H as <-; left; exact Hp).
  destruct (visit_all_sound _ _ _ _ _ H Hp) as [Hin | [sub [qs [Hs [Hr Hq]]]]];
    [left; exact Hin |].
  right. exists subFilters, sub, qs. auto.
Qed.

Lemma visit_inner_sound r rule found found' p :
  truthy rule = true ->
  visit_inner r rule found = Ok found' ->
  In p found' ->
  In p found \/ exists qs, r (get_opt rule "filter") = Ok qs /\ In p qs.
Proof.
  intros Ht H Hp. unfold visit_inner in H.
  rewrite (get_truthy _ _ Ht) in H. cbn [bind] in H.
  destruct (r (get_opt rule "filter")) as [qs |] eqn:E; cbn [bind] in H;
    [| discriminate].
  injection H as <-. apply set_add_all_spec in Hp.
  destruct Hp as [Hp | Hp]; [left; exact Hp |].
  right. exists qs. split; [reflexivity | exact Hp].
Qed.

Lemma traverse_sound n : forall filter ps p,
  traverse leaf n filter = Ok ps -> In p ps -> mentions take p filter.
Proof.
  induction n as [| n IH]; intros filter ps p H Hp.
  - injection H as <-. destruct Hp.
  - cbn [traverse] in H.
    destruct (negb (truthy filter) || negb (typeof filter =? "object")) eqn:E.
    { unfold visit in H. rewrite E in H. injection H as <-. destruct Hp. }
    destruct (visit_steps _ _ _ _ H E) as [f1 [f2 [f3 [H1 [H2 [H3 H4]]]]]].
    assert (S4 : In p f3 \/ mentions take p filter).
    { destruct (truthy (get_opt filter "notFilterRule")) eqn:T.
      - destruct (visit_inner_sound _ _ _ _ _ T H4 Hp) as [Hin | [qs [Hr Hq]]];
          [left; exact Hin |].
        right. apply mentions_not; [exact T |]. eapply IH; eassumption.
      - injection H4 as <-. left. exact Hp. }
    destruct S4 as [Hp3 | Hm]; [| exact Hm].
    assert (S3 : In p f2 \/ mentions take p filter).
    { destruct (truthy (get_opt filter "andFilterRule")) eqn:T.
      - destruct (visit_filters_sound _ _ _ _ _ T H3 Hp3)
          as [Hin | [subs [sub [qs [Hf [Hs [Hr Hq]]]]]]]; [left; exact Hin |].
        right. eapply mentions_and; [exact Hf | exact Hs |]. eapply IH; eassumption.
      - injection H3 as <-. left. exact Hp3. }
    destruct S3 as [Hp2 | Hm]; [| exact Hm].
    assert (S2 : In p f1 \/ mentions take p filter).
    { destruct (truthy (get_opt filter "orFilterRule")) eqn:T.
      - destruct (visit_filters_sound _ _ _ _ _ T H2 Hp2)
          as [Hin | [subs [sub [qs [Hf [Hs [Hr Hq]]]]]]]; [left; exact Hin |].
        right. eapply mentions_or; [exact Hf | exact Hs |]. eapply IH; eassumption.
      - injection H2 as <-. left. exact Hp2. }
    destruct S2 as [Hp1 | Hm]; [| exact Hm].
    destruct (truthy (get_opt filter "columnFilterRule")) eqn:T.
    + rewrite leaf_takes in H1 by exact T.
      destruct (truthy (take (get_opt filter "columnFilterRule"))) eqn:Tp;
        injection H1 as <-; [| destruct Hp1].
      apply set_add_spec in Hp1. destruct Hp1 as [[] | ->].
      apply mentions_column; [exact T | reflexivity | exact Tp].
    + injection H1 as <-. destruct Hp1.
Qed.

Lemma extract_exact filter :
  exists ps,
    extract leaf filter = Ok ps /\
    distinct ps /\
    forall p, In p ps <-> mentions take p filter.
Proof.
  destruct (extract_returns _ take leaf_takes filter) as [ps Hps].
  exists ps. split; [exact Hps |]. split.
  - eapply (extract_distinct _ take leaf_takes), Hps.
  - intro p. split.
    + intro Hp. eapply traverse_sound; [exact Hps | exact Hp].
    + intro Hm. destruct (extract_mentions _ take leaf_takes p filter Hm) as [qs [Hq Hin]].
      rewrite Hps in Hq. injection Hq as <-. exact Hin.
Qed.

End TraversalSoundness.

Lemma mentions_truthy take p filter : mentions take p filter -> truthy p = true.
Proof. induction 1; assumption. Qed.

(** X12.  The four extractors return, without duplicates, exactly what the
    column filters of the tree hold, at whatever depth under [or], [and]
    and [not] nodes: the truthy property ids, and the truthy operators of
    each kind.  They make nothing up. *)
Theorem extractors_are_exact :
  forall filter : jsval,
    (exists ps,
        Properties.extractPropertiesFromFilter filter = Ok ps /\
        distinct ps /\
        forall p, In p ps <-> mentions propertyOf p filter) /\
    (exists ts,
        Filters.extractStringFilterTypes filter = Ok ts /\
        distinct ts /\
        forall t, In t ts <-> mentions (operatorOf "stringColumnFilter") t filter) /\
    (exists ts,
        Filters.extractNumericFilterTypes filter = Ok ts /\
        distinct ts /\
        forall t, In t ts <-> mentions (operatorOf "numericColumnFilter") t filter) /\
    (exists ts,
        Filters.extractNullFilterTypes filter = Ok ts /\
        distinct ts /\
        forall t, In t ts <-> mentions (operatorOf "nullColumnFilter") t filter) /\
    (forall take p, mentions take p filter -> truthy p = true).
Proof.
  intro filter. split; [| split; [| split; [| split]]].
  - apply (extract_exact _ propertyOf columnProperty_takes).
  - apply (extract_exact _ (operatorOf "stringColumnFilter")
             (columnFilterType_takes "stringColumnFilter")).
  - apply (extract_exact _ (operatorOf "numericColumnFilter")
             (columnFilterType_takes "numericColumnFilter")).
  - apply (extract_exact _ (operatorOf "nullColumnFilter")
             (columnFilterType_takes "nullColumnFilter")).
  - intros take p. apply mentions_truthy.
Qed.

(** ** properties.ts: window and aggregation nodes *)

Lemma extractPropertyFromColumn_cases column :
  exists x,
    Properties.extractPropertyFromColumn column = Ok x /\
    (truthy x = true -> x = columnPropertyId column) /\
    (truthy (columnPropertyId column) = true -> x = columnPropertyId column).
Proof.
  destruct (truthy (columnPropertyId column)) eqn:T.
  - rewrite (extractPropertyFromColumn_value _ T). eexists. split; [reflexivity |].
    split; reflexivity.
  - unfold Properties.extractPropertyFromColumn.
    destruct (negb (truthy column) || negb (typeof column =? "object")) eqn:E.
    + exists VNull. split; [reflexivity |]. split; discriminate.
    + apply object_is_truthy in E. rewrite (get_truthy _ _ E). cbn [bind].
      unfold or_else. fold (columnPropertyId column). rewrite T.
      exists VNull. split; [reflexivity |]. split; discriminate.
Qed.

(** A loop that reads a column from every entry and adds its property
    to the set. *)
Lemma collect_loop (body : list jsval -> jsval -> result (list jsval))
  (column : jsval -> result jsval) :
  (forall s col, body s col = (c <- column col ;;
                               propId <- Properties.extractPropertyFromColumn c ;;
                               Ok (Properties.add_if_truthy s propId))) ->
  forall cols s,
    (returns (forEach body cols s) <-> Forall (fun col => returns (column col)) cols) /\
    (forall s', forEach body cols s = Ok s' ->
                (distinct s -> distinct s') /\
                forall p, In p s'
                          <-> In p s
                              \/ exists col c, In col cols /\ column col = Ok c /\
                                               p = columnPropertyId c /\
                                               truthy p = true).
Proof.
  intro Hb. induction cols as [| col cols IH]; intro s.
  - split.
    + split; [constructor | intros _; exists s; reflexivity].
    + intros s' H. injection H as <-. split; [auto |].
      intro p. split; [auto |]. intros [H | [col [c [[] _]]]]. exact H.
  - cbn [forEach]. rewrite Hb.
    destruct (column col) as [c |] eqn:Ec; cbn [bind].
    + destruct (extractPropertyFromColumn_cases c) as [x [Hx [Hx1 Hx2]]].
      rewrite Hx. cbn [bind].
      destruct (IH (Properties.add_if_truthy s x)) as [IH1 IH2].
      split.
      * rewrite IH1. split.
        -- intro H. constructor; [exists c; exact Ec | exact H].
        -- intro H. inversion H. assumption.
      * intros s' H. destruct (IH2 s' H) as [Hd Hin].
        split; [intro D; apply Hd, add_if_truthy_distinct, D |].
        intro p. rewrite Hin. unfold Properties.add_if_truthy.
        split.
        -- intros [Hp | [col' [c' [Hc [Hcc Hpp]]]]].
           ++ destruct (truthy x) eqn:Tx.
              ** apply set_add_spec in Hp. destruct Hp as [Hp | ->]; [left; exact Hp |].
                 right. exists col, c. split; [left; reflexivity |].
                 split; [exact Ec |]. split; [apply Hx1; reflexivity | exact Tx].
              ** left. exact Hp.
           ++ right. exists col', c'. split; [right; exact Hc | split; assumption].
        -- intros [Hp | [col' [c' [[<- | Hc] [Hcc [Hpp Tp]]]]]].
           ++ left. destruct (truthy x); [apply set_add_spec; left |]; exact Hp.
           ++ rewrite Ec in Hcc. injection Hcc as <-. subst p.
              pose proof (Hx2 Tp) as Ex. rewrite <- Ex in Tp |- *.
              rewrite Tp. left. apply set_add_spec. right. reflexivity.
           ++ right. exists col', c'. auto.
    + split.
      * split; [intros [a Ha]; discriminate Ha |].
        intro H. inversion H as [| ? ? [a Ha] _]. congruence.
      * intros s' H. discriminate H.
Qed.

Lemma get_returns v k : returns (get v k) <-> nullish v = false.
Proof.
  destruct v; simpl; split; intro H; try reflexivity; try (eexists; reflexivity);
    try discriminate H; destruct H as [a Ha]; discriminate Ha.
Qed.

(** The loops of the two node extractors over an array [v] of columns,
    nothing when [v] is no array; [readable] tells the entries a column
    can be read from. *)
Lemma collect_array (body : list jsval -> jsval -> result (list jsval))
  (column : jsval -> result jsval) (read : jsval -> jsval) (readable : jsval -> Prop)
  (v : jsval) (s : list jsval) :
  (forall s col, body s col = (c <- column col ;;
                               propId <- Properties.extractPropertyFromColumn c ;;
                               Ok (Properties.add_if_truthy s propId))) ->
  (forall col, readable col -> column col = Ok (read col)) ->
  (forall col, returns (column col) -> readable col) ->
  let loop := match v with
              | VArr cols => forEach body cols s
              | _ => Ok s
              end in
  (returns loop <-> Forall readable (entries_of v)) /\
  (forall s', loop = Ok s' ->
              (distinct s -> distinct s') /\
              forall p, In p s'
                        <-> In p s
                            \/ (truthy p = true /\
                                exists col, In col (entries_of v) /\
                                            p = columnPropertyId (read col))).
Proof.
  intros Hb Hok Hre loop.
  destruct v as [ | | | | | cols | | ];
    try (split; [split; [constructor | intros _; exists s; reflexivity] |];
         intros s' H; injection H as <-; split; [auto |];
         intro p; split; [auto | intros [H | [_ [col [[] _]]]]; exact H]).
  destruct (collect_loop body column Hb cols s) as [L1 L2]. split.
  - unfold loop. rewrite L1. cbn [entries_of]. split; intro H;
      (eapply Forall_impl; [| exact H]); intros col Hc.
    + apply Hre, Hc.
    + exists (read col). apply Hok, Hc.
  - intros s' H. destruct (L2 s' H) as [Hd Hin]. split; [exact Hd |].
    assert (Hall : forall col, In col cols -> column col = Ok (read col)).
    { assert (Hf : Forall (fun col => returns (column col)) cols)
        by (apply L1; exists s'; exact H).
      rewrite Forall_forall in Hf. intros col Hc. apply Hok, Hre, Hf, Hc. }
    intro p. rewrite Hin. cbn [entries_of]. split.
    + intros [Hp | [col [c [Hcol [Hcc [Hpp Tp]]]]]]; [left; exact Hp |].
      right. split; [exact Tp |]. exists col. split; [exact Hcol |].
      rewrite (Hall col Hcol) in Hcc. injection Hcc as <-. exact Hpp.
    + intros [Hp | [Tp [col [Hcol Hpp]]]]; [left; exact Hp |].
      right. exists col, (read col). split; [exact Hcol |].
      split; [apply Hall, Hcol | split; assumption].
Qed.

Lemma read_through (g : jsval -> jsval) k col :
  (forall c, nullish c = false ->
             (def <- get c k ;; Ok (g def)) = Ok (g (get_opt c k))) /\
  (returns (def <- get col k ;; Ok (g def)) -> nullish col = false).
Proof.
  split.
  - intros c N. rewrite (get_defined _ _ N). reflexivity.
  - intros [a Ha]. destruct col; try reflexivity; discriminate Ha.
Qed.

Lemma window_node_returns node :
  returns (Properties.extractPropertiesFromWindowNode node)
  <-> no_null_entry (get_opt node "columnsToAdd").
Proof.
  set (columnsToAdd := get_opt node "columnsToAdd").
  set (partitionBy := get_opt node "partitionBy").
  unfold Properties.extractPropertiesFromWindowNode.
  destruct (negb (truthy node) || negb (typeof node =? "object")) eqn:E.
  { assert (E1 : entries_of columnsToAdd = [])
      by (unfold columnsToAdd; destruct node; try discriminate E; reflexivity).
    unfold no_null_entry. rewrite E1.
    split; [constructor | intros _; eexists; reflexivity]. }
  apply object_is_truthy in E. rewrite !(get_truthy _ _ E). cbn [bind].
  fold columnsToAdd partitionBy.
  set (body1 := fun (properties : list jsval) (col : jsval) =>
                  def <- get col "columnDefinition" ;;
                  propId <- Properties.extractPropertyFromColumn (get_opt def "column") ;;
                  Ok (Properties.add_if_truthy properties propId)).
  set (body2 := fun (properties : list jsval) (col : jsval) =>
                  propId <- Properties.extractPropertyFromColumn col ;;
                  Ok (Properties.add_if_truthy properties propId)).
  destruct (collect_array body1
              (fun col => def <- get col "columnDefinition" ;; Ok (get_opt def "column"))
              (fun col => get_opt (get_opt col "columnDefinition") "column")
              (fun col => nullish col = false) columnsToAdd [])
    as [A1 A2].
  { intros s col. unfold body1. destruct (get col "columnDefinition"); reflexivity. }
  { intros col N. rewrite (get_defined _ _ N). reflexivity. }
  { intros col [a Ha]. destruct col; try reflexivity; discriminate Ha. }
  cbv zeta in A1, A2. fold (no_null_entry columnsToAdd) in A1.
  rewrite <- A1. split.
  + intros [ps H].
    destruct (match columnsToAdd with
              | VArr cols => forEach body1 cols []
              | _ => Ok []
              end) as [s1 |]; [eexists; reflexivity | discriminate H].
  + intros [s1 H1]. rewrite H1. cbn [bind].
    destruct (collect_array body2 (fun col => Ok col) (fun col => col)
                (fun _ => True) partitionBy s1) as [[_ B1] _].
    { intros s col. reflexivity. }
    { intros col _. reflexivity. }
    { intros col _. exact I. }
    destruct B1 as [s2 H2].
    { apply Forall_forall. intros x _. exact I. }
    cbv zeta in H2. rewrite H2. eexists. reflexivity.
Qed.

(** X13.  [extractPropertiesFromWindowNode] throws when an entry of
    [columnsToAdd] is [null] or [undefined], and only then; a [null] in
    [partitionBy] is passed over.  What it returns are the truthy
    property ids of the columns of [columnsToAdd] and of [partitionBy],
    each once. *)
Theorem window_node_properties :
  forall node : jsval,
    let columnsToAdd := get_opt node "columnsToAdd" in
    let partitionBy := get_opt node "partitionBy" in
    (returns (Properties.extractPropertiesFromWindowNode node)
     <-> no_null_entry columnsToAdd) /\
    (forall ps,
        Properties.extractPropertiesFromWindowNode node = Ok ps ->
        distinct ps /\
        forall p,
          In p ps
          <-> truthy p = true /\
              ((exists col,
                   In col (entries_of columnsToAdd) /\
                   p = columnPropertyId
                         (get_opt (get_opt col "columnDefinition") "column"))
               \/ (exists col,
                      In col (entries_of partitionBy) /\ p = columnPropertyId col))).
Proof.
  intros node columnsToAdd partitionBy.
  split; [apply window_node_returns |].
  unfold Properties.extractPropertiesFromWindowNode.
  destruct (negb (truthy node) || negb (typeof node =? "object")) eqn:E.
  { assert (E1 : entries_of columnsToAdd = [])
      by (unfold columnsToAdd; destruct node; try discriminate E; reflexivity).
    assert (E2 : entries_of partitionBy = [])
      by (unfold partitionBy; destruct node; try discriminate E; reflexivity).
    rewrite E1, E2.
    intros ps H. injection H as <-. split; [apply distinct_nil |].
    intro p. split; [intros [] |]. intros [_ [[col [[] _]] | [col [[] _]]]]. }
  apply object_is_truthy in E. rewrite !(get_truthy _ _ E). cbn [bind].
  fold columnsToAdd partitionBy.
  set (body1 := fun (properties : list jsval) (col : jsval) =>
                  def <- get col "columnDefinition" ;;
                  propId <- Properties.extractPropertyFromColumn (get_opt def "column") ;;
                  Ok (Properties.add_if_truthy properties propId)).
  set (body2 := fun (properties : list jsval) (col : jsval) =>
                  propId <- Properties.extractPropertyFromColumn col ;;
                  Ok (Properties.add_if_truthy properties propId)).
  destruct (collect_array body1
              (fun col => def <- get col "columnDefinition" ;; Ok (get_opt def "column"))
              (fun col => get_opt (get_opt col "columnDefinition") "column")
              (fun col => nullish col = false) columnsToAdd [])
    as [A1 A2].
  { intros s col. unfold body1. destruct (get col "columnDefinition"); reflexivity. }
  { intros col N. rewrite (get_defined _ _ N). reflexivity. }
  { intros col [a Ha]. destruct col; try reflexivity; discriminate Ha. }
  cbv zeta in A1, A2. fold (no_null_entry columnsToAdd) in A1.
  intros ps H.
  destruct (match columnsToAdd with
            | VArr cols => forEach body1 cols []
            | _ => Ok []
            end) as [s1 |] eqn:H1; [| discriminate H].
  cbn [bind] in H.
  destruct (collect_array body2 (fun col => Ok col) (fun col => col)
              (fun _ => True) partitionBy s1) as [_ B2].
  { intros s col. reflexivity. }
  { intros col _. reflexivity. }
  { intros col _. exact I. }
  cbv zeta in B2.
  destruct (match partitionBy with
            | VArr cols => forEach body2 cols s1
            | _ => Ok s1
            end) as [s2 |] eqn:H2; [| discriminate H].
  cbn [bind] in H. injection H as <-.
  destruct (A2 s1 eq_refl) as [D1 I1]. destruct (B2 s2 eq_refl) as [D2 I2].
  split; [apply D2, D1, distinct_nil |].
  intro p. rewrite I2, I1. split.
  + intros [[[] | [Tp Hc]] | [Tp Hc]]; (split; [exact Tp |]); [left | right]; exact Hc.
  + intros [Tp [Hc | Hc]]; [left; right | right]; split; assumption.
Qed.

Lemma aggregation_node_returns node :
  returns (Properties.extractPropertiesFromAggregationNode node)
  <-> no_null_entry (get_opt node "columnsToAdd")
      /\ no_null_entry (get_opt node "groupByColumns").
Proof.
  set (columnsToAdd := get_opt node "columnsToAdd").
  set (groupByColumns := get_opt node "groupByColumns").
  unfold Properties.extractPropertiesFromAggregationNode.
  destruct (negb (truthy node) || negb (typeof node =? "object")) eqn:E.
  { assert (E1 : entries_of columnsToAdd = [])
      by (unfold columnsToAdd; destruct node; try discriminate E; reflexivity).
    assert (E2 : entries_of groupByColumns = [])
      by (unfold groupByColumns; destruct node; try discriminate E; reflexivity).
    unfold no_null_entry. rewrite E1, E2.
    split; [split; constructor | intros _; eexists; reflexivity]. }
  apply object_is_truthy in E. rewrite !(get_truthy _ _ E). cbn [bind].
  fold columnsToAdd groupByColumns.
  set (body1 := fun (properties : list jsval) (col : jsval) =>
                  def <- get col "columnDefinition" ;;
                  propId <- Properties.extractPropertyFromColumn
                              (get_opt def "aggregationColumn") ;;
                  Ok (Properties.add_if_truthy properties propId)).
  set (body2 := fun (properties : list jsval) (col : jsval) =>
                  column <- get col "column" ;;
                  propId <- Properties.extractPropertyFromColumn column ;;
                  Ok (Properties.add_if_truthy properties propId)).
  destruct (collect_array body1
              (fun col => def <- get col "columnDefinition" ;;
                          Ok (get_opt def "aggregationColumn"))
              (fun col => get_opt (get_opt col "columnDefinition") "aggregationColumn")
              (fun col => nullish col = false) columnsToAdd [])
    as [A1 A2].
  { intros s col. unfold body1. destruct (get col "columnDefinition"); reflexivity. }
  { intros col N. rewrite (get_defined _ _ N). reflexivity. }
  { intros col [a Ha]. destruct col; try reflexivity; discriminate Ha. }
  cbv zeta in A1, A2. fold (no_null_entry columnsToAdd) in A1.
  assert (B : forall s1,
             let loop := match groupByColumns with
                         | VArr cols => forEach body2 cols s1
                         | _ => Ok s1
                         end in
             (returns loop <-> no_null_entry groupByColumns) /\
             (forall s', loop = Ok s' ->
                         (distinct s1 -> distinct s') /\
                         forall p, In p s'
                                   <-> In p s1
                                       \/ (truthy p = true /\
                                           exists col,
                                             In col (entries_of groupByColumns) /\
                                             p = columnPropertyId (get_opt col "column")))).
  { intro s1.
    apply (collect_array body2 (fun col => get col "column")
             (fun col => get_opt col "column") (fun col => nullish col = false)).
    - intros s col. reflexivity.
    - intros col N. apply get_defined, N.
    - intros col. apply get_returns. }
  split.
  + intros [ps H].
    destruct (match columnsToAdd with
              | VArr cols => forEach body1 cols []
              | _ => Ok []
              end) as [s1 |] eqn:H1; [| discriminate H].
    cbn [bind] in H. split; [apply A1; eexists; reflexivity |].
    apply (B s1).
    destruct (match groupByColumns with
              | VArr cols => forEach body2 cols s1
              | _ => Ok s1
              end) as [s2 |]; [eexists; reflexivity | discriminate H].
  + intros [N1 N2]. apply A1 in N1. destruct N1 as [s1 H1]. rewrite H1. cbn [bind].
    apply (B s1) in N2. destruct N2 as [s2 H2]. cbv zeta in H2. rewrite H2.
    eexists. reflexivity.
Qed.

(** X14.  [extractPropertiesFromAggregationNode] throws when an entry of
    [columnsToAdd] or of [groupByColumns] is [null] or [undefined], and
    only then.  What it returns are the truthy property ids of the
    aggregation columns of [columnsToAdd] and of the columns of
    [groupByColumns], each once. *)
Theorem aggregation_node_properties :
  forall node : jsval,
    let columnsToAdd := get_opt node "columnsToAdd" in
    let groupByColumns := get_opt node "groupByColumns" in
    (returns (Properties.extractPropertiesFromAggregationNode node)
     <-> no_null_entry columnsToAdd /\ no_null_entry groupByColumns) /\
    (forall ps,
        Properties.extractPropertiesFromAggregationNode node = Ok ps ->
        distinct ps /\
        forall p,
          In p ps
          <-> truthy p = true /\
              ((exists col,
                   In col (entries_of columnsToAdd) /\
                   p = columnPropertyId
                         (get_opt (get_opt col "columnDefinition") "aggregationColumn"))
               \/ (exists col,
                      In col (entries_of groupByColumns) /\
                      p = columnPropertyId (get_opt col "column")))).
Proof.
  intros node columnsToAdd groupByColumns.
  split; [apply aggregation_node_returns |].
  unfold Properties.extractPropertiesFromAggregationNode.
  destruct (negb (truthy node) || negb (typeof node =? "object")) eqn:E.
  { assert (E1 : entries_of columnsToAdd = [])
      by (unfold columnsToAdd; destruct node; try discriminate E; reflexivity).
    assert (E2 : entries_of groupByColumns = [])
      by (unfold groupByColumns; destruct node; try discriminate E; reflexivity).
    rewrite E1, E2.
    intros ps H. injection H as <-. split; [apply distinct_nil |].
    intro p. split; [intros [] |]. intros [_ [[col [[] _]] | [col [[] _]]]]. }
  apply object_is_truthy in E. rewrite !(get_truthy _ _ E). cbn [bind].
  fold columnsToAdd groupByColumns.
  set (body1 := fun (properties : list jsval) (col : jsval) =>
                  def <- get col "columnDefinition" ;;
                  propId <- Properties.extractPropertyFromColumn
                              (get_opt def "aggregationColumn") ;;
                  Ok (Properties.add_if_truthy properties propId)).
  set (body2 := fun (properties : list jsval) (col : jsval) =>
                  column <- get col "column" ;;
                  propId <- Properties.extractPropertyFromColumn column ;;
                  Ok (Properties.add_if_truthy properties propId)).
  destruct (collect_array body1
              (fun col => def <- get col "columnDefinition" ;;
                          Ok (get_opt def "aggregationColumn"))
              (fun col => get_opt (get_opt col "columnDefinition") "aggregationColumn")
              (fun col => nullish col = false) columnsToAdd [])
    as [A1 A2].
  { intros s col. unfold body1. destruct (get col "columnDefinition"); reflexivity. }
  { intros col N. rewrite (get_defined _ _ N). reflexivity. }
  { intros col [a Ha]. destruct col; try reflexivity; discriminate Ha. }
  cbv zeta in A1, A2. fold (no_null_entry columnsToAdd) in A1.
  assert (B : forall s1,
             let loop := match groupByColumns with
                         | VArr cols => forEach body2 cols s1
                         | _ => Ok s1
                         end in
             (returns loop <-> no_null_entry groupByColumns) /\
             (forall s', loop = Ok s' ->
                         (distinct s1 -> distinct s') /\
                         forall p, In p s'
                                   <-> In p s1
                                       \/ (truthy p = true /\
                                           exists col,
                                             In col (entries_of groupByColumns) /\
                                             p = columnPropertyId (get_opt col "column")))).
  { intro s1.
    apply (collect_array body2 (fun col => get col "column")
             (fun col => get_opt col "column") (fun col => nullish col = false)).
    - intros s col. reflexivity.
    - intros col N. apply get_defined, N.
    - intros col. apply get_returns. }
  intros ps H.
  destruct (match columnsToAdd with
            | VArr cols => forEach body1 cols []
            | _ => Ok []
            end) as [s1 |] eqn:H1; [| discriminate H].
  cbn [bind] in H.
  destruct (match groupByColumns with
            | VArr cols => forEach body2 cols s1
            | _ => Ok s1
            end) as [s2 |] eqn:H2; [| discriminate H].
  cbn [bind] in H. injection H as <-.
  destruct (A2 s1 eq_refl) as [D1 I1].
  destruct (proj2 (B s1) s2 H2) as [D2 I2].
  split; [apply D2, D1, distinct_nil |].
  intro p. rewrite I2, I1. split.
  + intros [[[] | [Tp Hc]] | [Tp Hc]]; (split; [exact Tp |]); [left | right]; exact Hc.
  + intros [Tp [Hc | Hc]]; [left; right | right]; split; assumption.
Qed.

Lemma falsy_has_no_entries v k :
  truthy v = false -> mem k object_prototype = false -> no_null_entry (get_opt v k).
Proof.
  intros Hv Hk. unfold no_null_entry, get_opt.
  destruct v; try discriminate Hv; cbn [own_property inherited]; rewrite ?Hk;
    try (constructor; fail).
  destruct (k =? "length"); cbn [inherited]; rewrite ?Hk; apply Forall_nil.
Qed.

Lemma falsy_reads_undefined v k :
  truthy v = false -> mem k object_prototype = false -> k <> "length" ->
  get_opt v k = VUndefined.
Proof.
  intros Hv Hk Hl. unfold get_opt.
  destruct v; try discriminate Hv; cbn [own_property inherited]; rewrite ?Hk;
    try reflexivity.
  apply String.eqb_neq in Hl. rewrite Hl. reflexivity.
Qed.

(** X15.  The property extractor of a whole logic throws exactly when a
    window or aggregation node of the strategy holds a [null] column
    entry; the filter tree and the effect never make it throw.
    [getPropertySummary] throws with it, and so does
    [validateProperties]. *)
Theorem property_pass_exceptions :
  forall logic : jsval,
    let strategy := get_opt logic "strategy" in
    let windowNode := get_opt strategy "windowNode" in
    let aggregationNode := get_opt strategy "aggregationNode" in
    let well_formed :=
      no_null_entry (get_opt windowNode "columnsToAdd") /\
      no_null_entry (get_opt aggregationNode "columnsToAdd") /\
      no_null_entry (get_opt aggregationNode "groupByColumns") in
    (returns (Properties.extractAllProperties logic) <-> well_formed) /\
    (returns (Properties.getPropertySummary logic) <-> well_formed) /\
    (forall objectTypeConfig,
        returns (Properties.validateProperties logic objectTypeConfig) -> well_formed).
Proof.
  intros logic strategy windowNode aggregationNode well_formed.
  assert (Hw : truthy windowNode = false ->
               no_null_entry (get_opt windowNode "columnsToAdd"))
    by (intro T; apply falsy_has_no_entries; [exact T | reflexivity]).
  assert (Ha : truthy aggregationNode = false ->
               no_null_entry (get_opt aggregationNode "columnsToAdd") /\
               no_null_entry (get_opt aggregationNode "groupByColumns"))
    by (intro T; split; apply falsy_has_no_entries; first [exact T | reflexivity]).
  assert (Hmain : returns (Properties.extractAllProperties logic) <-> well_formed).
  { split.
    - intros [used Hu]. destruct (truthy strategy) eqn:Ts.
      + destruct (extractAllProperties_steps _ _ Hu Ts) as [p1 [p2 [p3 [_ [H2 [H3 _]]]]]].
        fold strategy in H2, H3. fold windowNode in H2. fold aggregationNode in H3.
        unfold well_formed. split; [| ].
        * destruct (truthy windowNode) eqn:Tw; [| apply Hw; reflexivity].
          apply window_node_returns.
          destruct (Properties.extractPropertiesFromWindowNode windowNode);
            [eexists; reflexivity | discriminate H2].
        * destruct (truthy aggregationNode) eqn:Ta; [| apply Ha; reflexivity].
          apply aggregation_node_returns.
          destruct (Properties.extractPropertiesFromAggregationNode aggregationNode);
            [eexists; reflexivity | discriminate H3].
      + assert (Ew : windowNode = VUndefined)
          by (apply falsy_reads_undefined; [exact Ts | reflexivity | discriminate]).
        assert (Ea : aggregationNode = VUndefined)
          by (apply falsy_reads_undefined; [exact Ts | reflexivity | discriminate]).
        unfold well_formed. rewrite Ew, Ea. repeat split; constructor.
    - intros [W [A1 A2]]. apply extractAllProperties_returns.
      + intros _. apply window_node_returns, W.
      + intros _. apply aggregation_node_returns. split; assumption. }
  split; [exact Hmain |]. split.
  - rewrite <- Hmain. unfold Properties.getPropertySummary. split.
    + intros [s Hs]. destruct (Properties.extractAllProperties logic);
        [eexists; reflexivity | discriminate Hs].
    + intros [used Hu]. rewrite Hu. eexists. reflexivity.
  - intros cfg [r Hr]. apply Hmain. unfold Properties.validateProperties in Hr.
    destruct (Properties.extractAllProperties logic);
      [eexists; reflexivity | discriminate Hr].
Qed.

Lemma property_pass_exceptions_witness :
  returns (Properties.extractAllProperties unknown_property_logic) /\
  (returns (Properties.validateProperties wrong_version_logic
              (objectType sample_workflow)) -> False).
Proof.
  split.
  - apply (proj1 (property_pass_exceptions unknown_property_logic)).
    repeat split; apply Forall_nil.
  - intro H.
    destruct (property_pass_exceptions wrong_version_logic) as [_ [_ Hv]].
    destruct (Hv _ H) as [W _]. unfold no_null_entry in W. simpl in W.
    inversion W as [| ? ? N _]. discriminate N.
Defined.

(** ** schema.ts: what the structure pass accepts *)

Lemma push_nonempty {A : Type} (l : list A) x : push l x <> [].
Proof. unfold push. destruct l; discriminate. Qed.

Lemma push_if_empty c text l : push_if c text l = [] <-> c = false /\ l = [].
Proof.
  unfold push_if. destruct c.
  - split; [intro H; destruct (push_nonempty _ _ H) | intros [H _]; discriminate H].
  - split; [auto | tauto].
Qed.

Lemma is_object_truthy v : is_object v -> truthy v = true.
Proof. apply object_is_truthy. Qed.

Lemma string_is_text v s : v = VStr s -> ToString v = Ok s.
Proof. intros ->. reflexivity. Qed.

(** The strategy check leaves no error exactly when it started with
    none, the type of the strategy is a supported string, its node is
    there, and a filter node has no [type] key. *)
Lemma checkStrategy_empty cfg strategy errors :
  truthy strategy = true ->
  Schema.checkStrategy cfg strategy errors = Ok []
  <-> errors = [] /\
      exists strategyType,
        get_opt strategy "type" = VStr strategyType /\
        In strategyType (supportedStrategyTypes cfg) /\
        (strategyType <> EmptyString -> truthy (get_opt strategy strategyType) = true) /\
        (strategyType = "filterNode" ->
         has_property "type" (get_opt strategy "filterNode") = Ok false).
Proof.
  intro Ts. unfold Schema.checkStrategy.
  rewrite !(get_truthy _ _ Ts). cbn [bind].
  destruct (includes_str (supportedStrategyTypes cfg) (get_opt strategy "type")) eqn:Es.
  - destruct (includes_str_string _ _ Es) as [t [Et Hin]]. rewrite Et.
    cbn [negb bind]. change (ToString (VStr t)) with (Ok t). cbn [bind].
    rewrite (get_truthy _ _ Ts). cbn [bind].
    change (truthy (VStr t)) with (negb (t =? EmptyString)).
    change (strict_equals (VStr t) (VStr "filterNode")) with (t =? "filterNode").
    destruct (String.eqb_spec t EmptyString) as [Ee | Ee]; cbn [negb bind].
    + subst t. change ("" =? "filterNode") with false. cbv iota. split.
      * intro H. injection H as ->. split; [reflexivity |].
        exists EmptyString.
        refine (conj eq_refl (conj Hin (conj _ _))); [intro Hc; destruct (Hc eq_refl) | discriminate].
      * intros [-> _]. reflexivity.
    + destruct (truthy (get_opt strategy t)) eqn:Tn; cbn [negb bind].
      * destruct (String.eqb_spec t "filterNode") as [Ef | Ef].
        -- subst t. rewrite Tn.
           destruct (has_property "type" (get_opt strategy "filterNode")) as [b |] eqn:Hp;
             cbn [bind].
           ++ split.
              ** intro H. injection H as H. apply push_if_empty in H.
                 destruct H as [-> ->]. split; [reflexivity |].
                 exists "filterNode".
                 exact (conj eq_refl (conj Hin (conj (fun _ => Tn) (fun _ => eq_refl)))).
              ** intros [-> [t' [Et' [_ [_ Hf]]]]]. injection Et' as <-.
                 specialize (Hf eq_refl). injection Hf as ->. reflexivity.
           ++ split; [discriminate |].
              intros [_ [t' [Et' [_ [_ Hf]]]]]. injection Et' as <-.
              specialize (Hf eq_refl). discriminate Hf.
        -- split.
           ++ intro H. injection H as ->. split; [reflexivity |].
              exists t.
              exact (conj eq_refl (conj Hin (conj (fun _ => Tn)
                       (fun Hc => False_ind _ (Ef Hc))))).
           ++ intros [-> _]. reflexivity.
      * assert (Hno : forall l, l <> [] ->
                  (if t =? "filterNode"
                   then filterNode <- Ok (get_opt strategy "filterNode") ;;
                        (if truthy filterNode
                         then has_type <- has_property "type" filterNode ;;
                              Ok (push_if has_type
                                    "filterNode should NOT have a type field (type goes in strategy)"
                                    l)
                         else Ok l)
                   else Ok l) <> Ok []).
        { intros l Hl. destruct (t =? "filterNode"); cbn [bind];
            [| intro H; injection H as H; contradiction].
          destruct (truthy (get_opt strategy "filterNode"));
            [| intro H; injection H as H; contradiction].
          destruct (has_property "type" (get_opt strategy "filterNode")); cbn [bind];
            [| discriminate].
          intro H. injection H as H. apply push_if_empty in H. tauto. }
        split.
        -- intro H. exfalso. exact (Hno _ (push_nonempty _ _) H).
        -- intros [_ [t' [Et' [_ [Hn _]]]]]. injection Et' as <-.
           specialize (Hn Ee). congruence.
  - cbn [negb].
    assert (Hno : Schema.checkStrategy cfg strategy errors <> Ok []).
    { unfold Schema.checkStrategy. rewrite !(get_truthy _ _ Ts). cbn [bind].
      rewrite Es. cbn [negb].
      destruct (ToString (get_opt strategy "type")) as [text |]; cbn [bind];
        [| discriminate].
      set (e1 := push errors _).
      assert (N1 : e1 <> []) by apply push_nonempty. clearbody e1.
      destruct (truthy (get_opt strategy "type")); cbn [bind].
      - rewrite (get_truthy _ _ Ts). cbn [bind].
        pose (e2 := if negb (truthy (get_opt strategy text))
                    then push e1 ("strategy." ++ text ++ " is required when type is '"
                                  ++ text ++ "'")
                    else e1).
        assert (N2 : e2 <> [])
          by (unfold e2; destruct (negb _); [apply push_nonempty | exact N1]).
        replace (if negb (truthy (get_opt strategy text))
                 then Ok (push e1 ("strategy." ++ text ++ " is required when type is '"
                                   ++ text ++ "'"))
                 else Ok e1) with (Ok e2)
          by (unfold e2; destruct (negb _); reflexivity).
        clearbody e2. cbn [bind].
        destruct (strict_equals _ _); [| intro H; injection H as H; contradiction].
        destruct (truthy (get_opt strategy "filterNode"));
          [| intro H; injection H as H; contradiction].
        destruct (has_property "type" (get_opt strategy "filterNode")); cbn [bind];
          [| discriminate].
        intro H. injection H as H. apply push_if_empty in H. tauto.
      - destruct (strict_equals _ _); [| intro H; injection H as H; contradiction].
        cbn [bind].
        destruct (truthy (get_opt strategy "filterNode"));
          [| intro H; injection H as H; contradiction].
        destruct (has_property "type" (get_opt strategy "filterNode")); cbn [bind];
          [| discriminate].
        intro H. injection H as H. apply push_if_empty in H. tauto. }
    unfold Schema.checkStrategy in Hno. rewrite !(get_truthy _ _ Ts) in Hno.
    cbn [bind] in Hno. rewrite Es in Hno. cbn [negb] in Hno.
    split; [intro H; contradiction |].
    intros [_ [t [Et [Hin _]]]]. rewrite Et in Es.
    apply includes_str_In in Hin. congruence.
Qed.

Lemma checkEffect_empty effect errors :
  truthy effect = true ->
  Schema.checkEffect effect errors = Ok []
  <-> errors = [] /\
      get_opt effect "type" = VStr "v2" /\
      is_object (get_opt effect "v2") /\
      truthy (get_opt (get_opt effect "v2") "outputAndVersion") = true.
Proof.
  intro Te. unfold Schema.checkEffect, is_object.
  rewrite !(get_truthy _ _ Te). cbn [bind].
  destruct (strict_equals (get_opt effect "type") (VStr "v2")) eqn:Et; cbn [negb bind].
  - apply strict_equals_string in Et.
    destruct (negb (truthy (get_opt effect "v2"))
              || negb (typeof (get_opt effect "v2") =? "object")) eqn:Ev.
    + split.
      * intro H. injection H as H. destruct (push_nonempty _ _ H).
      * intros [_ [_ [H _]]]. discriminate H.
    + rewrite (get_truthy _ _ (object_is_truthy _ Ev)). cbn [bind].
      split.
      * intro H. injection H as H. apply push_if_empty in H. destruct H as [Ho ->].
        apply Bool.negb_false_iff in Ho. auto.
      * intros [-> [_ [_ Ho]]]. rewrite Ho. reflexivity.
  - split.
    + intro H. exfalso.
      destruct (ToString (get_opt effect "type")); cbn [bind] in H; [| discriminate H].
      set (e1 := push errors _) in H.
      assert (N1 : e1 <> []) by apply push_nonempty. clearbody e1.
      destruct (negb (truthy (get_opt effect "v2"))
                || negb (typeof (get_opt effect "v2") =? "object")) eqn:Ev.
      * injection H as H. destruct (push_nonempty _ _ H).
      * rewrite (get_truthy _ _ (object_is_truthy _ Ev)) in H. cbn [bind] in H.
        injection H as H. apply push_if_empty in H. tauto.
    + intros [_ [Ht _]]. apply strict_equals_string in Ht. congruence.
Qed.

Lemma length_is_zero {A : Type} (l : list A) : (List.length l =? 0)%nat = true <-> l = [].
Proof. destruct l; simpl; split; congruence. Qed.

Lemma nonempty_string v :
  negb (truthy v) || negb (typeof v =? "string") = false ->
  exists s, v = VStr s /\ s <> EmptyString.
Proof.
  destruct v as [| | b | n | s | l | fs |]; try discriminate;
    try (intro H; apply Bool.orb_false_elim in H; destruct H as [_ H]; discriminate H).
  intro H. exists s. split; [reflexivity |]. intros ->. discriminate H.
Qed.

(** The structure pass gives the empty error list exactly on a
    well-structured logic. *)
Lemma structure_errors_empty logic cfg :
  (exists r, Schema.validateRuleLogic logic cfg = Ok r /\ Schema.errors r = [])
  <-> well_structured logic cfg.
Proof.
  unfold well_structured, Schema.validateRuleLogic. fold (is_object logic).
  unfold is_object at 1 2.
  destruct (negb (truthy logic) || negb (typeof logic =? "object")) eqn:El.
  - split.
    + intros [r [H He]]. injection H as <-. discriminate He.
    + intros [H _]. discriminate H.
  - pose proof (object_is_truthy _ El) as Tl.
    rewrite !(get_truthy _ _ Tl). cbn [bind].
    set (strategy := get_opt logic "strategy").
    set (effect := get_opt logic "effect").
    (* each stage only adds errors *)
    assert (Hs : forall e0 e1,
               (if negb (truthy strategy) || negb (typeof strategy =? "object")
                then Ok (push e0 "strategy is required and must be an object")
                else Schema.checkStrategy cfg strategy e0) = Ok e1 ->
               e1 = [] ->
               e0 = [] /\ is_object strategy /\
               exists strategyType,
                 get_opt strategy "type" = VStr strategyType /\
                 In strategyType (supportedStrategyTypes cfg) /\
                 (strategyType <> EmptyString ->
                  truthy (get_opt strategy strategyType) = true) /\
                 (strategyType = "filterNode" ->
                  has_property "type" (get_opt strategy "filterNode") = Ok false)).
    { intros e0 e1 H ->. unfold is_object.
      destruct (negb (truthy strategy) || negb (typeof strategy =? "object")) eqn:Es.
      - injection H as H. destruct (push_nonempty _ _ H).
      - apply (checkStrategy_empty _ _ _ (object_is_truthy _ Es)) in H.
        destruct H as [-> H]. auto. }
    assert (Hf : forall e0 e1,
               (if negb (truthy effect) || negb (typeof effect =? "object")
                then Ok (push e0 "effect is required and must be an object")
                else Schema.checkEffect effect e0) = Ok e1 ->
               e1 = [] ->
               e0 = [] /\ is_object effect /\
               get_opt effect "type" = VStr "v2" /\
               is_object (get_opt effect "v2") /\
               truthy (get_opt (get_opt effect "v2") "outputAndVersion") = true).
    { intros e0 e1 H ->. unfold is_object at 1.
      destruct (negb (truthy effect) || negb (typeof effect =? "object")) eqn:Ee.
      - injection H as H. destruct (push_nonempty _ _ H).
      - apply (checkEffect_empty _ _ (object_is_truthy _ Ee)) in H.
        destruct H as [-> H]. auto. }
    split.
    + intros [r [H He]].
      destruct (strict_equals (get_opt logic "grammarVersion") (VStr (grammarVersion cfg)))
        eqn:Eg; cbn [negb bind] in H.
      * apply strict_equals_string in Eg.
        match type of H with
        | bind ?c _ = _ => destruct c as [e1 |] eqn:E1; cbn [bind] in H; [| discriminate H]
        end.
        match type of H with
        | bind ?c _ = _ => destruct c as [e2 |] eqn:E2; cbn [bind] in H; [| discriminate H]
        end.
        injection H as <-. cbn [Schema.errors] in He.
        destruct (Hf _ _ E2 He) as [-> Hfacts].
        destruct (Hs _ _ E1 eq_refl) as [Hr [Hso Hsf]].
        apply push_if_empty in Hr. destruct Hr as [Hr _].
        refine (conj eq_refl (conj Eg (conj _ (conj Hso (conj Hsf Hfacts))))).
        exact (nonempty_string _ Hr).
      * exfalso.
        destruct (ToString (get_opt logic "grammarVersion")); cbn [bind] in H;
          [| discriminate H].
        match type of H with
        | bind ?c _ = _ => destruct c as [e1 |] eqn:E1; cbn [bind] in H; [| discriminate H]
        end.
        match type of H with
        | bind ?c _ = _ => destruct c as [e2 |] eqn:E2; cbn [bind] in H; [| discriminate H]
        end.
        injection H as <-. cbn [Schema.errors] in He.
        destruct (Hf _ _ E2 He) as [-> _].
        destruct (Hs _ _ E1 eq_refl) as [Hr _].
        apply push_if_empty in Hr. destruct Hr as [_ Hr].
        destruct (push_nonempty _ _ Hr).
    + intros [_ [Eg [[s [Er Hne]] [Hso [Hsf [Heo Hef]]]]]].
      rewrite Eg.
      change (strict_equals (VStr (grammarVersion cfg)) (VStr (grammarVersion cfg)))
        with (grammarVersion cfg =? grammarVersion cfg).
      rewrite String.eqb_refl. cbn [negb bind].
      rewrite Er.
      apply String.eqb_neq in Hne.
      assert (Hp : push_if (negb (truthy (VStr s)) || negb (typeof (VStr s) =? "string"))
                     "workflowRid is required and must be a string" [] = []).
      { change (truthy (VStr s)) with (negb (s =? EmptyString)). rewrite Hne. reflexivity. }
      rewrite Hp.
      unfold is_object in Hso, Heo. rewrite Hso, Heo.
      rewrite (proj2 (checkStrategy_empty cfg strategy [] (object_is_truthy _ Hso))
                 (conj eq_refl Hsf)).
      cbn [bind].
      rewrite (proj2 (checkEffect_empty effect [] (object_is_truthy _ Heo))
                 (conj eq_refl Hef)).
      cbn [bind]. eexists. split; reflexivity.
Qed.

(** The flag of the structure pass says that there is no error, and the
    pass never gives warnings. *)
Lemma structure_result_shape logic cfg r :
  Schema.validateRuleLogic logic cfg = Ok r ->
  (Schema.valid r = true <-> Schema.errors r = []) /\ Schema.warnings r = None.
Proof.
  unfold Schema.validateRuleLogic.
  destruct (negb (truthy logic) || negb (typeof logic =? "object")).
  - intro H. injection H as <-. cbn. split; [split; discriminate | reflexivity].
  - intro H.
    repeat match type of H with
           | bind ?c _ = _ => destruct c; cbn [bind] in H; [| discriminate H]
           end.
    injection H as <-. cbn [Schema.valid Schema.errors Schema.warnings].
    split; [apply length_is_zero | reflexivity].
Qed.

(** X16.  [validateRuleLogic] accepts exactly the well-structured logics: on
    such a logic it returns the valid result without errors or warnings,
    and whenever it returns, its flag is set exactly when the logic is
    well structured, which is exactly when the error list is empty; it
    never gives warnings. *)
Theorem structure_pass_accepts :
  forall (logic : jsval) (cfg : ValidationConfig),
    (well_structured logic cfg ->
     Schema.validateRuleLogic logic cfg
     = Ok {| Schema.valid := true; Schema.errors := []; Schema.warnings := None |}) /\
    (forall r,
        Schema.validateRuleLogic logic cfg = Ok r ->
        (Schema.valid r = true <-> well_structured logic cfg) /\
        (Schema.valid r = true <-> Schema.errors r = []) /\
        Schema.warnings r = None).
Proof.
  intros logic cfg. split.
  - intro Hw. apply structure_errors_empty in Hw. destruct Hw as [r [Hr He]].
    destruct (structure_result_shape _ _ _ Hr) as [Hv Hn].
    apply Hv in He. rewrite Hr. destruct r as [v e w].
    cbn in He, Hn, Hv. subst v w.
    destruct Hv as [Hv _]. rewrite (Hv eq_refl). reflexivity.
  - intros r Hr. destruct (structure_result_shape _ _ _ Hr) as [Hv Hn].
    split; [| split; assumption].
    rewrite Hv. split.
    + intro He. apply structure_errors_empty. exists r. split; assumption.
    + intro Hw. apply structure_errors_empty in Hw. destruct Hw as [r' [Hr' He]].
      congruence.
Qed.

Lemma structure_pass_accepts_witness :
  Schema.validateRuleLogic unknown_property_logic sample_validation
  = Ok {| Schema.valid := true; Schema.errors := []; Schema.warnings := None |}.
Proof.
  apply (proj1 (structure_pass_accepts unknown_property_logic sample_validation)).
  unfold well_structured, is_object.
  refine (conj eq_refl (conj eq_refl (conj _ (conj eq_refl (conj _
            (conj eq_refl (conj eq_refl (conj eq_refl eq_refl)))))))).
  - exists "ri.taurus.main.workflow.test-123". split; [reflexivity | discriminate].
  - exists "filterNode".
    refine (conj eq_refl (conj _ (conj (fun _ => eq_refl) (fun _ => eq_refl)))).
    simpl. auto.
Defined.

(** X17.  A filter node that is a truthy primitive (a number, a non-empty
    string, [true]) is not reported as an error: on an object whose
    grammar version can be printed and whose strategy has the type
    [filterNode], the structure pass throws a [TypeError] from the [in]
    test. *)
Theorem structure_pass_type_error :
  forall (logic : jsval) (cfg : ValidationConfig),
    let strategy := get_opt logic "strategy" in
    let filterNode := get_opt strategy "filterNode" in
    is_object logic ->
    printable (get_opt logic "grammarVersion") ->
    is_object strategy ->
    get_opt strategy "type" = VStr "filterNode" ->
    truthy filterNode = true ->
    typeof filterNode <> "object" ->
    typeof filterNode <> "function" ->
    exists text, Schema.validateRuleLogic logic cfg = Throw (TypeError text).
Proof.
  intros logic cfg strategy filterNode Hl [g Hg] Hs Ht Tf No Nf.
  assert (Hin : exists text, has_property "type" filterNode = Throw (TypeError text)).
  { destruct filterNode; try (eexists; reflexivity);
      [destruct (No eq_refl) | destruct (No eq_refl) | destruct (Nf eq_refl)]. }
  destruct Hin as [text Hin]. exists text.
  unfold Schema.validateRuleLogic. unfold is_object in Hl, Hs. rewrite Hl.
  pose proof (object_is_truthy _ Hl) as Tl.
  pose proof (object_is_truthy _ Hs) as Ts.
  rewrite !(get_truthy _ _ Tl). cbn [bind]. rewrite Hg.
  fold strategy. rewrite Hs.
  assert (Hc : forall e, Schema.checkStrategy cfg strategy e = Throw (TypeError text)).
  { intro e. unfold Schema.checkStrategy. rewrite !(get_truthy _ _ Ts). cbn [bind].
    rewrite Ht. change (ToString (VStr "filterNode")) with (Ok "filterNode").
    change (truthy (VStr "filterNode")) with true.
    change (strict_equals (VStr "filterNode") (VStr "filterNode")) with true.
    cbv iota.
    destruct (negb (includes_str (supportedStrategyTypes cfg) (VStr "filterNode")));
      cbn [bind]; rewrite ?(get_truthy _ _ Ts); cbn [bind]; fold filterNode;
      rewrite Tf; cbn [negb bind]; rewrite Hin; reflexivity. }
  destruct (negb (strict_equals (get_opt logic "grammarVersion")
                    (VStr (grammarVersion cfg)))); cbn [bind]; rewrite Hc; reflexivity.
Qed.

Lemma structure_pass_type_error_witness :
  exists text,
    Schema.validateRuleLogic primitive_filter_logic sample_validation
    = Throw (TypeError text).
Proof.
  apply (structure_pass_type_error primitive_filter_logic sample_validation);
    try reflexivity; try discriminate.
  exists "V1". reflexivity.
Defined.

(** ** What a valid verdict stands for *)

Lemma checkProperty_clean cfg valid used : forall errors,
  forEach (Properties.checkProperty cfg valid) used errors = Ok [] ->
  errors = [] /\ forall p, In p used -> includes_str valid p = true.
Proof.
  induction used as [| q used IH]; intros errors H; cbn [forEach] in H.
  - injection H as ->. split; [reflexivity | intros p []].
  - destruct (Properties.checkProperty cfg valid errors q) as [e1 |] eqn:E1;
      cbn [bind] in H; [| discriminate H].
    destruct (IH _ H) as [-> Hall]. unfold Properties.checkProperty in E1.
    destruct (includes_str valid q) eqn:Eq; cbn [negb] in E1.
    + injection E1 as ->. split; [reflexivity |].
      intros p [<- | Hp]; [exact Eq | apply Hall, Hp].
    + destruct (ToString q); cbn [bind] in E1; [| discriminate E1].
      injection E1 as E1. destruct (push_nonempty _ _ E1).
Qed.

Lemma validateProperties_clean logic cfg r :
  Properties.validateProperties logic cfg = Ok r ->
  Properties.valid r = true ->
  Properties.errors r = [] /\
  exists used,
    Properties.extractAllProperties logic = Ok used /\
    forall p, In p used -> includes_str (map property_id (properties cfg)) p = true.
Proof.
  unfold Properties.validateProperties. intros H Hv.
  destruct (Properties.extractAllProperties logic) as [used |];
    cbn [bind] in H; [| discriminate H].
  destruct (forEach _ used []) as [errors |] eqn:E; cbn [bind] in H; [| discriminate H].
  injection H as <-. cbn [Properties.valid Properties.errors] in *.
  apply length_is_zero in Hv. subst errors.
  split; [reflexivity |]. exists used. split; [reflexivity |].
  exact (proj2 (checkProperty_clean _ _ _ _ E)).
Qed.

Lemma checkStringFilter_clean cfg types : forall errors warnings warnings',
  forEach (Filters.checkStringFilter cfg) types (errors, warnings) = Ok ([], warnings') ->
  errors = [] /\
  forall t, In t types -> includes_str (unsupportedStringFilters cfg) t = false.
Proof.
  induction types as [| q types IH]; intros errors warnings warnings' H;
    cbn [forEach] in H.
  - injection H as -> _. split; [reflexivity | intros t []].
  - destruct (Filters.checkStringFilter cfg (errors, warnings) q) as [[e1 w1] |] eqn:E1;
      cbn [bind] in H; [| discriminate H].
    destruct (IH _ _ _ H) as [-> Hall]. unfold Filters.checkStringFilter in E1.
    destruct (includes_str (unsupportedStringFilters cfg) q) eqn:Eq.
    + destruct (ToString q); cbn [bind] in E1; [| discriminate E1].
      injection E1 as E1 _. destruct (push_nonempty _ _ E1).
    + assert (He : errors = []).
      { destruct (negb (includes_str (supportedStringFilters cfg) q)).
        - destruct (ToString q); cbn [bind] in E1; [| discriminate E1].
          injection E1 as E1 _. exact E1.
        - injection E1 as E1 _. exact E1. }
      split; [exact He |]. intros t [<- | Ht]; [exact Eq | apply Hall, Ht].
Qed.

Lemma validateFilterTypes_clean logic cfg r :
  Filters.validateFilterTypes logic cfg = Ok r ->
  Filters.valid r = true ->
  Filters.errors r = [] /\
  exists types,
    Filters.extractStringFilterTypes (filterOf logic) = Ok types /\
    forall t, In t types -> includes_str (unsupportedStringFilters cfg) t = false.
Proof.
  unfold Filters.validateFilterTypes. fold (filterOf logic). intros H Hv.
  destruct (Filters.extractStringFilterTypes (filterOf logic)) as [types |];
    cbn [bind] in H; [| discriminate H].
  destruct (Filters.extractNumericFilterTypes (filterOf logic));
    cbn [bind] in H; [| discriminate H].
  destruct (Filters.extractNullFilterTypes (filterOf logic));
    cbn [bind] in H; [| discriminate H].
  destruct (forEach _ types ([], [])) as [[errors warnings] |] eqn:E;
    cbn [bind] in H; [| discriminate H].
  repeat match type of H with
         | bind ?c _ = _ => destruct c; cbn [bind] in H; [| discriminate H]
         end.
  injection H as <-. cbn [Filters.valid Filters.errors] in *.
  apply length_is_zero in Hv. subst errors.
  split; [reflexivity |]. exists types. split; [reflexivity |].
  exact (proj2 (checkStringFilter_clean _ _ _ _ _ E)).
Qed.

(** A truthy read of a key that no prototype has comes from a truthy
    value. *)
Lemma truthy_read v k :
  mem k object_prototype = false ->
  k <> "length" ->
  truthy (get_opt v k) = true ->
  truthy v = true.
Proof.
  intros Hk Hl Ht. destruct (truthy v) eqn:Tv; [reflexivity |].
  rewrite (falsy_reads_undefined v k Tv Hk Hl) in Ht. discriminate Ht.
Qed.

Lemma mentions_in_truthy take p filter : mentions take p filter -> truthy filter = true.
Proof.
  intro H. destruct H as [filter Hc _ _ | filter l sub Hf _ _ | filter l sub Hf _ _
                         | filter Hn _].
  - exact (truthy_read filter "columnFilterRule" eq_refl ltac:(discriminate) Hc).
  - apply filters_on_truthy in Hf.
    exact (truthy_read filter "orFilterRule" eq_refl ltac:(discriminate) Hf).
  - apply filters_on_truthy in Hf.
    exact (truthy_read filter "andFilterRule" eq_refl ltac:(discriminate) Hf).
  - exact (truthy_read filter "notFilterRule" eq_refl ltac:(discriminate) Hn).
Qed.

(** What the three passes have checked when each of them accepts. *)
Lemma passes_sound logic config sr pr fr :
  Schema.validateRuleLogic logic (validation config) = Ok sr ->
  Schema.valid sr = true ->
  Properties.validateProperties logic (objectType (workflow config)) = Ok pr ->
  Properties.valid pr = true ->
  Filters.validateFilterTypes logic (validation config) = Ok fr ->
  Filters.valid fr = true ->
  well_structured logic (validation config) /\
  uses_only (map property_id (properties (objectType (workflow config)))) logic /\
  avoids (unsupportedStringFilters (validation config)) logic /\
  Schema.errors sr = [] /\ Properties.errors pr = [] /\ Filters.errors fr = [].
Proof.
  intros Hsr Vs Hpr Vp Hfr Vf.
  destruct (structure_result_shape _ _ _ Hsr) as [Hse _].
  pose proof (proj1 Hse Vs) as Es.
  assert (Hw : well_structured logic (validation config)).
  { apply structure_errors_empty. exists sr. split; assumption. }
  destruct (validateProperties_clean _ _ _ Hpr Vp) as [Ep [used [Hu Hd]]].
  destruct (validateFilterTypes_clean _ _ _ Hfr Vf) as [Ef [types [Ht Hn]]].
  assert (Ts : truthy (get_opt logic "strategy") = true).
  { destruct Hw as [_ [_ [_ [Hso _]]]]. apply object_is_truthy, Hso. }
  split; [exact Hw |]. split; [| split; [| auto]].
  - split.
    + intros p Hm. apply includes_str_string, Hd.
      refine (extractAllProperties_filter logic used p Hu _ Hm).
      apply mentions_in_truthy in Hm.
      exact (truthy_read _ "filter" eq_refl ltac:(discriminate) Hm).
    + intros entry Hin Hty Hp. apply includes_str_string, Hd.
      exact (extractAllProperties_parameter logic used entry Hu Ts Hin Hty Hp).
  - intros t Hm s -> Hin.
    destruct (extract_mentions _ (operatorOf "stringColumnFilter")
                (columnFilterType_takes "stringColumnFilter") _ _ Hm) as [ps [Hps Hi]].
    unfold Filters.extractStringFilterTypes in Ht. rewrite Hps in Ht.
    injection Ht as <-. apply Hn in Hi. apply includes_str_In in Hin. congruence.
Qed.

(** The steps of a run of [performFullValidation] that returns. *)
Lemma full_validation_steps logic config r console :
  Cli.performFullValidation logic config = Ok (r, console) ->
  exists sr,
    Schema.validateRuleLogic logic (validation config) = Ok sr /\
    ((Schema.valid sr = false /\ r = stopped (Schema.errors sr)) \/
     (Schema.valid sr = true /\
      exists pr fr (m1 m2 : bool),
        Properties.validateProperties logic (objectType (workflow config)) = Ok pr /\
        Filters.validateFilterTypes logic (validation config) = Ok fr /\
        m1 = truthy (Schema.extractWorkflowRid logic)
             && negb (strict_equals (Schema.extractWorkflowRid logic)
                        (VStr (workflowRid (workflow config)))) /\
        m2 = truthy (Schema.extractObjectTypeId logic)
             && negb (strict_equals (Schema.extractObjectTypeId logic)
                        (VStr (objectType_id (objectType (workflow config))))) /\
        Cli.valid r = negb m1 && negb m2 && Properties.valid pr && Filters.valid fr /\
        (exists mismatches,
            Cli.structureErrors r = (Schema.errors sr ++ mismatches)%list /\
            (mismatches = [] <-> m1 = false /\ m2 = false)) /\
        Cli.propertyErrors r = Properties.errors pr /\
        Cli.filterErrors r = Filters.errors fr /\
        Cli.filterWarnings r = Filters.warnings fr)).
Proof.
  unfold Cli.performFullValidation. intro H.
  destruct (Schema.validateRuleLogic logic (validation config)) as [sr |];
    cbn [bind] in H; [| discriminate H].
  exists sr. split; [reflexivity |].
  destruct (Schema.valid sr) eqn:Vs; cbn [negb] in H.
  - right. split; [reflexivity |].
    set (m1 := truthy (Schema.extractWorkflowRid logic)
               && negb (strict_equals (Schema.extractWorkflowRid logic)
                          (VStr (workflowRid (workflow config))))) in *.
    set (m2 := truthy (Schema.extractObjectTypeId logic)
               && negb (strict_equals (Schema.extractObjectTypeId logic)
                          (VStr (objectType_id (objectType (workflow config)))))) in *.
    match type of H with
    | bind ?c _ = _ => destruct c as [l1 |] eqn:E1; cbn [bind] in H; [| discriminate H]
    end.
    match type of H with
    | bind ?c _ = _ => destruct c as [l2 |] eqn:E2; cbn [bind] in H; [| discriminate H]
    end.
    destruct (Properties.getPropertySummary logic); cbn [bind] in H; [| discriminate H].
    match type of H with
    | bind ?c _ = _ => destruct c; cbn [bind] in H; [| discriminate H]
    end.
    destruct (Properties.validateProperties logic (objectType (workflow config)))
      as [pr |]; cbn [bind] in H; [| discriminate H].
    destruct (Filters.getFilterSummary logic); cbn [bind] in H; [| discriminate H].
    do 3 match type of H with
         | bind ?c _ = _ => destruct c; cbn [bind] in H; [| discriminate H]
         end.
    destruct (Filters.validateFilterTypes logic (validation config)) as [fr |];
      cbn [bind] in H; [| discriminate H].
    injection H as <- _.
    exists pr, fr, m1, m2.
    cbn [Cli.valid Cli.structureErrors Cli.propertyErrors Cli.filterErrors
           Cli.filterWarnings].
    assert (L1 : (List.length l1 =? 0)%nat = negb m1 /\ (l1 = [] <-> m1 = false)).
    { destruct m1.
      - match type of E1 with
        | context [ToString ?a] => destruct (ToString a)
        end; cbn [bind] in E1; [| discriminate E1].
        injection E1 as <-. split; [reflexivity | split; discriminate].
      - injection E1 as <-. split; [reflexivity | split; reflexivity]. }
    assert (L2 : (List.length l2 =? 0)%nat = negb m2 /\ (l2 = [] <-> m2 = false)).
    { destruct m2.
      - match type of E2 with
        | context [ToString ?a] => destruct (ToString a)
        end; cbn [bind] in E2; [| discriminate E2].
        injection E2 as <-. split; [reflexivity | split; discriminate].
      - injection E2 as <-. split; [reflexivity | split; reflexivity]. }
    destruct L1 as [L1 M1]. destruct L2 as [L2 M2].
    refine (conj eq_refl (conj eq_refl (conj eq_refl (conj eq_refl (conj _ (conj _
              (conj eq_refl (conj eq_refl eq_refl)))))))).
    + rewrite L1, L2. reflexivity.
    + exists (l1 ++ l2)%list. split; [symmetry; apply List.app_assoc |].
      rewrite <- M1, <- M2. split.
      * intro Ha. apply List.app_eq_nil in Ha. exact Ha.
      * intros [-> ->]. reflexivity.
  - left. split; [reflexivity |]. injection H as <- _. reflexivity.
Qed.

(** X18.  A valid verdict is sound.  When [performFullValidation] returns
    a valid result, the logic is well structured, its workflow RID is
    that of the configuration, the object type it names (if any) is that
    of the configuration, every property its filter tree or a column
    parameter of its effect uses is declared, no string operator of its
    filter tree is unsupported, and the three error lists are empty.
    A valid result of [validateProposal] stands for the same, but for the
    two identifiers, which it does not compare. *)
Theorem valid_verdict_sound :
  forall (logic : jsval) (config : ResolvedConfig),
    let declared := map property_id (properties (objectType (workflow config))) in
    let checked (r : Cli.FullValidationResult) :=
      well_structured logic (validation config) /\
      uses_only declared logic /\
      avoids (unsupportedStringFilters (validation config)) logic /\
      Cli.structureErrors r = [] /\ Cli.propertyErrors r = [] /\ Cli.filterErrors r = [] in
    (forall r console,
        Cli.performFullValidation logic config = Ok (r, console) ->
        Cli.valid r = true ->
        checked r /\
        get_opt logic "workflowRid" = VStr (workflowRid (workflow config)) /\
        (truthy (Schema.extractObjectTypeId logic) = true ->
         Schema.extractObjectTypeId logic
         = VStr (objectType_id (objectType (workflow config))))) /\
    (forall proposal r,
        Library.proposalLogic proposal config = inl logic ->
        Library.validateProposal proposal config = Ok r ->
        Cli.valid r = true ->
        checked r).
Proof.
  intros logic config declared checked. split.
  - intros r console H Hv.
    destruct (full_validation_steps _ _ _ _ H) as [sr [Hsr [[_ ->] | [Vs Hrest]]]];
      [discriminate Hv |].
    destruct Hrest as [pr [fr [m1 [m2 [Hpr [Hfr [E1 [E2 [Ev [[ms [Hse Hms]]
                         [Hpe [Hfe _]]]]]]]]]]]].
    rewrite Hv in Ev. symmetry in Ev.
    apply Bool.andb_true_iff in Ev. destruct Ev as [Ev Vf].
    apply Bool.andb_true_iff in Ev. destruct Ev as [Ev Vp].
    apply Bool.andb_true_iff in Ev. destruct Ev as [N1 N2].
    apply Bool.negb_true_iff in N1, N2.
    destruct (passes_sound _ _ _ _ _ Hsr Vs Hpr Vp Hfr Vf)
      as [Hw [Hu [Ha [Es [Ep Ef]]]]].
    split; [| split].
    + unfold checked. refine (conj Hw (conj Hu (conj Ha (conj _ (conj _ _))))).
      * rewrite Hse, Es, (proj2 Hms (conj N1 N2)). reflexivity.
      * congruence.
      * congruence.
    + destruct Hw as [Hl [_ [[rid [Hr Hne]] _]]].
      assert (Hx : Schema.extractWorkflowRid logic = VStr rid).
      { unfold Schema.extractWorkflowRid. unfold is_object in Hl. rewrite Hl, Hr.
        unfold or_else. rewrite (truthy_string _ Hne). reflexivity. }
      rewrite Hx, (truthy_string _ Hne) in E1. rewrite N1 in E1.
      symmetry in E1. apply Bool.negb_false_iff, strict_equals_string in E1.
      congruence.
    + intro To. rewrite To, N2 in E2. symmetry in E2.
      apply Bool.negb_false_iff, strict_equals_string in E2. exact E2.
  - intros proposal r Hp H Hv. unfold Library.validateProposal in H. rewrite Hp in H.
    destruct (Schema.validateRuleLogic logic (validation config)) as [sr |] eqn:Hsr;
      cbn [bind] in H; [| discriminate H].
    destruct (Schema.valid sr) eqn:Vs; cbn [negb] in H;
      [| injection H as <-; discriminate Hv].
    destruct (Properties.validateProperties logic (objectType (workflow config)))
      as [pr |] eqn:Hpr; cbn [bind] in H; [| discriminate H].
    destruct (Filters.validateFilterTypes logic (validation config))
      as [fr |] eqn:Hfr; cbn [bind] in H; [| discriminate H].
    injection H as <-. cbn [Cli.valid] in Hv.
    apply Bool.andb_true_iff in Hv. destruct Hv as [Vp Vf].
    destruct (passes_sound _ _ _ _ _ Hsr Vs Hpr Vp Hfr Vf)
      as [Hw [Hu [Ha [Es [Ep Ef]]]]].
    unfold checked. cbn [Cli.structureErrors Cli.propertyErrors Cli.filterErrors].
    auto 10.
Qed.

Lemma valid_verdict_sound_witness :
  get_opt valid_logic "workflowRid" = VStr "ri.taurus.main.workflow.test-123" /\
  avoids ["REGEX"; "STARTS_WITH"] valid_logic.
Proof.
  destruct (proj1 (valid_verdict_sound valid_logic sample_config) _ _ eq_refl eq_refl)
    as [[_ [_ [Ha _]]] [Hr _]].
  split; [exact Hr | exact Ha].
Defined.

(** X19.  The command line checks what the library checks, and the two
    identifiers besides.  When [performFullValidation] returns on the
    logic of a proposal, [validateProposal] returns too, with the same
    property errors, filter errors and warnings, and its structure
    errors are the first of those of the command line; what the command
    line accepts the library accepts, and a logic that the library
    accepts is refused by the command line exactly when its workflow RID
    or the object type it names is not that of the configuration. *)
Theorem cli_checks_more_than_library :
  forall (proposal : Library.ProposalInput) (config : ResolvedConfig) (logic : jsval)
         (r : Cli.FullValidationResult) (console : list string),
    Library.proposalLogic proposal config = inl logic ->
    Cli.performFullValidation logic config = Ok (r, console) ->
    exists r',
      Library.validateProposal proposal config = Ok r' /\
      Cli.propertyErrors r' = Cli.propertyErrors r /\
      Cli.filterErrors r' = Cli.filterErrors r /\
      Cli.filterWarnings r' = Cli.filterWarnings r /\
      (exists mismatches,
          Cli.structureErrors r = (Cli.structureErrors r' ++ mismatches)%list) /\
      (Cli.valid r = true -> Cli.valid r' = true) /\
      (Cli.valid r' = true ->
       (Cli.valid r = true
        <-> get_opt logic "workflowRid" = VStr (workflowRid (workflow config))
            /\ (truthy (Schema.extractObjectTypeId logic) = true ->
                Schema.extractObjectTypeId logic
                = VStr (objectType_id (objectType (workflow config)))))).
Proof.
  intros proposal config logic r console Hp H.
  destruct (full_validation_steps _ _ _ _ H) as [sr [Hsr [[Vs ->] | [Vs Hrest]]]].
  - exists (stopped (Schema.errors sr)).
    unfold Library.validateProposal. rewrite Hp, Hsr. cbn [bind]. rewrite Vs.
    split; [reflexivity |]. split; [reflexivity |]. split; [reflexivity |].
    split; [reflexivity |]. split; [exists []; symmetry; apply List.app_nil_r |].
    split; [auto |]. intro Hv. discriminate Hv.
  - destruct Hrest as [pr [fr [m1 [m2 [Hpr [Hfr [E1 [E2 [Ev [[ms [Hse Hms]]
                         [Hpe [Hfe Hfw]]]]]]]]]]]].
    eexists. unfold Library.validateProposal. rewrite Hp, Hsr. cbn [bind].
    rewrite Vs, Hpr, Hfr. cbn [negb bind]. split; [reflexivity |].
    cbn [Cli.valid Cli.structureErrors Cli.propertyErrors Cli.filterErrors
           Cli.filterWarnings].
    split; [auto |]. split; [auto |]. split; [auto |].
    split; [exists ms; exact Hse |].
    rewrite Ev. split.
    + intro Hv. apply Bool.andb_true_iff in Hv. destruct Hv as [Hv Vf].
      apply Bool.andb_true_iff in Hv. destruct Hv as [_ Vp]. rewrite Vp, Vf. reflexivity.
    + intro Hv. rewrite <- Bool.andb_assoc, Hv, Bool.andb_true_r.
      assert (Hw : well_structured logic (validation config)).
      { apply structure_errors_empty. exists sr. split; [exact Hsr |].
        apply (structure_result_shape _ _ _ Hsr), Vs. }
      destruct Hw as [Hl [_ [[rid [Hr Hne]] _]]].
      assert (Hx : Schema.extractWorkflowRid logic = VStr rid).
      { unfold Schema.extractWorkflowRid. unfold is_object in Hl. rewrite Hl, Hr.
        unfold or_else. rewrite (truthy_string _ Hne). reflexivity. }
      rewrite Hx, (truthy_string _ Hne) in E1. cbn [andb] in E1.
      rewrite Hr. subst m1 m2.
      rewrite Bool.andb_true_iff, !Bool.negb_true_iff, Bool.negb_false_iff.
      rewrite strict_equals_string.
      destruct (truthy (Schema.extractObjectTypeId logic)); cbn [andb].
      * rewrite Bool.negb_false_iff, strict_equals_string. split.
        -- intros [-> Ho]. auto.
        -- intros [Hq Ho]. split; [exact Hq | apply Ho; reflexivity].
      * split; [intros [-> _]; split; [reflexivity | discriminate] | intros [-> _]; auto].
Qed.

Lemma cli_checks_more_than_library_witness :
  exists r',
    Library.validateProposal
      {| Library.template := None; Library.params := VUndefined;
         Library.logic := valid_logic |} sample_config = Ok r' /\
    Cli.valid r' = true.
Proof.
  destruct (cli_checks_more_than_library
              {| Library.template := None; Library.params := VUndefined;
                 Library.logic := valid_logic |} sample_config valid_logic _ _
              eq_refl eq_refl) as [r' [Hr [_ [_ [_ [_ [Hv _]]]]]]].
  exists r'. split; [exact Hr | exact (Hv eq_refl)].
Defined.

(** ** index.ts: a proposal made from a template *)




(** ** The validators that walk the filter tree *)

Section WalkFacts.

Variable state : Type.
Variable check : state -> jsval -> result state.

(** *** Fuel *)

Lemma walk_all_ext r1 r2 l (st : state) :
  (forall sub st, In sub l -> r1 sub st = r2 sub st) ->
  walk_all r1 l st = walk_all r2 l st.
Proof.
  intro H. unfold walk_all. apply forEach_ext.
  intros x s Hx. apply H, Hx.
Qed.

Lemma walk_filters_ext r1 r2 rule (st : state) :
  (forall sub st, depth sub < depth rule -> r1 sub st = r2 sub st) ->
  walk_filters r1 rule st = walk_filters r2 rule st.
Proof.
  intro H. unfold walk_filters. apply bind_ext. intros filters Hf.
  destruct filters; try reflexivity.
  apply walk_all_ext. intros sub st' Hsub. apply H.
  apply depth_elem in Hsub.
  assert (depth (VArr elems) <= depth rule).
  { destruct rule; try discriminate Hf; simpl in Hf;
      injection Hf as Hf; rewrite <- Hf; apply depth_get_opt. }
  lia.
Qed.

Lemma walk_inner_ext r1 r2 rule (st : state) :
  (forall sub st, depth sub <= depth rule -> r1 sub st = r2 sub st) ->
  walk_inner r1 rule st = walk_inner r2 rule st.
Proof.
  intro H. unfold walk_inner. apply bind_ext. intros inner Hi.
  apply H.
  destruct rule; try discriminate Hi; simpl in Hi;
    injection Hi as Hi; rewrite <- Hi; apply depth_get_opt.
Qed.

Lemma walk_visit_ext r1 r2 filter (st : state) :
  (forall sub st, depth sub < depth filter -> r1 sub st = r2 sub st) ->
  walk_visit check r1 filter st = walk_visit check r2 filter st.
Proof.
  intro H. unfold walk_visit.
  destruct (negb (truthy filter) || negb (typeof filter =? "object")) eqn:E;
    [reflexivity |].
  apply object_is_truthy in E.
  rewrite !(get_truthy _ _ E). cbn [bind].
  assert (Hlt : forall k, rule_name k -> truthy (get_opt filter k) = true ->
                          depth (get_opt filter k) < depth filter)
    by (intros k Hk; apply depth_rule, Hk).
  apply bind_ext. intros st1 _.
  assert (E2 : (if truthy (get_opt filter "orFilterRule")
                then walk_filters r1 (get_opt filter "orFilterRule") st1
                else Ok st1)
               = (if truthy (get_opt filter "orFilterRule")
                  then walk_filters r2 (get_opt filter "orFilterRule") st1
                  else Ok st1)).
  { destruct (truthy (get_opt filter "orFilterRule")) eqn:T; [| reflexivity].
    apply walk_filters_ext. intros sub st' Hs. apply H.
    specialize (Hlt "orFilterRule"). unfold rule_name in Hlt.
    assert (depth (get_opt filter "orFilterRule") < depth filter) by auto. lia. }
  rewrite E2. apply bind_ext. intros st2 _.
  assert (E3 : (if truthy (get_opt filter "andFilterRule")
                then walk_filters r1 (get_opt filter "andFilterRule") st2
                else Ok st2)
               = (if truthy (get_opt filter "andFilterRule")
                  then walk_filters r2 (get_opt filter "andFilterRule") st2
                  else Ok st2)).
  { destruct (truthy (get_opt filter "andFilterRule")) eqn:T; [| reflexivity].
    apply walk_filters_ext. intros sub st' Hs. apply H.
    specialize (Hlt "andFilterRule"). unfold rule_name in Hlt.
    assert (depth (get_opt filter "andFilterRule") < depth filter) by auto. lia. }
  rewrite E3. apply bind_ext. intros st3 _.
  assert (E4 : (if truthy (get_opt filter "notFilterRule")
                then walk_inner r1 (get_opt filter "notFilterRule") st3
                else Ok st3)
               = (if truthy (get_opt filter "notFilterRule")
                  then walk_inner r2 (get_opt filter "notFilterRule") st3
                  else Ok st3)).
  { destruct (truthy (get_opt filter "notFilterRule")) eqn:T; [| reflexivity].
    apply walk_inner_ext. intros sub st' Hs. apply H.
    specialize (Hlt "notFilterRule"). unfold rule_name in Hlt.
    assert (depth (get_opt filter "notFilterRule") < depth filter) by auto. lia. }
  rewrite E4. reflexivity.
Qed.

Lemma walk_step n :
  forall filter (st : state),
    depth filter < n -> walk_fuel check n filter st = walk_fuel check (S n) filter st.
Proof.
  induction n as [| n IH]; intros filter st Hd; [lia |].
  change (walk_visit check (walk_fuel check n) filter st
          = walk_visit check (walk_fuel check (S n)) filter st).
  apply walk_visit_ext. intros sub st' Hs. apply IH. lia.
Qed.

Lemma walk_enough n filter (st : state) :
  depth filter < n -> walk_fuel check n filter st = walk check filter st.
Proof.
  unfold walk. intro Hd.
  assert (H : forall m, S (depth filter) <= m ->
                        walk_fuel check m filter st
                        = walk_fuel check (S (depth filter)) filter st).
  { induction 1 as [| m Hm IH]; [reflexivity |].
    rewrite <- walk_step by lia. exact IH. }
  apply H. lia.
Qed.

(** The walk satisfies the equation of the source function. *)
Lemma walk_unfold filter (st : state) :
  walk check filter st = walk_visit check (walk check) filter st.
Proof.
  unfold walk at 1.
  change (walk_visit check (walk_fuel check (depth filter)) filter st
          = walk_visit check (walk check) filter st).
  apply walk_visit_ext. intros sub st' Hs. apply walk_enough, Hs.
Qed.

End WalkFacts.

Lemma column_rule_on_object rule filter :
  column_rule rule filter ->
  negb (truthy filter) || negb (typeof filter =? "object") = false.
Proof.
  intro H. destruct H as [filter Hc _ _ | filter l sub Hf _ _ | filter l sub Hf _ _
                         | filter Hn _].
  - apply (rule_on_object filter "columnFilterRule"); [left; reflexivity | exact Hc].
  - apply filters_on_truthy in Hf.
    apply (rule_on_object filter "orFilterRule"); [right; left; reflexivity | exact Hf].
  - apply filters_on_truthy in Hf.
    apply (rule_on_object filter "andFilterRule");
      [right; right; left; reflexivity | exact Hf].
  - apply (rule_on_object filter "notFilterRule");
      [right; right; right; reflexivity | exact Hn].
Qed.

Section WalkReports.

Variable state D : Type.
Variable check : state -> jsval -> result state.
Variable proj : state -> list D.
Variable report : jsval -> list D.

Hypothesis check_reports :
  forall st rule st',
    truthy rule = true -> check st rule = Ok st' ->
    proj st' = (proj st ++ report rule)%list.

Lemma walk_all_reports subs :
  (forall sub, In sub subs -> walk_spec check proj report sub) ->
  forall st st',
    walk_all (walk check) subs st = Ok st' ->
    exists delta,
      proj st' = (proj st ++ delta)%list /\
      forall d, In d delta
                <-> exists sub rule,
                      In sub subs /\ column_rule rule sub /\ In d (report rule).
Proof.
  unfold walk_all. induction subs as [| x subs IH]; intros Hs st st' H; cbn [forEach] in H.
  - injection H as <-. exists []. split; [symmetry; apply List.app_nil_r |].
    intro d. split; [intros [] | intros [sub [rule [[] _]]]].
  - destruct (walk check x st) as [st1 |] eqn:E1; cbn [bind] in H; [| discriminate H].
    destruct (Hs x (or_introl eq_refl) _ _ E1) as [d1 [P1 M1]].
    destruct (IH (fun sub Hin => Hs sub (or_intror Hin)) _ _ H) as [d2 [P2 M2]].
    exists (d1 ++ d2)%list. split; [rewrite P2, P1; symmetry; apply List.app_assoc |].
    intro d. rewrite in_app_iff, M1, M2. split.
    + intros [[rule [Hr Hd]] | [sub [rule [Hin [Hr Hd]]]]].
      * exists x, rule. split; [left; reflexivity | split; assumption].
      * exists sub, rule. split; [right; exact Hin | split; assumption].
    + intros [sub [rule [[<- | Hin] [Hr Hd]]]].
      * left. exists rule. split; assumption.
      * right. exists sub, rule. split; [exact Hin | split; assumption].
Qed.

Lemma walk_filters_reports rule :
  truthy rule = true ->
  (forall sub, depth sub < depth rule -> walk_spec check proj report sub) ->
  forall st st',
    walk_filters (walk check) rule st = Ok st' ->
    exists delta,
      proj st' = (proj st ++ delta)%list /\
      forall d, In d delta
                <-> exists subs sub r,
                      get_opt rule "filters" = VArr subs /\ In sub subs /\
                      column_rule r sub /\ In d (report r).
Proof.
  intros Tr Hs st st' H. unfold walk_filters in H.
  rewrite (get_truthy _ _ Tr) in H. cbn [bind] in H.
  destruct (get_opt rule "filters") as [| | | | | subs | |] eqn:Ef;
    try (injection H as <-; exists []; split; [symmetry; apply List.app_nil_r |];
         intro d; split; [intros [] | intros [subs' [_ [_ [Hc _]]]]; discriminate Hc]).
  assert (Hd : forall sub, In sub subs -> walk_spec check proj report sub).
  { intros sub Hin. apply Hs. apply depth_elem in Hin.
    pose proof (depth_get_opt rule "filters") as Hle. rewrite Ef in Hle. lia. }
  destruct (walk_all_reports subs Hd _ _ H) as [delta [P M]].
  exists delta. split; [exact P |]. intro d. rewrite M. split.
  - intros [sub [r [Hin [Hr Hi]]]]. exists subs, sub, r. auto.
  - intros [subs' [sub [r [Hc [Hin [Hr Hi]]]]]]. injection Hc as <-.
    exists sub, r. auto.
Qed.

Lemma walk_inner_reports rule :
  truthy rule = true ->
  (forall sub, depth sub <= depth rule -> walk_spec check proj report sub) ->
  forall st st',
    walk_inner (walk check) rule st = Ok st' ->
    exists delta,
      proj st' = (proj st ++ delta)%list /\
      forall d, In d delta
                <-> exists r, column_rule r (get_opt rule "filter") /\ In d (report r).
Proof.
  intros Tr Hs st st' H. unfold walk_inner in H.
  rewrite (get_truthy _ _ Tr) in H. cbn [bind] in H.
  exact (Hs _ (depth_get_opt rule "filter") _ _ H).
Qed.

Lemma walk_reports_depth n : forall filter, depth filter < n -> walk_spec check proj report filter.
Proof.
  induction n as [| n IH]; intros filter Hn; [lia |].
  intros st st' H. rewrite walk_unfold in H. unfold walk_visit in H.
  destruct (negb (truthy filter) || negb (typeof filter =? "object")) eqn:E.
  { injection H as <-. exists []. split; [symmetry; apply List.app_nil_r |].
    intro d. split; [intros [] |]. intros [rule [Hr _]].
    apply column_rule_on_object in Hr. congruence. }
  pose proof (object_is_truthy _ E) as Tf.
  rewrite !(get_truthy _ _ Tf) in H. cbn [bind] in H.
  assert (Hlt : forall k, rule_name k -> truthy (get_opt filter k) = true ->
                          depth (get_opt filter k) < depth filter)
    by (intros k Hk; apply depth_rule, Hk).
  (* the column filter *)
  match type of H with
  | bind ?c _ = _ => destruct c as [st1 |] eqn:E1; cbn [bind] in H; [| discriminate H]
  end.
  assert (S1 : proj st1
               = (proj st ++ (if truthy (get_opt filter "columnFilterRule")
                              then report (get_opt filter "columnFilterRule")
                              else []))%list).
  { destruct (truthy (get_opt filter "columnFilterRule")) eqn:T.
    - exact (check_reports _ _ _ T E1).
    - injection E1 as <-. symmetry. apply List.app_nil_r. }
  (* the or rule *)
  match type of H with
  | bind ?c _ = _ => destruct c as [st2 |] eqn:E2; cbn [bind] in H; [| discriminate H]
  end.
  assert (S2 : exists delta,
             proj st2 = (proj st1 ++ delta)%list /\
             forall d, In d delta
                       <-> exists subs sub r,
                             get_opt (get_opt filter "orFilterRule") "filters" = VArr subs /\
                             In sub subs /\ column_rule r sub /\ In d (report r)).
  { destruct (truthy (get_opt filter "orFilterRule")) eqn:T.
    - refine (walk_filters_reports _ T _ _ _ E2). intros sub Hs. apply IH.
      assert (depth (get_opt filter "orFilterRule") < depth filter)
        by (apply Hlt; [right; left; reflexivity | exact T]). lia.
    - injection E2 as <-. exists []. split; [symmetry; apply List.app_nil_r |].
      intro d. split; [intros [] |]. intros [subs [_ [_ [Hc _]]]].
      apply filters_on_truthy in Hc. congruence. }
  (* the and rule *)
  match type of H with
  | bind ?c _ = _ => destruct c as [st3 |] eqn:E3; cbn [bind] in H; [| discriminate H]
  end.
  assert (S3 : exists delta,
             proj st3 = (proj st2 ++ delta)%list /\
             forall d, In d delta
                       <-> exists subs sub r,
                             get_opt (get_opt filter "andFilterRule") "filters" = VArr subs /\
                             In sub subs /\ column_rule r sub /\ In d (report r)).
  { destruct (truthy (get_opt filter "andFilterRule")) eqn:T.
    - refine (walk_filters_reports _ T _ _ _ E3). intros sub Hs. apply IH.
      assert (depth (get_opt filter "andFilterRule") < depth filter)
        by (apply Hlt; [right; right; left; reflexivity | exact T]). lia.
    - injection E3 as <-. exists []. split; [symmetry; apply List.app_nil_r |].
      intro d. split; [intros [] |]. intros [subs [_ [_ [Hc _]]]].
      apply filters_on_truthy in Hc. congruence. }
  (* the not rule *)
  match type of H with
  | bind ?c _ = _ => destruct c as [st4 |] eqn:E4; cbn [bind] in H; [| discriminate H]
  end.
  injection H as <-.
  assert (S4 : exists delta,
             proj st4 = (proj st3 ++ delta)%list /\
             forall d, In d delta
                       <-> truthy (get_opt filter "notFilterRule") = true /\
                           exists r,
                             column_rule r (get_opt (get_opt filter "notFilterRule") "filter")
                             /\ In d (report r)).
  { destruct (truthy (get_opt filter "notFilterRule")) eqn:T.
    - assert (Hs : forall sub, depth sub <= depth (get_opt filter "notFilterRule") ->
                               walk_spec check proj report sub).
      { intros sub Hs. apply IH.
        assert (depth (get_opt filter "notFilterRule") < depth filter)
          by (apply Hlt; [right; right; right; reflexivity | exact T]). lia. }
      destruct (walk_inner_reports _ T Hs _ _ E4) as [delta [P M]].
      exists delta. split; [exact P |]. intro d. rewrite M. tauto.
    - injection E4 as <-. exists []. split; [symmetry; apply List.app_nil_r |].
      intro d. split; [intros [] | intros [Hc _]; discriminate Hc]. }
  destruct S2 as [d2 [P2 M2]]. destruct S3 as [d3 [P3 M3]]. destruct S4 as [d4 [P4 M4]].
  exists ((if truthy (get_opt filter "columnFilterRule")
           then report (get_opt filter "columnFilterRule") else [])
          ++ d2 ++ d3 ++ d4)%list.
  split; [rewrite P4, P3, P2, S1, <- !List.app_assoc; reflexivity |].
  intro d. rewrite !in_app_iff, M2, M3, M4. split.
  - intros [Hd | [Hd | [Hd | Hd]]].
    + destruct (truthy (get_opt filter "columnFilterRule")) eqn:T; [| destruct Hd].
      exists (get_opt filter "columnFilterRule"). split; [| exact Hd].
      apply mentions_column; [exact T | reflexivity | exact T].
    + destruct Hd as [subs [sub [r [Hf [Hin [Hr Hi]]]]]].
      exists r. split; [| exact Hi]. exact (mentions_or _ _ _ _ _ Hf Hin Hr).
    + destruct Hd as [subs [sub [r [Hf [Hin [Hr Hi]]]]]].
      exists r. split; [| exact Hi]. exact (mentions_and _ _ _ _ _ Hf Hin Hr).
    + destruct Hd as [T [r [Hr Hi]]].
      exists r. split; [| exact Hi]. exact (mentions_not _ _ _ T Hr).
  - intros [rule [Hr Hi]].
    inversion Hr as [f Hc He Ht | f l sub Hf Hin Hm | f l sub Hf Hin Hm | f Hnot Hm];
      subst f.
    + left. rewrite Hc. cbn beta in He. rewrite He. exact Hi.
    + right. left. exists l, sub, rule. auto.
    + right. right. left. exists l, sub, rule. auto.
    + right. right. right. split; [exact Hnot |]. exists rule. auto.
Qed.

Lemma walk_reports filter : walk_spec check proj report filter.
Proof. apply (walk_reports_depth (S (depth filter))). lia. Qed.

(** The walk returns when the check returns on every column filter rule
    of the tree. *)
Lemma walk_returns_depth n :
  forall filter,
    depth filter < n ->
    (forall rule st, column_rule rule filter -> returns (check st rule)) ->
    forall st, returns (walk check filter st).
Proof.
  induction n as [| n IH]; intros filter Hn Hc st; [lia |].
  rewrite walk_unfold. unfold walk_visit.
  destruct (negb (truthy filter) || negb (typeof filter =? "object")) eqn:E;
    [eexists; reflexivity |].
  pose proof (object_is_truthy _ E) as Tf.
  rewrite !(get_truthy _ _ Tf). cbn [bind].
  assert (Hlt : forall k, rule_name k -> truthy (get_opt filter k) = true ->
                          depth (get_opt filter k) < depth filter)
    by (intros k Hk; apply depth_rule, Hk).
  assert (Hall : forall rule,
             truthy rule = true ->
             (forall sub, depth sub < depth rule ->
                          (forall r st, column_rule r sub -> returns (check st r)) ->
                          forall st, returns (walk check sub st)) ->
             (forall subs sub r st,
                 get_opt rule "filters" = VArr subs -> In sub subs ->
                 column_rule r sub -> returns (check st r)) ->
             forall st, returns (walk_filters (walk check) rule st)).
  { intros rule Tr Hrec Hsub st0. unfold walk_filters.
    rewrite (get_truthy _ _ Tr). cbn [bind].
    destruct (get_opt rule "filters") as [| | | | | subs | |] eqn:Ef;
      try (eexists; reflexivity).
    unfold walk_all. apply forEach_returns. intros x s Hx.
    apply Hrec.
    - apply depth_elem in Hx.
      pose proof (depth_get_opt rule "filters") as Hle. rewrite Ef in Hle. lia.
    - intros r st1 Hr. exact (Hsub subs x r st1 eq_refl Hx Hr). }
  apply bind_returns.
  { destruct (truthy (get_opt filter "columnFilterRule")) eqn:T; [| eexists; reflexivity].
    apply Hc. apply mentions_column; [exact T | reflexivity | exact T]. }
  intro st1. apply bind_returns.
  { destruct (truthy (get_opt filter "orFilterRule")) eqn:T; [| eexists; reflexivity].
    apply (Hall _ T).
    - intros sub Hs. apply IH.
      assert (depth (get_opt filter "orFilterRule") < depth filter)
        by (apply Hlt; [right; left; reflexivity | exact T]). lia.
    - intros subs sub r st2 Hf Hin Hr. apply Hc. exact (mentions_or _ _ _ _ _ Hf Hin Hr). }
  intro st2. apply bind_returns.
  { destruct (truthy (get_opt filter "andFilterRule")) eqn:T; [| eexists; reflexivity].
    apply (Hall _ T).
    - intros sub Hs. apply IH.
      assert (depth (get_opt filter "andFilterRule") < depth filter)
        by (apply Hlt; [right; right; left; reflexivity | exact T]). lia.
    - intros subs sub r st3 Hf Hin Hr. apply Hc. exact (mentions_and _ _ _ _ _ Hf Hin Hr). }
  intro st3. apply bind_returns.
  { destruct (truthy (get_opt filter "notFilterRule")) eqn:T; [| eexists; reflexivity].
    unfold walk_inner. rewrite (get_truthy _ _ T). cbn [bind].
    apply IH.
    - assert (depth (get_opt filter "notFilterRule") < depth filter)
        by (apply Hlt; [right; right; right; reflexivity | exact T]).
      pose proof (depth_get_opt (get_opt filter "notFilterRule") "filter"). lia.
    - intros r st4 Hr. apply Hc. exact (mentions_not _ _ _ T Hr). }
  intro st4. eexists. reflexivity.
Qed.

Lemma walk_returns filter :
  (forall rule st, column_rule rule filter -> returns (check st rule)) ->
  forall st, returns (walk check filter st).
Proof. apply (walk_returns_depth (S (depth filter))). lia. Qed.

End WalkReports.

Lemma mentions_column_rule take p filter :
  mentions take p filter
  <-> exists rule, column_rule rule filter /\ take rule = p /\ truthy p = true.
Proof.
  split.
  - induction 1 as [filter Hc Ht Hp | filter l sub Hf Hin Hm IH
                   | filter l sub Hf Hin Hm IH | filter Hn Hm IH].
    + exists (get_opt filter "columnFilterRule"). split; [| split; assumption].
      apply mentions_column; [exact Hc | reflexivity | exact Hc].
    + destruct IH as [rule [Hr Ht]]. exists rule. split; [| exact Ht].
      exact (mentions_or _ _ _ _ _ Hf Hin Hr).
    + destruct IH as [rule [Hr Ht]]. exists rule. split; [| exact Ht].
      exact (mentions_and _ _ _ _ _ Hf Hin Hr).
    + destruct IH as [rule [Hr Ht]]. exists rule. split; [| exact Ht].
      exact (mentions_not _ _ _ Hn Hr).
  - intros [rule [Hr [Ht Hp]]]. unfold column_rule in Hr.
    induction Hr as [filter Hc He Hq | filter l sub Hf Hin Hm IH
                    | filter l sub Hf Hin Hm IH | filter Hn Hm IH].
    + cbn beta in He. apply mentions_column; [exact Hc | rewrite He; exact Ht | exact Hp].
    + exact (mentions_or _ _ _ _ _ Hf Hin IH).
    + exact (mentions_and _ _ _ _ _ Hf Hin IH).
    + exact (mentions_not _ _ _ Hn IH).
Qed.

(** *** [validateIgnoreWhitespace] *)

(** What the check of one column filter rule adds to the errors. *)
Lemma checkIgnoreWhitespace_reports errors rule errors' :
  truthy rule = true ->
  Filters.checkIgnoreWhitespace errors rule = Ok errors' ->
  let strFilter := get_opt (get_opt rule "filter") "stringColumnFilter" in
  errors'
  = (errors ++
     (if truthy strFilter
         && Filters.requiresIgnoreWhitespace (get_opt strFilter "type")
         && negb (strict_equals (get_opt strFilter "ignoreWhitespace") (VBool true))
      then [Filters.ignoreWhitespaceError (text_of (get_opt strFilter "type"))
              (text_of (get_opt strFilter "ignoreWhitespace"))]
      else []))%list.
Proof.
  intros Tr H strFilter. unfold Filters.checkIgnoreWhitespace in H.
  rewrite (get_truthy _ _ Tr) in H. cbn [bind] in H. fold strFilter in H.
  destruct (truthy strFilter) eqn:Ts; cbn [andb];
    [| injection H as <-; symmetry; apply List.app_nil_r].
  rewrite !(get_truthy _ _ Ts) in H. cbn [bind] in H.
  destruct (Filters.requiresIgnoreWhitespace (get_opt strFilter "type")
            && negb (strict_equals (get_opt strFilter "ignoreWhitespace") (VBool true)));
    [| injection H as <-; symmetry; apply List.app_nil_r].
  unfold text_of.
  destruct (ToString (get_opt strFilter "type")); cbn [bind] in H; [| discriminate H].
  destruct (ToString (get_opt strFilter "ignoreWhitespace")); cbn [bind] in H;
    [| discriminate H].
  injection H as <-. reflexivity.
Qed.

Lemma checkIgnoreWhitespace_returns errors rule :
  truthy rule = true ->
  printable (get_opt (get_opt (get_opt rule "filter") "stringColumnFilter")
               "ignoreWhitespace") ->
  returns (Filters.checkIgnoreWhitespace errors rule).
Proof.
  intros Tr [got Hg]. unfold Filters.checkIgnoreWhitespace.
  rewrite (get_truthy _ _ Tr). cbn [bind].
  destruct (truthy (get_opt (get_opt rule "filter") "stringColumnFilter")) eqn:Ts;
    [| eexists; reflexivity].
  rewrite !(get_truthy _ _ Ts). cbn [bind].
  destruct (Filters.requiresIgnoreWhitespace _) eqn:Er; cbn [andb];
    [| eexists; reflexivity].
  destruct (negb _); [| eexists; reflexivity].
  destruct (includes_str_string _ _ Er) as [t [-> _]].
  cbn [ToString bind]. rewrite Hg. eexists. reflexivity.
Qed.

Lemma column_rule_truthy rule filter : column_rule rule filter -> truthy rule = true.
Proof. apply mentions_truthy. Qed.

(** X21.  [validateIgnoreWhitespace] walks the whole tree.  It returns when
    every [ignoreWhitespace] value of the tree can be printed; when it
    returns, it has one error for each string filter, at any depth, whose
    operator is [CONTAINS], [MATCHES] or [EQUALS_WITH_WILDCARDS] and whose
    [ignoreWhitespace] is not [true], the error names the operator, and
    the result is valid exactly when there is no such filter. *)
Theorem whitespace_validation :
  forall (filter : jsval),
    ((forall rule,
         column_rule rule filter ->
         printable (get_opt (get_opt (get_opt rule "filter") "stringColumnFilter")
                      "ignoreWhitespace")) ->
     returns (Filters.validateIgnoreWhitespace filter)) /\
    (forall r,
        Filters.validateIgnoreWhitespace filter = Ok r ->
        (Filters.whitespace_valid r = true <-> Filters.whitespace_errors r = []) /\
        (Filters.whitespace_valid r = true
         <-> forall rule filterType,
               column_rule rule filter -> ~ neglects_whitespace rule filterType) /\
        (forall e,
            In e (Filters.whitespace_errors r)
            <-> exists rule filterType,
                  column_rule rule filter /\
                  neglects_whitespace rule filterType /\
                  e = Filters.ignoreWhitespaceError filterType
                        (text_of (get_opt (get_opt (get_opt rule "filter")
                                             "stringColumnFilter") "ignoreWhitespace")))).
Proof.
  intro filter. split.
  - intro Hp. unfold Filters.validateIgnoreWhitespace,
      Filters.validateIgnoreWhitespaceRecursive.
    apply bind_returns; [| intro a; eexists; reflexivity].
    apply (walk_returns _ Filters.checkIgnoreWhitespace).
    intros rule st Hr. apply checkIgnoreWhitespace_returns;
      [exact (column_rule_truthy _ _ Hr) | apply Hp, Hr].
  - intros r H. unfold Filters.validateIgnoreWhitespace,
      Filters.validateIgnoreWhitespaceRecursive in H.
    destruct (walk Filters.checkIgnoreWhitespace filter []) as [errors |] eqn:Hw;
      cbn [bind] in H; [| discriminate H].
    injection H as <-. cbn [Filters.whitespace_valid Filters.whitespace_errors].
    pose (report := fun rule =>
            let strFilter := get_opt (get_opt rule "filter") "stringColumnFilter" in
            if truthy strFilter
               && Filters.requiresIgnoreWhitespace (get_opt strFilter "type")
               && negb (strict_equals (get_opt strFilter "ignoreWhitespace") (VBool true))
            then [Filters.ignoreWhitespaceError (text_of (get_opt strFilter "type"))
                    (text_of (get_opt strFilter "ignoreWhitespace"))]
            else []).
    destruct (walk_reports (list string) string Filters.checkIgnoreWhitespace
                (fun s => s) report
                (fun st rule st' Tr Hc => checkIgnoreWhitespace_reports st rule st' Tr Hc)
                filter [] errors Hw) as [delta [Hd Hm]].
    cbn [List.app] in Hd. subst delta.
    assert (Hrep : forall rule e,
               In e (report rule)
               <-> exists filterType,
                     neglects_whitespace rule filterType /\
                     e = Filters.ignoreWhitespaceError filterType
                           (text_of (get_opt (get_opt (get_opt rule "filter")
                                                "stringColumnFilter") "ignoreWhitespace"))).
    { intros rule e. unfold report, neglects_whitespace. cbv zeta.
      set (strFilter := get_opt (get_opt rule "filter") "stringColumnFilter").
      destruct (truthy strFilter) eqn:Ts; cbn [andb].
      - destruct (Filters.requiresIgnoreWhitespace (get_opt strFilter "type")) eqn:Er;
          cbn [andb].
        + destruct (includes_str_string _ _ Er) as [t [Et Hin]]. rewrite Et.
          destruct (strict_equals (get_opt strFilter "ignoreWhitespace") (VBool true))
            eqn:Ei; cbn [negb].
          * apply strict_equals_eq in Ei. split; [intros [] |].
            intros [t' [[_ [_ [_ Hne]]] _]]. contradiction.
          * split.
            -- intros [<- | []]. exists t. split; [| reflexivity].
               refine (conj eq_refl (conj eq_refl (conj Hin _))).
               intro Hc. rewrite Hc in Ei. discriminate Ei.
            -- intros [t' [[_ [Et' _]] ->]]. injection Et' as <-. left. reflexivity.
        + split; [intros [] |]. intros [t [[_ [Et [Hin _]]] _]].
          unfold Filters.requiresIgnoreWhitespace in Er. rewrite Et in Er.
          apply includes_str_In in Hin. congruence.
      - split; [intros [] |]. intros [t [[Hc _] _]]. discriminate Hc. }
    split; [apply length_is_zero |]. split.
    + rewrite length_is_zero. split.
      * intros -> rule t Hr Hn.
        assert (Hin : exists e, In e (report rule))
          by (eexists; apply Hrep; exists t; split; [exact Hn | reflexivity]).
        destruct Hin as [e Hin].
        exact (proj2 (Hm e) (ex_intro _ rule (conj Hr Hin))).
      * intro Hall. destruct errors as [| e errors]; [reflexivity |]. exfalso.
        destruct (proj1 (Hm e) (or_introl eq_refl)) as [rule [Hr Hi]].
        apply Hrep in Hi. destruct Hi as [t [Hn _]]. exact (Hall rule t Hr Hn).
    + intro e. rewrite Hm. split.
      * intros [rule [Hr Hi]]. apply Hrep in Hi. destruct Hi as [t [Hn He]].
        exists rule, t. auto.
      * intros [rule [t [Hr [Hn He]]]]. exists rule. split; [exact Hr |].
        apply Hrep. exists t. auto.
Qed.

Lemma whitespace_validation_witness :
  exists r,
    Filters.validateIgnoreWhitespace (string_filter "property_a" "CONTAINS") = Ok r /\
    (Filters.whitespace_valid r = true <-> Filters.whitespace_errors r = []).
Proof.
  eexists. split; [reflexivity |].
  exact (proj1 (proj2 (whitespace_validation (string_filter "property_a" "CONTAINS"))
                  _ eq_refl)).
Defined.

(** *** [validatePropertyTypes] *)

Lemma map_find_set m k v k' :
  Properties.map_find (Properties.map_set m k v) k'
  = if k =? k' then Some v else Properties.map_find m k'.
Proof.
  induction m as [| [k0 v0] m IH]; cbn [Properties.map_set Properties.map_find].
  - reflexivity.
  - destruct (String.eqb_spec k0 k) as [-> | Hk]; cbn [Properties.map_find].
    + destruct (k =? k'); reflexivity.
    + rewrite IH. destruct (String.eqb_spec k0 k') as [-> | Hk']; [| reflexivity].
      apply String.eqb_neq in Hk. rewrite String.eqb_sym, Hk. reflexivity.
Qed.

Lemma find_last {A : Type} (f : A -> bool) l x :
  find f (l ++ [x])%list
  = match find f l with
    | Some y => Some y
    | None => if f x then Some x else None
    end.
Proof.
  induction l as [| y l IH]; cbn [List.app find]; [reflexivity |].
  destruct (f y); [reflexivity | exact IH].
Qed.

(** The map of [validatePropertyTypes] gives a property the type of its
    last declaration. *)
Lemma propertyTypeMap_find cfg k :
  Properties.map_find (Properties.propertyTypeMap cfg) k = declared_type cfg k.
Proof.
  unfold Properties.propertyTypeMap, declared_type.
  assert (H : forall l m,
             Properties.map_find
               (fold_left (fun propTypes prop =>
                             Properties.map_set propTypes (property_id prop)
                               (property_type prop)) l m) k
             = match find (fun prop => property_id prop =? k) (rev l) with
               | Some prop => Some (property_type prop)
               | None => Properties.map_find m k
               end).
  { induction l as [| p l IH]; intro m; cbn [fold_left rev]; [reflexivity |].
    rewrite IH, find_last, map_find_set.
    destruct (find _ (rev l)); [reflexivity |].
    destruct (property_id p =? k); reflexivity. }
  rewrite H. destruct (find _ _); reflexivity.
Qed.

(** What the check of one column filter rule adds to the errors and to
    the used properties; it never throws. *)
Lemma checkFilterPropertyType_reports propTypes errors used rule :
  truthy rule = true ->
  let propId := propertyOf rule in
  let columnFilter := get_opt rule "filter" in
  let mismatch (expectedType kind expected : string) :=
    if truthy (get_opt columnFilter kind) && negb (expectedType =? expected)
    then [Properties.propertyTypeError (text_of propId) expectedType kind] else [] in
  Properties.checkFilterPropertyType propTypes (errors, used) rule
  = Ok ((errors ++
         (if truthy propId then
            match Properties.map_get propTypes propId with
            | Some expectedType =>
                if negb (expectedType =? EmptyString) && truthy columnFilter
                then (mismatch expectedType "stringColumnFilter" "string"
                      ++ mismatch expectedType "numericColumnFilter" "number")%list
                else []
            | None => []
            end
          else []))%list,
        (used ++ (if truthy propId then [propId] else []))%list).
Proof.
  intros Tr propId columnFilter mismatch.
  unfold Properties.checkFilterPropertyType.
  rewrite !(get_truthy _ _ Tr). cbn [bind].
  change (get_opt (get_opt (get_opt rule "column") "objectProperty") "propertyTypeId")
    with propId.
  fold columnFilter.
  destruct (truthy propId); [| rewrite !List.app_nil_r; reflexivity].
  destruct (Properties.map_get propTypes propId) as [ty |] eqn:Em;
    [| rewrite List.app_nil_r; reflexivity].
  assert (Ht : exists s, propId = VStr s).
  { destruct propId; try discriminate Em. eexists. reflexivity. }
  destruct Ht as [s Hs].
  destruct (negb (ty =? EmptyString) && truthy columnFilter);
    [| rewrite List.app_nil_r; reflexivity].
  unfold mismatch, text_of. rewrite Hs. cbn [ToString].
  destruct (truthy (get_opt columnFilter "stringColumnFilter") && negb (ty =? "string"));
    destruct (truthy (get_opt columnFilter "numericColumnFilter")
              && negb (ty =? "number"));
    cbn [bind]; unfold push; rewrite <- ?List.app_assoc, ?List.app_nil_r; reflexivity.
Qed.

(** X22.  [validatePropertyTypes] never throws.  Its used properties are
    those of the column filter rules of the tree, at any depth; it has
    an error exactly for a string filter on a property declared with
    another type than [string] and for a numeric filter on a property
    declared with another type than [number], the type of a property
    being that of its last declaration; a property that is not declared
    is never an error, and the result is valid exactly when there is no
    error. *)
Theorem property_types_validation :
  forall (logic : jsval) (objectTypeConfig : ObjectTypeConfig),
    exists r,
      Properties.validatePropertyTypes logic objectTypeConfig = Ok r /\
      (Properties.valid r = true <-> Properties.errors r = []) /\
      Properties.validProperties r = map property_id (properties objectTypeConfig) /\
      (forall p, In p (Properties.usedProperties r)
                 <-> mentions propertyOf p (filterOf logic)) /\
      (forall e,
          In e (Properties.errors r)
          <-> exists rule propId expectedType kind,
                column_rule rule (filterOf logic) /\
                type_mismatch objectTypeConfig rule propId expectedType kind /\
                e = Properties.propertyTypeError propId expectedType kind).
Proof.
  intros logic cfg. unfold Properties.validatePropertyTypes.
  fold (filterOf logic).
  set (propTypes := Properties.propertyTypeMap cfg).
  pose (check := Properties.checkFilterPropertyType propTypes).
  pose (errors_of_rule := fun rule =>
          let propId := propertyOf rule in
          let columnFilter := get_opt rule "filter" in
          let mismatch (expectedType kind expected : string) :=
            if truthy (get_opt columnFilter kind) && negb (expectedType =? expected)
            then [Properties.propertyTypeError (text_of propId) expectedType kind]
            else [] in
          if truthy propId then
            match Properties.map_get propTypes propId with
            | Some expectedType =>
                if negb (expectedType =? EmptyString) && truthy columnFilter
                then (mismatch expectedType "stringColumnFilter" "string"
                      ++ mismatch expectedType "numericColumnFilter" "number")%list
                else []
            | None => []
            end
          else []).
  pose (used_of_rule := fun rule =>
          if truthy (propertyOf rule) then [propertyOf rule] else []).
  assert (Hc : forall st rule,
             truthy rule = true ->
             check st rule
             = Ok ((fst st ++ errors_of_rule rule)%list,
                   (snd st ++ used_of_rule rule)%list)).
  { intros [errors used] rule Tr.
    exact (checkFilterPropertyType_reports propTypes errors used rule Tr). }
  assert (Hw : exists errors used,
             (if truthy (filterOf logic)
              then Properties.validateFilterPropertyTypes (filterOf logic) propTypes [] []
              else Ok ([], [])) = Ok (errors, used) /\
             (forall e, In e errors
                        <-> exists rule, column_rule rule (filterOf logic)
                                         /\ In e (errors_of_rule rule)) /\
             (forall p, In p used
                        <-> exists rule, column_rule rule (filterOf logic)
                                         /\ In p (used_of_rule rule))).
  { destruct (truthy (filterOf logic)) eqn:Tf.
    - unfold Properties.validateFilterPropertyTypes. fold check.
      destruct (walk_returns _ check (filterOf logic)
                  (fun rule st Hr =>
                     ex_intro _ _ (Hc st rule (column_rule_truthy _ _ Hr)))
                  ([], [])) as [[errors used] Hr].
      exists errors, used. split; [exact Hr |]. split.
      + assert (H1 : forall st rule st',
                   truthy rule = true -> check st rule = Ok st' ->
                   fst st' = (fst st ++ errors_of_rule rule)%list)
          by (intros st rule st' Tr H; rewrite (Hc st rule Tr) in H;
              injection H as <-; reflexivity).
        destruct (walk_reports _ string check fst errors_of_rule H1
                    (filterOf logic) _ _ Hr) as [delta [Hd Hm]].
        cbn [fst List.app] in Hd. subst delta. exact Hm.
      + assert (H2 : forall st rule st',
                   truthy rule = true -> check st rule = Ok st' ->
                   snd st' = (snd st ++ used_of_rule rule)%list)
          by (intros st rule st' Tr H; rewrite (Hc st rule Tr) in H;
              injection H as <-; reflexivity).
        destruct (walk_reports _ jsval check snd used_of_rule H2
                    (filterOf logic) _ _ Hr) as [delta [Hd Hm]].
        cbn [snd List.app] in Hd. subst delta. exact Hm.
    - exists [], []. split; [reflexivity |].
      split; intro x; (split; [intros [] |]); intros [rule [Hr _]];
        apply mentions_in_truthy in Hr; congruence. }
  destruct Hw as [errors [used [Hr [He Hu]]]].
  rewrite Hr. cbn [bind]. eexists. split; [reflexivity |].
  cbn [Properties.valid Properties.errors Properties.usedProperties
         Properties.validProperties].
  split; [apply length_is_zero |]. split; [reflexivity |]. split.
  - intro p. rewrite Hu, mentions_column_rule. unfold used_of_rule. split.
    + intros [rule [Hrule Hin]]. exists rule. split; [exact Hrule |].
      destruct (truthy (propertyOf rule)) eqn:T; [| destruct Hin].
      destruct Hin as [<- | []]. auto.
    + intros [rule [Hrule [<- T]]]. exists rule. split; [exact Hrule |].
      rewrite T. left. reflexivity.
  - intro e. rewrite He. split.
    + intros [rule [Hrule Hin]]. unfold errors_of_rule in Hin. cbv zeta in Hin.
      destruct (truthy (propertyOf rule)) eqn:Tp; [| destruct Hin].
      destruct (Properties.map_get propTypes (propertyOf rule)) as [ty |] eqn:Em;
        [| destruct Hin].
      destruct (propertyOf rule) as [| | | | s | | |] eqn:Ep; try discriminate Em.
      cbn [Properties.map_get] in Em. unfold propTypes in Em.
      rewrite propertyTypeMap_find in Em.
      assert (Hs : s <> EmptyString) by (intros ->; discriminate Tp).
      destruct (String.eqb_spec ty EmptyString) as [Ety | Ety]; cbn [negb andb] in Hin;
        [destruct Hin |].
      destruct (truthy (get_opt rule "filter")); [| destruct Hin].
      apply in_app_iff in Hin. unfold text_of in Hin. cbn [ToString] in Hin.
      destruct Hin as [Hin | Hin].
      * destruct (truthy (get_opt (get_opt rule "filter") "stringColumnFilter")) eqn:Tk;
          [| destruct Hin].
        destruct (String.eqb_spec ty "string") as [| Ne]; cbn [negb andb] in Hin;
          [destruct Hin |].
        destruct Hin as [<- | []].
        exists rule, s, ty, "stringColumnFilter". split; [exact Hrule |].
        split; [| reflexivity].
        exact (conj Ep (conj Hs (conj Em (conj Ety (conj Tk
                 (or_introl (conj eq_refl Ne))))))).
      * destruct (truthy (get_opt (get_opt rule "filter") "numericColumnFilter")) eqn:Tk;
          [| destruct Hin].
        destruct (String.eqb_spec ty "number") as [| Ne]; cbn [negb andb] in Hin;
          [destruct Hin |].
        destruct Hin as [<- | []].
        exists rule, s, ty, "numericColumnFilter". split; [exact Hrule |].
        split; [| reflexivity].
        exact (conj Ep (conj Hs (conj Em (conj Ety (conj Tk
                 (or_intror (conj eq_refl Ne))))))).
    + intros [rule [s [ty [kind [Hrule [[Ep [Hs [Em [Ety [Tk Hk]]]]] ->]]]]]].
      exists rule. split; [exact Hrule |].
      unfold errors_of_rule. cbv zeta. rewrite Ep.
      rewrite (truthy_string _ Hs). cbn [Properties.map_get]. unfold propTypes.
      rewrite propertyTypeMap_find, Em.
      apply String.eqb_neq in Ety. rewrite Ety. cbn [negb andb].
      assert (Tc : truthy (get_opt rule "filter") = true).
      { destruct Hk as [[-> _] | [-> _]].
        - exact (truthy_read _ "stringColumnFilter" eq_refl ltac:(discriminate) Tk).
        - exact (truthy_read _ "numericColumnFilter" eq_refl ltac:(discriminate) Tk). }
      rewrite Tc. apply in_app_iff. unfold text_of. cbn [ToString].
      destruct Hk as [[-> Ne] | [-> Ne]]; apply String.eqb_neq in Ne;
        [left | right]; rewrite Tk, Ne; left; reflexivity.
Qed.

(** ** The command line *)

Lemma findConfig_plain pre : forall i rest,
  Forall plain_argument pre ->
  Cli.findConfig i (pre ++ rest)%list = Cli.findConfig (i + List.length pre) rest.
Proof.
  induction pre as [| a pre IH]; intros i rest Hp; cbn [List.app List.length].
  - rewrite Nat.add_0_r. reflexivity.
  - inversion Hp as [| ? ? [Ha Hb] Hp']. subst.
    cbn [Cli.findConfig]. apply String.eqb_neq in Ha. rewrite Ha, Hb. cbn [andb].
    rewrite (IH (S i) rest Hp'). f_equal. lia.
Qed.

Lemma nth_after {A : Type} (pre : list A) x y rest d :
  nth (List.length pre + 2) (pre ++ x :: y :: rest)%list d = hd d rest.
Proof.
  induction pre as [| a pre IH]; cbn [List.length List.app Nat.add nth].
  - destruct rest; reflexivity.
  - exact IH.
Qed.

Lemma skipn_after {A : Type} (pre : list A) x y rest :
  skipn (List.length pre + 2 + 1) (pre ++ x :: y :: rest)%list = tl rest.
Proof.
  induction pre as [| a pre IH]; cbn [List.length List.app Nat.add skipn].
  - destruct rest; reflexivity.
  - exact IH.
Qed.

Lemma nth_after_one {A : Type} (pre : list A) x rest d :
  nth (List.length pre + 1) (pre ++ x :: rest)%list d = hd d rest.
Proof.
  induction pre as [| a pre IH]; cbn [List.length List.app Nat.add nth].
  - destruct rest; reflexivity.
  - exact IH.
Qed.

Lemma skipn_after_one {A : Type} (pre : list A) x rest :
  skipn (List.length pre + 1 + 1) (pre ++ x :: rest)%list = tl rest.
Proof.
  induction pre as [| a pre IH]; cbn [List.length List.app Nat.add skipn].
  - destruct rest; reflexivity.
  - exact IH.
Qed.

Lemma prefix_append p s : String.prefix p (p ++ s) = true.
Proof. apply prefix_app, prefix_refl. Qed.

Lemma split_config path :
  Cli.split_equals_1 ("--config=" ++ path) = Some (Cli.before_equals path).
Proof. reflexivity. Qed.

(** X23.  [parseArgs] reads the command after the first [--config] flag and
    drops what stands before it.  Without a flag the command is the
    first argument and the others are its arguments.  After arguments
    that are no flag, [--config path] with a [path] that is not empty
    gives that path, and [--config=path] gives the text of [path] up to
    its first [=]; in both cases the command is the argument after the
    flag, or the empty string when there is none, and the arguments
    before the flag are in neither the command nor its arguments. *)
Theorem parse_args_flag :
  forall (pre rest : list string) (path : string),
    Forall plain_argument pre ->
    (Cli.parseArgs pre
     = {| Cli.configPath := None; Cli.command := hd EmptyString pre;
          Cli.args := tl pre |}) /\
    (path <> EmptyString ->
     Cli.parseArgs (pre ++ "--config" :: path :: rest)
     = {| Cli.configPath := Some path; Cli.command := hd EmptyString rest;
          Cli.args := tl rest |}) /\
    (Cli.parseArgs (pre ++ ("--config=" ++ path) :: rest)
     = {| Cli.configPath := Some (Cli.before_equals path);
          Cli.command := hd EmptyString rest;
          Cli.args := tl rest |}).
Proof.
  intros pre rest path Hp. split; [| split].
  - unfold Cli.parseArgs.
    pose proof (findConfig_plain pre 0 [] Hp) as H. rewrite List.app_nil_r in H.
    rewrite H. cbn [Cli.findConfig]. destruct pre; reflexivity.
  - intro Hne. unfold Cli.parseArgs.
    rewrite (findConfig_plain pre 0 _ Hp). cbn [Cli.findConfig Nat.add].
    apply String.eqb_neq in Hne. rewrite String.eqb_refl, Hne. cbn [negb andb hd_error].
    rewrite nth_after, skipn_after. reflexivity.
  - unfold Cli.parseArgs.
    rewrite (findConfig_plain pre 0 _ Hp). cbn [Cli.findConfig Nat.add].
    assert (Hn : (("--config=" ++ path) =? "--config") = false)
      by (apply String.eqb_neq; discriminate).
    rewrite Hn, prefix_append, split_config. cbn [andb].
    rewrite nth_after_one, skipn_after_one. reflexivity.
Qed.

Lemma parse_args_flag_witness :
  Cli.parseArgs ["validate"; "rule.json"; "--config"; "config.json"]
  = {| Cli.configPath := Some "config.json"; Cli.command := EmptyString;
       Cli.args := [] |}.
Proof.
  refine (proj1 (proj2 (parse_args_flag ["validate"; "rule.json"] [] "config.json" _)) _).
  - repeat constructor; discriminate.
  - discriminate.
Defined.



(** ** filters.ts: suggestions *)

Lemma assoc_value k (fs : list (string * jsval)) v :
  assoc k fs = Some v -> In v (map snd fs).
Proof.
  induction fs as [| [k' v'] fs IH]; cbn [assoc]; [discriminate |].
  destruct (k' =? k).
  - intro H. injection H as <-. left. reflexivity.
  - intro H. right. apply IH, H.
Qed.

(** X25.  A suggestion of [suggestCorrections] is final: it is not empty and
    has no suggestion of its own.  The function is declared to return a
    string or [null], but for the name of a member of [Object.prototype]
    it returns that member, which is neither. *)
Theorem suggestions_are_final :
  forall (filterType : string),
    (forall suggestion,
        Filters.suggestCorrections filterType = VStr suggestion ->
        suggestion <> EmptyString /\
        Filters.suggestCorrections suggestion = VNull) /\
    (mem filterType object_prototype = true ->
     Filters.suggestCorrections filterType <> VNull /\
     forall text, Filters.suggestCorrections filterType <> VStr text).
Proof.
  intro filterType. split.
  - intros suggestion H.
    assert (Hin : In (VStr suggestion)
                    (map snd [("REGEX", VStr "MATCHES");
                              ("WILDCARD", VStr "EQUALS_WITH_WILDCARDS");
                              ("IS_NULL", VStr "NULL");
                              ("IS_NOT_NULL", VStr "NOT_NULL");
                              ("GREATER_THAN_OR_EQUALS", VStr "GREATER_THAN_OR_EQUAL");
                              ("LESS_THAN_OR_EQUALS", VStr "LESS_THAN_OR_EQUAL");
                              ("GTE", VStr "GREATER_THAN_OR_EQUAL");
                              ("LTE", VStr "LESS_THAN_OR_EQUAL");
                              ("GT", VStr "GREATER_THAN");
                              ("LT", VStr "LESS_THAN");
                              ("EQ", VStr "EQUALS");
                              ("NEQ", VStr "Use NOT(EQUALS) instead");
                              ("NOT_EQUALS", VStr "Use NOT(EQUALS) instead")])).
    { unfold Filters.suggestCorrections, or_else, get_opt, Filters.corrections in H.
      cbn [own_property] in H.
      match type of H with
      | context [assoc ?k ?fs] => destruct (assoc k fs) as [v |] eqn:Ea
      end.
      - apply assoc_value in Ea.
        destruct (truthy v); [| discriminate H]. rewrite <- H. exact Ea.
      - cbn [inherited] in H.
        destruct (mem filterType object_prototype);
          [destruct (filterType =? "__proto__") |]; discriminate H. }
    cbn [map snd In] in Hin.
    repeat (destruct Hin as [Hin | Hin];
            [injection Hin as <-; split; [discriminate | reflexivity] |]).
    destruct Hin.
  - intro Hm. unfold Filters.suggestCorrections, or_else, get_opt, Filters.corrections.
    cbn [own_property].
    assert (Ha : assoc filterType
                   [("REGEX", VStr "MATCHES");
                    ("WILDCARD", VStr "EQUALS_WITH_WILDCARDS");
                    ("IS_NULL", VStr "NULL");
                    ("IS_NOT_NULL", VStr "NOT_NULL");
                    ("GREATER_THAN_OR_EQUALS", VStr "GREATER_THAN_OR_EQUAL");
                    ("LESS_THAN_OR_EQUALS", VStr "LESS_THAN_OR_EQUAL");
                    ("GTE", VStr "GREATER_THAN_OR_EQUAL");
                    ("LTE", VStr "LESS_THAN_OR_EQUAL");
                    ("GT", VStr "GREATER_THAN");
                    ("LT", VStr "LESS_THAN");
                    ("EQ", VStr "EQUALS");
                    ("NEQ", VStr "Use NOT(EQUALS) instead");
                    ("NOT_EQUALS", VStr "Use NOT(EQUALS) instead")] = None).
    { unfold mem, object_prototype in Hm. cbn [existsb] in Hm.
      repeat (apply Bool.orb_true_iff in Hm; destruct Hm as [Hm | Hm];
              [apply String.eqb_eq in Hm; subst filterType; reflexivity |]).
      discriminate Hm. }
    rewrite Ha. cbn [inherited]. rewrite Hm.
    destruct (filterType =? "__proto__"); (split; [discriminate |]);
      intros text; discriminate.
Qed.

Lemma suggestions_are_final_witness :
  Filters.suggestCorrections "toString" <> VNull /\
  Filters.suggestCorrections "MATCHES" = VNull.
Proof.
  split.
  - exact (proj1 (proj2 (suggestions_are_final "toString") eq_refl)).
  - exact (proj2 (proj1 (suggestions_are_final "REGEX") "MATCHES" eq_refl)).
Defined.

(** ** filters.ts: the operators that are only warned about *)



(** ** properties.ts: [extractAllProperties] is exact *)

Lemma forEach_exact {A : Type} (f : list jsval -> A -> result (list jsval))
  (Q : A -> jsval -> Prop) l :
  (forall s x s', f s x = Ok s' -> forall p, In p s' <-> In p s \/ Q x p) ->
  forall s s',
    forEach f l s = Ok s' ->
    forall p, In p s' <-> In p s \/ exists x, In x l /\ Q x p.
Proof.
  intro Hf. induction l as [| x l IH]; intros s s' H p; cbn [forEach] in H.
  - injection H as <-. split; [auto |]. intros [Hp | [x [[] _]]]. exact Hp.
  - destruct (f s x) as [s1 |] eqn:E1; cbn [bind] in H; [| discriminate H].
    rewrite (IH _ _ H p), (Hf _ _ _ E1 p). split.
    + intros [[Hp | Hq] | [y [Hy Hq]]].
      * left. exact Hp.
      * right. exists x. split; [left; reflexivity | exact Hq].
      * right. exists y. split; [right; exact Hy | exact Hq].
    + intros [Hp | [y [[<- | Hy] Hq]]].
      * left. left. exact Hp.
      * left. right. exact Hq.
      * right. exists y. split; assumption.
Qed.

Lemma parameterProperty_exact s entry s' :
  Properties.parameterProperty s entry = Ok s' ->
  forall p,
    In p s'
    <-> In p s \/
        (get_opt (snd entry) "type" = VStr "column" /\
         p = columnPropertyId (get_opt (snd entry) "column") /\
         truthy p = true).
Proof.
  unfold Properties.parameterProperty. intros H p.
  destruct (strict_equals (get_opt (snd entry) "type") (VStr "column")) eqn:E.
  - pose proof (proj1 (strict_equals_string _ _) E) as Et.
    rewrite (get_defined _ _ (column_type_defined _ E)) in H. cbn [bind] in H.
    destruct (extractPropertyFromColumn_cases (get_opt (snd entry) "column"))
      as [x [Hx [Hx1 Hx2]]].
    rewrite Hx in H. cbn [bind] in H. injection H as <-.
    unfold Properties.add_if_truthy.
    destruct (truthy x) eqn:Tx.
    + rewrite set_add_spec, (Hx1 eq_refl). split.
      * intros [Hp | ->]; [left; exact Hp |]. right.
        split; [exact Et |]. split; [reflexivity |]. rewrite <- (Hx1 eq_refl). exact Tx.
      * intros [Hp | [_ [-> _]]]; [left; exact Hp | right; reflexivity].
    + split; [auto |]. intros [Hp | [_ [-> Tp]]]; [exact Hp |].
      rewrite (Hx2 Tp) in Tx. congruence.
  - injection H as <-. split; [auto |]. intros [Hp | [Et _]]; [exact Hp |].
    rewrite Et in E. cbn in E. discriminate E.
Qed.

(** X27.  [extractAllProperties] returns, without duplicates, the
    properties of the filter tree, of the window node, of the aggregation
    node and of the [column] parameters of the effect, and nothing else;
    without a strategy it returns nothing at all. *)
Theorem all_properties_exact :
  forall (logic : jsval) (used : list jsval),
    Properties.extractAllProperties logic = Ok used ->
    let strategy := get_opt logic "strategy" in
    let parameterValues :=
      get_opt (get_opt (get_opt logic "effect") "v2") "parameterValues" in
    distinct used /\
    (truthy strategy = false -> used = []) /\
    (truthy strategy = true ->
     forall p,
       In p used
       <-> mentions propertyOf p (filterOf logic)
           \/ (truthy (get_opt strategy "windowNode") = true /\
               exists ps,
                 Properties.extractPropertiesFromWindowNode (get_opt strategy "windowNode")
                 = Ok ps /\ In p ps)
           \/ (truthy (get_opt strategy "aggregationNode") = true /\
               exists ps,
                 Properties.extractPropertiesFromAggregationNode
                   (get_opt strategy "aggregationNode") = Ok ps /\ In p ps)
           \/ (exists entry,
                  In entry (Object_entries parameterValues) /\
                  get_opt (snd entry) "type" = VStr "column" /\
                  p = columnPropertyId (get_opt (snd entry) "column") /\
                  truthy p = true)).
Proof.
  intros logic used H strategy parameterValues.
  split; [exact (extractAllProperties_distinct _ _ H) |]. split.
  - intro Hs. unfold Properties.extractAllProperties in H.
    destruct (negb (truthy logic) || negb (typeof logic =? "object")) eqn:E;
      [injection H as <-; reflexivity |].
    apply object_is_truthy in E. rewrite (get_truthy _ _ E) in H. cbn [bind] in H.
    fold strategy in H. rewrite Hs in H. injection H as <-. reflexivity.
  - intros Hs p.
    destruct (extractAllProperties_steps _ _ H Hs) as [p1 [p2 [p3 [H1 [H2 [H3 H4]]]]]].
    fold strategy in H1, H2, H3. fold parameterValues in H4.
    assert (E1 : In p p1 <-> mentions propertyOf p (filterOf logic)).
    { destruct (truthy (get_opt strategy "filterNode")) eqn:T.
      - destruct (extract_exact _ propertyOf columnProperty_takes (filterOf logic))
          as [ps [Hps [_ Hm]]].
        unfold Properties.extractPropertiesFromFilter in H1. rewrite Hps in H1.
        cbn [bind] in H1. injection H1 as <-.
        rewrite set_add_all_spec, Hm. split; [intros [[] | Hp]; exact Hp | auto].
      - injection H1 as <-. split; [intros [] |]. intro Hm.
        apply mentions_in_truthy in Hm.
        pose proof (truthy_read _ "filter" eq_refl ltac:(discriminate) Hm) as Hc.
        unfold strategy in T. congruence. }
    assert (E2 : In p p2
                 <-> In p p1 \/
                     (truthy (get_opt strategy "windowNode") = true /\
                      exists ps,
                        Properties.extractPropertiesFromWindowNode
                          (get_opt strategy "windowNode") = Ok ps /\ In p ps)).
    { destruct (truthy (get_opt strategy "windowNode")) eqn:T.
      - destruct (Properties.extractPropertiesFromWindowNode _) as [ps |];
          cbn [bind] in H2; [| discriminate H2].
        injection H2 as <-. rewrite set_add_all_spec. split.
        + intros [Hp | Hp]; [left; exact Hp | right]. split; [reflexivity |].
          exists ps. split; [reflexivity | exact Hp].
        + intros [Hp | [_ [ps' [Hps Hp]]]]; [left; exact Hp | right].
          injection Hps as <-. exact Hp.
      - injection H2 as <-. split; [auto |]. intros [Hp | [Hc _]]; [exact Hp | discriminate Hc]. }
    assert (E3 : In p p3
                 <-> In p p2 \/
                     (truthy (get_opt strategy "aggregationNode") = true /\
                      exists ps,
                        Properties.extractPropertiesFromAggregationNode
                          (get_opt strategy "aggregationNode") = Ok ps /\ In p ps)).
    { destruct (truthy (get_opt strategy "aggregationNode")) eqn:T.
      - destruct (Properties.extractPropertiesFromAggregationNode _) as [ps |];
          cbn [bind] in H3; [| discriminate H3].
        injection H3 as <-. rewrite set_add_all_spec. split.
        + intros [Hp | Hp]; [left; exact Hp | right]. split; [reflexivity |].
          exists ps. split; [reflexivity | exact Hp].
        + intros [Hp | [_ [ps' [Hps Hp]]]]; [left; exact Hp | right].
          injection Hps as <-. exact Hp.
      - injection H3 as <-. split; [auto |]. intros [Hp | [Hc _]]; [exact Hp | discriminate Hc]. }
    assert (E4 : In p used
                 <-> In p p3 \/
                     exists entry,
                       In entry (Object_entries parameterValues) /\
                       get_opt (snd entry) "type" = VStr "column" /\
                       p = columnPropertyId (get_opt (snd entry) "column") /\
                       truthy p = true).
    { destruct (truthy parameterValues) eqn:T.
      - exact (forEach_exact Properties.parameterProperty
                 (fun entry p =>
                    get_opt (snd entry) "type" = VStr "column" /\
                    p = columnPropertyId (get_opt (snd entry) "column") /\
                    truthy p = true)
                 _ parameterProperty_exact _ _ H4 p).
      - injection H4 as <-. split; [auto |]. intros [Hp | [entry [Hin _]]]; [exact Hp |].
        apply entries_truthy in Hin. congruence. }
    rewrite E4, E3, E2, E1. tauto.
Qed.

Lemma all_properties_exact_witness :
  distinct [VStr "unknown_property"] /\
  (forall p,
      In p [VStr "unknown_property"]
      -> mentions propertyOf p (filterOf unknown_property_logic)
         \/ (exists entry,
                In entry (Object_entries
                            (get_opt (get_opt (get_opt unknown_property_logic "effect") "v2")
                               "parameterValues")) /\
                get_opt (snd entry) "type" = VStr "column" /\
                p = columnPropertyId (get_opt (snd entry) "column") /\
                truthy p = true)).
Proof.
  destruct (all_properties_exact unknown_property_logic [VStr "unknown_property"] eq_refl)
    as [Hd [_ Hp]].
  split; [exact Hd |]. intros p Hin.
  destruct (proj1 (Hp eq_refl p) Hin) as [H | [[Hc _] | [[Hc _] | H]]];
    [left; exact H | discriminate Hc | discriminate Hc | right; exact H].
Defined.

(** ** What a template builds survives compression *)













Section TemplateRoundTrip.

Context {R : Runtime} {L : RuntimeLaws R}.


End TemplateRoundTrip.

